(** * LoyaltyBlocks: phone pipeline, form validation, RBAC and request handlers

    A shallow embedding of the TypeScript sources (lib/phone-formatter.ts,
    lib/validation/phone.ts, lib/validation/form.ts, lib/auth.ts,
    lib/middleware/rbac.ts, lib/tenant-context.ts and the API route handlers)
    followed by the properties established about them. *)

From Stdlib Require Import ZArith NArith List String Ascii Bool Lia.
From Stdlib Require Import DecimalString.
Import ListNotations.

Set Implicit Arguments.
Open Scope list_scope.

(* ================================================================== *)
(** * JavaScript strings *)

(** A JavaScript string is a finite sequence of UTF-16 code units.  The
    string literals of the sources are ASCII and are written with [str]. *)
Module JS.

Local Open Scope N_scope.

Definition char := N.
Definition jsstring := list char.

Definition ch (a : ascii) : char := N_of_ascii a.
Definition str (s : string) : jsstring := map N_of_ascii (list_ascii_of_string s).

Definition char_eqb (a b : char) : bool := N.eqb a b.

Fixpoint eqb (s t : jsstring) : bool :=
  match s, t with
  | [], [] => true
  | a :: s', b :: t' => char_eqb a b && eqb s' t'
  | _, _ => false
  end.

Definition between (lo hi c : char) : bool := N.leb lo c && N.leb c hi.

(** [\d] : ASCII digits only, also without the unicode flag. *)
Definition isDigit (c : char) : bool := between 48 57 c.
Definition isUpper (c : char) : bool := between 65 90 c.
Definition isLower (c : char) : bool := between 97 122 c.
Definition isLetter (c : char) : bool := isUpper c || isLower c.

(** [\s] and [String.prototype.trim] share one set: WhiteSpace plus
    LineTerminator of ECMA-262 (TAB, LF, VT, FF, CR, SP, NBSP, the Zs
    category, LS, PS and the byte order mark). *)
Definition isWhiteSpace (c : char) : bool :=
  between 9 13 c || N.eqb c 32 || N.eqb c 160 || N.eqb c 5760
  || between 8192 8202 c || N.eqb c 8232 || N.eqb c 8233
  || N.eqb c 8239 || N.eqb c 8287 || N.eqb c 12288 || N.eqb c 65279.

Fixpoint trimStart (s : jsstring) : jsstring :=
  match s with
  | [] => []
  | c :: s' => if isWhiteSpace c then trimStart s' else s
  end.

Definition trimEnd (s : jsstring) : jsstring := rev (trimStart (rev s)).

Definition trim (s : jsstring) : jsstring := trimEnd (trimStart s).

(** Truthiness of a string value: only the empty string is falsy. *)
Definition truthy (s : jsstring) : bool :=
  match s with [] => false | _ :: _ => true end.

(** Truthiness of an optional (possibly [undefined]) string. *)
Definition truthy_opt (o : option jsstring) : bool :=
  match o with Some s => truthy s | None => false end.

(** [a || b] on string operands where [a] may be undefined. *)
Definition or_else (a : option jsstring) (b : jsstring) : jsstring :=
  match a with
  | Some s => if truthy s then s else b
  | None => b
  end.

Fixpoint startsWith (s p : jsstring) {struct p} : bool :=
  match p, s with
  | [], _ => true
  | a :: p', b :: s' => char_eqb a b && startsWith s' p'
  | _ :: _, [] => false
  end.

(** [String.prototype.includes]. *)
Fixpoint includes (s p : jsstring) : bool :=
  startsWith s p ||
  match s with
  | [] => false
  | _ :: s' => includes s' p
  end.

(** [Array.prototype.includes] on an array of strings. *)
Definition array_includes (l : list jsstring) (x : jsstring) : bool :=
  existsb (eqb x) l.

Definition decimal (n : N) : jsstring := str (NilZero.string_of_uint (N.to_uint n)).

End JS.
Import JS.

(* ================================================================== *)
(** * Regular expressions

    The literals of the sources use character classes, concatenation,
    alternation-free groups, [+], [?] and bounded repetition; none uses
    back-references or look-around.  [test] on a pattern anchored with
    [^] and [$] (no [m] flag) decides whether the whole subject belongs to
    the language, which Brzozowski derivatives compute. *)
Module Regex.

Inductive regex : Type :=
| Void
| Eps
| OneOf (p : char -> bool)
| Cat (a b : regex)
| Alt (a b : regex)
| Star (a : regex).

Fixpoint nullable (r : regex) : bool :=
  match r with
  | Void => false
  | Eps => true
  | OneOf _ => false
  | Cat a b => nullable a && nullable b
  | Alt a b => nullable a || nullable b
  | Star _ => true
  end.

Fixpoint deriv (c : char) (r : regex) : regex :=
  match r with
  | Void => Void
  | Eps => Void
  | OneOf p => if p c then Eps else Void
  | Cat a b =>
      if nullable a then Alt (Cat (deriv c a) b) (deriv c b)
      else Cat (deriv c a) b
  | Alt a b => Alt (deriv c a) (deriv c b)
  | Star a => Cat (deriv c a) (Star a)
  end.

Fixpoint fullMatch (r : regex) (s : jsstring) : bool :=
  match s with
  | [] => nullable r
  | c :: s' => fullMatch (deriv c r) s'
  end.

(** [/^r$/.test(s)] *)
Definition test (r : regex) (s : jsstring) : bool := fullMatch r s.

(** Derived forms. *)
Definition Chr (a : ascii) : regex := OneOf (char_eqb (ch a)).
Definition Plus (r : regex) : regex := Cat r (Star r).
Definition Opt (r : regex) : regex := Alt Eps r.

Fixpoint exactly (n : nat) (r : regex) : regex :=
  match n with
  | O => Eps
  | S n' => Cat r (exactly n' r)
  end.

Fixpoint upTo (n : nat) (r : regex) : regex :=
  match n with
  | O => Eps
  | S n' => Opt (Cat r (upTo n' r))
  end.

(** [r{m,n}] *)
Definition Rep (m n : nat) (r : regex) : regex :=
  Cat (exactly m r) (upTo (n - m) r).

Fixpoint seq (rs : list regex) : regex :=
  match rs with
  | [] => Eps
  | [r] => r
  | r :: rs' => Cat r (seq rs')
  end.

(** Declarative reading of a pattern: the words it denotes. *)
Inductive Lang : regex -> jsstring -> Prop :=
| LEps : Lang Eps []
| LOneOf p c : p c = true -> Lang (OneOf p) [c]
| LCat a b s t : Lang a s -> Lang b t -> Lang (Cat a b) (s ++ t)
| LAltL a b s : Lang a s -> Lang (Alt a b) s
| LAltR a b s : Lang b s -> Lang (Alt a b) s
| LStar0 a : Lang (Star a) []
| LStarS a s t : Lang a s -> Lang (Star a) t -> Lang (Star a) (s ++ t).

(** [s.replace(/[class]/g, "")] : every code unit of the class is dropped. *)
Definition removeAll (p : char -> bool) (s : jsstring) : jsstring :=
  filter (fun c => negb (p c)) s.

End Regex.
Import Regex.

(* ================================================================== *)
(** * lib/phone-formatter.ts *)

Module PhoneFormatter.

(** [const e164Regex = /^\+[1-9]\d{1,14}$/] *)
Definition e164Regex : regex :=
  seq [Chr "+"; OneOf (between 49%N 57%N); Rep 1 14 (OneOf isDigit)].

Definition isE164Format (phone : jsstring) : bool := test e164Regex phone.

(** The canonical-form rule in the words of the specification: a plus
    sign, one non-zero digit, then between one and fourteen digits. *)
Definition canonical_form_spec (s : jsstring) : Prop :=
  exists d rest,
    s = ch "+" :: d :: rest
    /\ isDigit d = true /\ d <> ch "0"
    /\ 1 <= List.length rest <= 14
    /\ Forall (fun c => isDigit c = true) rest.

End PhoneFormatter.
Import PhoneFormatter.

(* ================================================================== *)
(** * types/index.ts *)

Module Types.

(** [type UserRole = "SUPER_ADMIN" | "MANAGER" | "VIEWER"] *)
Inductive UserRole : Type := SUPER_ADMIN | MANAGER | VIEWER.

Definition role_name (r : UserRole) : jsstring :=
  match r with
  | SUPER_ADMIN => str "SUPER_ADMIN"
  | MANAGER => str "MANAGER"
  | VIEWER => str "VIEWER"
  end.

Definition role_eqb (a b : UserRole) : bool :=
  match a, b with
  | SUPER_ADMIN, SUPER_ADMIN | MANAGER, MANAGER | VIEWER, VIEWER => true
  | _, _ => false
  end.

(** [keyof typeof ROLE_PERMISSIONS.SUPER_ADMIN] *)
Inductive Action : Type :=
| canManageUsers | canManageSettings | canCreateCustomers
| canEditCustomers | canDeleteCustomers | canViewCustomers.

Definition ROLE_PERMISSIONS (r : UserRole) (a : Action) : bool :=
  match r with
  | SUPER_ADMIN => true
  | MANAGER =>
      match a with
      | canManageUsers | canManageSettings => false
      | _ => true
      end
  | VIEWER =>
      match a with
      | canViewCustomers => true
      | _ => false
      end
  end.

Record ValidationError : Type := mkValidationError {
  field : jsstring;
  message : jsstring
}.

Record PhoneValidationResult : Type := mkPhoneValidationResult {
  isValid : bool;
  formatted : option jsstring;
  country : option jsstring;
  error : option jsstring
}.

Record PhoneAvailabilityResult : Type := mkPhoneAvailabilityResult {
  available : bool;
  availability_message : option jsstring
}.

(** A [Date] object holds a time value: milliseconds since the epoch, or
    NaN for an invalid date. *)
Definition JsDate := option Z.

(** [birthDate: Date | string] *)
Inductive DateOrString : Type :=
| IsDate (d : JsDate)
| IsString (s : jsstring).

Record CustomerRegistrationData : Type := mkCustomerRegistrationData {
  firstName : jsstring;
  lastName : jsstring;
  phone : jsstring;
  birthDate : DateOrString;
  email : option jsstring;
  addressLine1 : option jsstring;
  addressLine2 : option jsstring;
  city : option jsstring;
  state : option jsstring;
  postalCode : option jsstring;
  data_country : option jsstring;
  consentGiven : bool
}.

End Types.
Import Types.

(* ================================================================== *)
(** * Date arithmetic (ECMA-262, Date objects) *)

Module JsDateLib.

Local Open Scope Z_scope.

(** What the code takes from the JavaScript host: the local time zone
    adjustment, the parser behind [new Date(string)] and the Unicode case
    mapping of [String.prototype.toUpperCase]. *)
Class Host : Type := {
  LocalTZA : Z -> bool -> Z;
  Date_parse : jsstring -> JsDate;
  toUpperCase : jsstring -> jsstring
}.

Definition msPerDay : Z := 86400000.
Definition maxTime : Z := 8640000000000000.

Definition Day (t : Z) : Z := t / msPerDay.
Definition TimeWithinDay (t : Z) : Z := t mod msPerDay.

Definition isLeapYear (y : Z) : bool :=
  if negb (y mod 4 =? 0) then false
  else if negb (y mod 100 =? 0) then true
  else if negb (y mod 400 =? 0) then false
  else true.

Definition DaysInYear (y : Z) : Z := if isLeapYear y then 366 else 365.

Definition DayFromYear (y : Z) : Z :=
  365 * (y - 1970) + (y - 1969) / 4 - (y - 1901) / 100 + (y - 1601) / 400.

Definition TimeFromYear (y : Z) : Z := msPerDay * DayFromYear y.

(** The largest [y] with [TimeFromYear y <= t], found from an estimate
    that is off by at most one year. *)
Definition YearFromTime (t : Z) : Z :=
  let d := Day t in
  let y := 1970 + (d * 400) / 146097 in
  if d <? DayFromYear y then y - 1
  else if DayFromYear (y + 1) <=? d then y + 1
  else y.

Definition InLeapYear (t : Z) : bool := isLeapYear (YearFromTime t).

Definition DayWithinYear (t : Z) : Z := Day t - DayFromYear (YearFromTime t).

(** Number of days of the year that precede month [m] (0 = January). *)
Definition daysBeforeMonth (leap : bool) (m : Z) : Z :=
  let l := if leap then 1 else 0 in
  if m <=? 0 then 0
  else if m =? 1 then 31
  else if m =? 2 then 59 + l
  else if m =? 3 then 90 + l
  else if m =? 4 then 120 + l
  else if m =? 5 then 151 + l
  else if m =? 6 then 181 + l
  else if m =? 7 then 212 + l
  else if m =? 8 then 243 + l
  else if m =? 9 then 273 + l
  else if m =? 10 then 304 + l
  else 334 + l.

Definition MonthFromTime (t : Z) : Z :=
  let d := DayWithinYear t in
  let l := if InLeapYear t then 1 else 0 in
  if d <? 31 then 0
  else if d <? 59 + l then 1
  else if d <? 90 + l then 2
  else if d <? 120 + l then 3
  else if d <? 151 + l then 4
  else if d <? 181 + l then 5
  else if d <? 212 + l then 6
  else if d <? 243 + l then 7
  else if d <? 273 + l then 8
  else if d <? 304 + l then 9
  else if d <? 334 + l then 10
  else 11.

Definition DateFromTime (t : Z) : Z :=
  DayWithinYear t - daysBeforeMonth (InLeapYear t) (MonthFromTime t) + 1.

(** [MakeDay(year, month, date)] *)
Definition MakeDay (year month date : Z) : Z :=
  let ym := year + month / 12 in
  let mn := month mod 12 in
  DayFromYear ym + daysBeforeMonth (isLeapYear ym) mn + date - 1.

Definition MakeDate (day time : Z) : Z := day * msPerDay + time.

Definition TimeClip (t : Z) : JsDate :=
  if maxTime <? Z.abs t then None else Some t.

Section WithHost.
Context {host : Host}.

Definition LocalTime (t : Z) : Z := t + LocalTZA t true.
Definition UTC (t : Z) : Z := t - LocalTZA t false.

(** [d.getFullYear()] on a valid date. *)
Definition getFullYear (t : Z) : Z := YearFromTime (LocalTime t).

(** [d.setFullYear(year)] on a valid date; the result is the new time
    value. *)
Definition setFullYear (t : Z) (year : Z) : JsDate :=
  let lt := LocalTime t in
  let newDate :=
    MakeDate (MakeDay year (MonthFromTime lt) (DateFromTime lt))
             (TimeWithinDay lt) in
  TimeClip (UTC newDate).

(** [const d = new Date(t); d.setFullYear(d.getFullYear() - k)] *)
Definition yearsBefore (t : Z) (k : Z) : JsDate :=
  setFullYear t (getFullYear t - k).

(** [new Date(x)] for a string argument. *)
Definition newDateFromString (s : jsstring) : JsDate := Date_parse s.
End WithHost.

(** Relational comparison of two dates goes through their time values;
    every comparison with NaN is false. *)
Definition date_ge (a b : JsDate) : bool :=
  match a, b with
  | Some x, Some y => y <=? x
  | _, _ => false
  end.

Definition date_lt (a b : JsDate) : bool :=
  match a, b with
  | Some x, Some y => x <? y
  | _, _ => false
  end.

(** The two readings of the system clock made by one run of the birth
    date validator ([today] and [minDate]). *)
Record ClockReads : Type := mkClockReads {
  read_today : Z;
  read_minDate : Z
}.

End JsDateLib.
Import JsDateLib.

(* ================================================================== *)
(** * lib/validation/form.ts *)

Module FormValidation.

Definition notSpaceOrAt (c : char) : bool :=
  negb (isWhiteSpace c || char_eqb c (ch "@")).

(** [/^[^\s@]+@[^\s@]+\.[^\s@]+$/] *)
Definition emailRegex : regex :=
  seq [Plus (OneOf notSpaceOrAt); Chr "@"; Plus (OneOf notSpaceOrAt);
       Chr "."; Plus (OneOf notSpaceOrAt)].

Definition validateEmail (email : jsstring) : option ValidationError :=
  if negb (truthy email) then None
  else if negb (test emailRegex email) then
    Some (mkValidationError (str "email")
            (str "Please enter a valid email address"))
  else None.

(** [fieldName: "firstName" | "lastName"] *)
Inductive NameField : Type := FirstNameField | LastNameField.

Definition nameField_key (f : NameField) : jsstring :=
  match f with
  | FirstNameField => str "firstName"
  | LastNameField => str "lastName"
  end.

(** [fieldName === "firstName" ? "First" : "Last"] *)
Definition nameField_label (f : NameField) : jsstring :=
  match f with
  | FirstNameField => str "First"
  | LastNameField => str "Last"
  end.

(** The class [[a-zA-Z\s\-']]. *)
Definition nameChar (c : char) : bool :=
  isLower c || isUpper c || isWhiteSpace c
  || char_eqb c (ch "-") || char_eqb c (ch "'").

(** [/^[a-zA-Z\s\-']+$/] *)
Definition nameRegex : regex := Plus (OneOf nameChar).

Definition validateName (name : jsstring) (fieldName : NameField)
  : option ValidationError :=
  if negb (truthy name) || Nat.eqb (List.length (trim name)) 0 then
    Some (mkValidationError (nameField_key fieldName)
            (nameField_label fieldName ++ str " name is required"))
  else if Nat.ltb (List.length (trim name)) 2 then
    Some (mkValidationError (nameField_key fieldName)
            (nameField_label fieldName ++ str " name must be at least 2 characters"))
  else if Nat.ltb 100 (List.length name) then
    Some (mkValidationError (nameField_key fieldName)
            (nameField_label fieldName ++ str " name must be less than 100 characters"))
  else if negb (test nameRegex name) then
    Some (mkValidationError (nameField_key fieldName)
            (nameField_label fieldName
             ++ str " name can only contain letters, spaces, hyphens, and apostrophes"))
  else None.

Section WithHost.
Context {host : Host}.

Definition validateBirthDate (clk : ClockReads) (birthDate : DateOrString)
  : option ValidationError :=
  let falsy := match birthDate with
               | IsDate _ => false
               | IsString s => negb (truthy s)
               end in
  if falsy then
    Some (mkValidationError (str "birthDate") (str "Birth date is required"))
  else
    let date := match birthDate with
                | IsDate d => d
                | IsString s => newDateFromString s
                end in
    match date with
    | None =>
        Some (mkValidationError (str "birthDate") (str "Please enter a valid date"))
    | Some _ =>
        let today : JsDate := Some (read_today clk) in
        if date_ge date today then
          Some (mkValidationError (str "birthDate")
                  (str "Birth date must be in the past"))
        else
          let minDate := yearsBefore (read_minDate clk) 150 in
          if date_lt date minDate then
            Some (mkValidationError (str "birthDate")
                    (str "Please enter a valid birth date"))
          else None
    end.
End WithHost.

(** [/^\d{5}(-\d{4})?$/] *)
Definition usZipRegex : regex :=
  seq [Rep 5 5 (OneOf isDigit); Opt (Cat (Chr "-") (Rep 4 4 (OneOf isDigit)))].

(** [/^[A-Za-z]\d[A-Za-z] ?\d[A-Za-z]\d$/] *)
Definition caPostalRegex : regex :=
  seq [OneOf isLetter; OneOf isDigit; OneOf isLetter; Opt (Chr " ");
       OneOf isDigit; OneOf isLetter; OneOf isDigit].

(** [/^[A-Z]{1,2}\d{1,2}[A-Z]?\s?\d[A-Z]{2}$/i] : under the [i] flag the
    class [[A-Z]] also matches the lower-case letters. *)
Definition ukPostcodeRegex : regex :=
  seq [Rep 1 2 (OneOf isLetter); Rep 1 2 (OneOf isDigit);
       Opt (OneOf isLetter); Opt (OneOf isWhiteSpace);
       OneOf isDigit; Rep 2 2 (OneOf isLetter)].

Definition opt_eqb (o : option jsstring) (s : jsstring) : bool :=
  match o with Some x => JS.eqb x s | None => false end.

Definition validatePostalCode (postalCode : jsstring)
    (countryCode : option jsstring) : option ValidationError :=
  if negb (truthy postalCode) then None
  else if Nat.ltb (List.length postalCode) 3
          || Nat.ltb 10 (List.length postalCode) then
    Some (mkValidationError (str "postalCode")
            (str "Please enter a valid postal code"))
  else if opt_eqb countryCode (str "US") then
    if negb (test usZipRegex postalCode) then
      Some (mkValidationError (str "postalCode")
              (str "Please enter a valid US ZIP code (e.g., 12345 or 12345-6789)"))
    else None
  else if opt_eqb countryCode (str "CA") then
    if negb (test caPostalRegex postalCode) then
      Some (mkValidationError (str "postalCode")
              (str "Please enter a valid Canadian postal code (e.g., A1A 1A1)"))
    else None
  else if opt_eqb countryCode (str "GB") then
    if negb (test ukPostcodeRegex postalCode) then
      Some (mkValidationError (str "postalCode")
              (str "Please enter a valid UK postcode"))
    else None
  else None.

(** [fieldName: "addressLine1" | "addressLine2"] *)
Inductive AddressField : Type := AddressLine1Field | AddressLine2Field.

Definition addressField_key (f : AddressField) : jsstring :=
  match f with
  | AddressLine1Field => str "addressLine1"
  | AddressLine2Field => str "addressLine2"
  end.

Definition validateAddressLine (address : jsstring) (fieldName : AddressField)
  : option ValidationError :=
  if negb (truthy address) then None
  else if Nat.ltb (List.length address) 3 then
    Some (mkValidationError (addressField_key fieldName)
            (str "Address must be at least 3 characters"))
  else if Nat.ltb 200 (List.length address) then
    Some (mkValidationError (addressField_key fieldName)
            (str "Address must be less than 200 characters"))
  else None.

(** The class [[a-zA-Z\s\-'.]]. *)
Definition cityChar (c : char) : bool := nameChar c || char_eqb c (ch ".").

Definition cityRegex : regex := Plus (OneOf cityChar).

Definition validateCity (city : jsstring) : option ValidationError :=
  if negb (truthy city) then None
  else if Nat.ltb (List.length (trim city)) 2 then
    Some (mkValidationError (str "city") (str "City must be at least 2 characters"))
  else if Nat.ltb 100 (List.length city) then
    Some (mkValidationError (str "city") (str "City must be less than 100 characters"))
  else if negb (test cityRegex city) then
    Some (mkValidationError (str "city")
            (str "City can only contain letters, spaces, hyphens, apostrophes, and periods"))
  else None.

Definition validateState (state : jsstring) : option ValidationError :=
  if negb (truthy state) then None
  else if Nat.ltb (List.length (trim state)) 2 then
    Some (mkValidationError (str "state") (str "State must be at least 2 characters"))
  else if Nat.ltb 100 (List.length state) then
    Some (mkValidationError (str "state") (str "State must be less than 100 characters"))
  else None.

Definition validateConsent (consentGiven : bool) : option ValidationError :=
  if negb consentGiven then
    Some (mkValidationError (str "consentGiven")
            (str "You must agree to the terms to continue"))
  else None.

(** [if (e) errors.push(e)] *)
Definition push (errors : list ValidationError) (e : option ValidationError)
  : list ValidationError :=
  match e with
  | Some x => errors ++ [x]
  | None => errors
  end.

(** [if (data.f) { const e = validate(data.f); if (e) errors.push(e) }] *)
Definition pushOptional (errors : list ValidationError) (v : option jsstring)
    (validate : jsstring -> option ValidationError) : list ValidationError :=
  match v with
  | Some s => if truthy s then push errors (validate s) else errors
  | None => errors
  end.

Section WithHost.
Context {host : Host}.

Definition validateCustomerRegistration (clk : ClockReads)
    (data : CustomerRegistrationData) : list ValidationError :=
  let errors := [] in
  let errors := push errors (validateName (firstName data) FirstNameField) in
  let errors := push errors (validateName (lastName data) LastNameField) in
  let errors := push errors (validateBirthDate clk (birthDate data)) in
  let errors := push errors (validateConsent (consentGiven data)) in
  let errors := pushOptional errors (email data) validateEmail in
  let errors := pushOptional errors (addressLine1 data)
                  (fun a => validateAddressLine a AddressLine1Field) in
  let errors := pushOptional errors (addressLine2 data)
                  (fun a => validateAddressLine a AddressLine2Field) in
  let errors := pushOptional errors (city data) validateCity in
  let errors := pushOptional errors (state data) validateState in
  let errors := pushOptional errors (postalCode data)
                  (fun p => validatePostalCode p (data_country data)) in
  errors.
End WithHost.

End FormValidation.
Import FormValidation.

(* ================================================================== *)
(** * lib/phone-formatter.ts: validateAndFormatPhone *)

Module PhoneLibrary.

(** The [PhoneNumber] object of libphonenumber-js, as far as the code
    reads it: [format("E.164")] and [country]. *)
Record PhoneNumber : Type := mkPhoneNumber {
  format_E164 : jsstring;
  pn_country : option jsstring
}.

(** The three entry points of libphonenumber-js that the formatter
    calls.  [None] stands for a thrown exception. *)
Class PhoneLib : Type := {
  getCountries : list jsstring;
  isValidPhoneNumber : jsstring -> jsstring -> option bool;
  parsePhoneNumber : jsstring -> jsstring -> option PhoneNumber
}.

(** The class [[\s\-\(\)\.]] removed from the raw input. *)
Definition separatorChar (c : char) : bool :=
  isWhiteSpace c || char_eqb c (ch "-") || char_eqb c (ch "(")
  || char_eqb c (ch ")") || char_eqb c (ch ".").

Definition invalidPhone (msg : string) : PhoneValidationResult :=
  mkPhoneValidationResult false None None (Some (str msg)).

Section WithLib.
Context {lib : PhoneLib}.

Definition validateAndFormatPhone (phoneInput countryCode : jsstring)
  : PhoneValidationResult :=
  let cleaned := removeAll separatorChar phoneInput in
  if negb (truthy cleaned) then invalidPhone "Phone number is required"
  else
    let validCountries := getCountries in
    if negb (array_includes validCountries countryCode) then
      invalidPhone "Invalid country code"
    else
      match isValidPhoneNumber cleaned countryCode with
      | None => invalidPhone "Failed to parse phone number"
      | Some false => invalidPhone "Invalid phone number for the selected country"
      | Some true =>
          match parsePhoneNumber cleaned countryCode with
          | None => invalidPhone "Failed to parse phone number"
          | Some phoneNumber =>
              mkPhoneValidationResult true
                (Some (format_E164 phoneNumber))
                (Some (or_else (pn_country phoneNumber) countryCode))
                None
          end
      end.
End WithLib.

(** A small numbering plan used to run the formatter on examples: the
    North American plan, for the countries US and CA.  A national number
    is ten digits whose first digit is not 0 or 1; the international form
    prefixes it with [+1]. *)
Definition nanpNational (s : jsstring) : bool :=
  match s with
  | d :: rest =>
      between 50%N 57%N d && Nat.eqb (List.length rest) 9
      && forallb isDigit rest
  | [] => false
  end.

Definition nanpNationalPart (s : jsstring) : option jsstring :=
  if startsWith s (str "+1") then
    if nanpNational (skipn 2 s) then Some (skipn 2 s) else None
  else if nanpNational s then Some s else None.

Definition nanpLib : PhoneLib := {|
  getCountries := [str "CA"; str "US"];
  isValidPhoneNumber := fun s _ =>
    Some (match nanpNationalPart s with Some _ => true | None => false end);
  parsePhoneNumber := fun s c =>
    match nanpNationalPart s with
    | Some n => Some (mkPhoneNumber (str "+1" ++ n) (Some c))
    | None => None
    end
|}.

End PhoneLibrary.
Import PhoneLibrary.

(* ================================================================== *)
(** * The persistence layer (lib/db.ts, Prisma client) *)

Module Persistence.

Definition Id := jsstring.

Record Organization : Type := mkOrganization {
  org_id : Id;
  org_name : jsstring;
  org_slug : jsstring
}.

Record OrganizationSettings : Type := mkOrganizationSettings {
  settings_id : Id;
  settings_organizationId : Id;
  settings_country : jsstring
}.

(** [include: { settings: true }] *)
Record OrganizationWithSettings : Type := mkOrganizationWithSettings {
  organization : Organization;
  settings : option OrganizationSettings
}.

Record Customer : Type := mkCustomer {
  cust_id : Id;
  cust_organizationId : Id;
  cust_firstName : jsstring;
  cust_lastName : jsstring;
  cust_phone : jsstring;
  cust_birthDate : JsDate;
  cust_email : option jsstring;
  cust_addressLine1 : option jsstring;
  cust_addressLine2 : option jsstring;
  cust_city : option jsstring;
  cust_state : option jsstring;
  cust_postalCode : option jsstring;
  cust_country : option jsstring;
  cust_consentGiven : bool;
  cust_createdBy : option Id;
  cust_updatedBy : option Id
}.

Record User : Type := mkUser {
  user_id : Id;
  user_clerkUserId : jsstring;
  user_email : jsstring;
  user_firstName : jsstring;
  user_lastName : jsstring;
  user_role : UserRole;
  user_organizationId : Id
}.

(** The tables, in insertion order, and the counter behind [cuid()]. *)
Record Db : Type := mkDb {
  organizations : list Organization;
  settingsTable : list OrganizationSettings;
  customers : list Customer;
  users : list User;
  nextId : N
}.

Definition emptyDb : Db := mkDb [] [] [] [] 0.

Definition cuid (n : N) : Id := str "c" ++ decimal n.

(** Values thrown by the client: a known request error carries a [code]
    property (P2002 is the unique-constraint violation); anything else,
    such as a lost connection, does not. *)
Inductive JsError : Type :=
| PrismaKnownRequestError (code : jsstring)
| OtherError (msg : jsstring).

Inductive Result (A : Type) : Type :=
| Ok (a : A)
| Throw (e : JsError).
Arguments Ok {A} a.
Arguments Throw {A} e.

(** The calls a handler can make, as they appear in the query log. *)
Inductive DbCall : Type :=
| CustomerFindFirst (organizationId phone : jsstring) (idNot : option Id)
| CustomerCreate (organizationId phone : jsstring)
| OrganizationFindUnique (slug : jsstring)
| OrganizationCreate (slug : jsstring)
| SettingsFindUnique (organizationId : Id)
| SettingsCreate (organizationId : Id)
| UserFindUnique (clerkUserId : jsstring)
| UserCount (organizationId : Id)
| UserCreate (clerkUserId : jsstring).

(** What the rest of the system does around one awaited call: the writes
    of concurrent requests that land before it, and whether the call
    itself fails. *)
Record StepEnv : Type := mkStepEnv {
  interfere : Db -> Db;
  fault : option JsError
}.

Definition quiet : StepEnv := mkStepEnv (fun d => d) None.

Record World : Type := mkWorld {
  db : Db;
  schedule : list StepEnv;
  trace : list DbCall
}.

(** A world in which the request runs alone against a healthy store. *)
Definition alone (d : Db) : World := mkWorld d [] [].

(** Computations that await the store. *)
Definition M (A : Type) : Type := World -> Result A * World.

Definition ret {A} (a : A) : M A := fun w => (Ok a, w).

Definition bind {A B} (m : M A) (k : A -> M B) : M B :=
  fun w =>
    match m w with
    | (Ok a, w') => k a w'
    | (Throw e, w') => (Throw e, w')
    end.

Definition throw {A} (e : JsError) : M A := fun w => (Throw e, w).

(** [try { m } catch (e) { h e }] *)
Definition try_catch {A} (m : M A) (h : JsError -> M A) : M A :=
  fun w =>
    match m w with
    | (Ok a, w') => (Ok a, w')
    | (Throw e, w') => h e w'
    end.

(** One awaited call: the environment moves first, then the call either
    fails or runs atomically. *)
Definition await {A} (call : DbCall) (op : Db -> Result A * Db) : M A :=
  fun w =>
    let env := match schedule w with [] => quiet | e :: _ => e end in
    let d := interfere env (db w) in
    let log := trace w ++ [call] in
    match fault env with
    | Some e => (Throw e, mkWorld d (tl (schedule w)) log)
    | None =>
        let (r, d') := op d in
        (r, mkWorld d' (tl (schedule w)) log)
    end.

End Persistence.
Import Persistence.

Declare Scope js_scope.
Notation "x <- m ;; k" := (bind m (fun x => k))
  (at level 61, m at next level, right associativity) : js_scope.
Open Scope js_scope.

(* ================================================================== *)
(** * Queries issued through the Prisma client *)

Module Queries.

(** [where: { organizationId, phone, ...(excludeCustomerId && { id: { not } }) }] *)
Definition customerWhere (organizationId phone : jsstring) (idNot : option Id)
    (c : Customer) : bool :=
  JS.eqb (cust_organizationId c) organizationId
  && JS.eqb (cust_phone c) phone
  && match idNot with
     | Some i => negb (JS.eqb (cust_id c) i)
     | None => true
     end.

Definition customer_findFirst (organizationId phone : jsstring)
    (idNot : option Id) : M (option Customer) :=
  await (CustomerFindFirst organizationId phone idNot)
    (fun d => (Ok (find (customerWhere organizationId phone idNot) (customers d)), d)).

(** The [data] argument of [db.customer.create]. *)
Record CustomerCreateInput : Type := mkCustomerCreateInput {
  in_organizationId : Id;
  in_firstName : jsstring;
  in_lastName : jsstring;
  in_phone : jsstring;
  in_birthDate : JsDate;
  in_email : option jsstring;
  in_addressLine1 : option jsstring;
  in_addressLine2 : option jsstring;
  in_city : option jsstring;
  in_state : option jsstring;
  in_postalCode : option jsstring;
  in_country : option jsstring;
  in_consentGiven : bool;
  in_createdBy : option Id;
  in_updatedBy : option Id
}.

Definition P2002 : JsError := PrismaKnownRequestError (str "P2002").

(** [@@unique([organizationId, phone])] *)
Definition phoneTaken (d : Db) (organizationId phone : jsstring) : bool :=
  existsb (customerWhere organizationId phone None) (customers d).

Definition customer_create (data : CustomerCreateInput) : M Customer :=
  await (CustomerCreate (in_organizationId data) (in_phone data))
    (fun d =>
       if phoneTaken d (in_organizationId data) (in_phone data) then
         (Throw P2002, d)
       else
         let c := mkCustomer (cuid (nextId d)) (in_organizationId data)
                    (in_firstName data) (in_lastName data) (in_phone data)
                    (in_birthDate data) (in_email data)
                    (in_addressLine1 data) (in_addressLine2 data)
                    (in_city data) (in_state data) (in_postalCode data)
                    (in_country data) (in_consentGiven data)
                    (in_createdBy data) (in_updatedBy data) in
         (Ok c, mkDb (organizations d) (settingsTable d)
                     (customers d ++ [c]) (users d) (N.succ (nextId d)))).

Definition settingsOf (d : Db) (organizationId : Id) : option OrganizationSettings :=
  find (fun s => JS.eqb (settings_organizationId s) organizationId) (settingsTable d).

(** [db.organization.findUnique({ where: { slug }, include: { settings: true } })] *)
(** [db.organization.findUnique({ where: { slug }, include: { settings: true } })] *)
Definition organizationBySlug (d : Db) (slug : jsstring)
  : option OrganizationWithSettings :=
  match find (fun o => JS.eqb (org_slug o) slug) (organizations d) with
  | Some o => Some (mkOrganizationWithSettings o (settingsOf d (org_id o)))
  | None => None
  end.

Definition organization_findUnique (slug : jsstring)
  : M (option OrganizationWithSettings) :=
  await (OrganizationFindUnique slug) (fun d => (Ok (organizationBySlug d slug), d)).

(** [db.organization.create] with the nested [settings: { create }]. *)
Definition organization_create (name slug country : jsstring)
  : M OrganizationWithSettings :=
  await (OrganizationCreate slug)
    (fun d =>
       if existsb (fun o => JS.eqb (org_slug o) slug) (organizations d) then
         (Throw P2002, d)
       else
         let o := mkOrganization (cuid (nextId d)) name slug in
         let s := mkOrganizationSettings (cuid (N.succ (nextId d))) (org_id o) country in
         (Ok (mkOrganizationWithSettings o (Some s)),
          mkDb (organizations d ++ [o]) (settingsTable d ++ [s])
               (customers d) (users d) (N.succ (N.succ (nextId d))))).

Definition settings_findUnique (organizationId : Id)
  : M (option OrganizationSettings) :=
  await (SettingsFindUnique organizationId)
    (fun d => (Ok (settingsOf d organizationId), d)).

(** The relation [organization Organization @relation(fields:
    [organizationId], references: [id])] of the settings and user tables:
    some tenant has that id. *)
Definition tenantExists (d : Db) (organizationId : Id) : bool :=
  existsb (fun o => JS.eqb (org_id o) organizationId) (organizations d).

(** The foreign-key violation. *)
Definition P2003 : JsError := PrismaKnownRequestError (str "P2003").

(** [organizationId @unique], then the relation to the tenant. *)
Definition settings_create (organizationId : Id) (country : jsstring)
  : M OrganizationSettings :=
  await (SettingsCreate organizationId)
    (fun d =>
       match settingsOf d organizationId with
       | Some _ => (Throw P2002, d)
       | None =>
           if negb (tenantExists d organizationId) then (Throw P2003, d)
           else
             let s := mkOrganizationSettings (cuid (nextId d)) organizationId country in
             (Ok s, mkDb (organizations d) (settingsTable d ++ [s])
                         (customers d) (users d) (N.succ (nextId d)))
       end).

Definition user_findUnique (clerkUserId : jsstring) : M (option User) :=
  await (UserFindUnique clerkUserId)
    (fun d => (Ok (find (fun u => JS.eqb (user_clerkUserId u) clerkUserId) (users d)), d)).

Definition usersOf (d : Db) (organizationId : Id) : list User :=
  filter (fun u => JS.eqb (user_organizationId u) organizationId) (users d).

(** [db.user.count({ where: { organizationId } })] *)
Definition user_count (organizationId : Id) : M nat :=
  await (UserCount organizationId)
    (fun d => (Ok (List.length (usersOf d organizationId)), d)).

(** The [data] argument of [db.user.create]. *)
Record UserCreateInput : Type := mkUserCreateInput {
  uin_clerkUserId : jsstring;
  uin_email : jsstring;
  uin_firstName : jsstring;
  uin_lastName : jsstring;
  uin_role : UserRole;
  uin_organizationId : Id
}.

(** [clerkUserId @unique] and [@@unique([organizationId, email])] *)
Definition userClash (d : Db) (data : UserCreateInput) : bool :=
  existsb (fun u =>
             JS.eqb (user_clerkUserId u) (uin_clerkUserId data)
             || (JS.eqb (user_organizationId u) (uin_organizationId data)
                 && JS.eqb (user_email u) (uin_email data)))
          (users d).

(** The two unique keys, then the relation to the tenant. *)
Definition user_create (data : UserCreateInput) : M User :=
  await (UserCreate (uin_clerkUserId data))
    (fun d =>
       if userClash d data then (Throw P2002, d)
       else if negb (tenantExists d (uin_organizationId data)) then (Throw P2003, d)
       else
         let u := mkUser (cuid (nextId d)) (uin_clerkUserId data) (uin_email data)
                    (uin_firstName data) (uin_lastName data) (uin_role data)
                    (uin_organizationId data) in
         (Ok u, mkDb (organizations d) (settingsTable d) (customers d)
                     (users d ++ [u]) (N.succ (nextId d)))).

End Queries.
Import Queries.

(* ================================================================== *)
(** * lib/validation/phone.ts *)

Module PhoneValidation.

Definition checkPhoneAvailability (phone organizationId : jsstring)
    (excludeCustomerId : option Id) : M PhoneAvailabilityResult :=
  try_catch
    (if negb (isE164Format phone) then
       ret (mkPhoneAvailabilityResult false
              (Some (str "Phone number must be in E.164 format")))
     else
       existingCustomer <-
         customer_findFirst organizationId phone
           (if truthy_opt excludeCustomerId then excludeCustomerId else None) ;;
       match existingCustomer with
       | Some c =>
           ret (mkPhoneAvailabilityResult false
                  (Some (str "Phone number already registered to "
                         ++ cust_firstName c ++ str " " ++ cust_lastName c)))
       | None =>
           ret (mkPhoneAvailabilityResult true
                  (Some (str "Phone number is available")))
       end)
    (fun _ =>
       ret (mkPhoneAvailabilityResult false
              (Some (str "Error checking phone availability")))).

(** [PhoneValidationResult & { available?: boolean }] *)
Record PhoneCheckResult : Type := mkPhoneCheckResult {
  validation : PhoneValidationResult;
  check_available : option bool
}.

Section WithLib.
Context {lib : PhoneLib}.

Definition validatePhoneAndCheckAvailability
    (phoneInput countryCode organizationId : jsstring)
    (excludeCustomerId : option Id) : M PhoneCheckResult :=
  let validation := validateAndFormatPhone phoneInput countryCode in
  match isValid validation, formatted validation with
  | true, Some f =>
      if truthy f then
        availability <- checkPhoneAvailability f organizationId excludeCustomerId ;;
        ret (mkPhoneCheckResult
               (mkPhoneValidationResult (isValid validation)
                  (formatted validation) (country validation)
                  (if negb (available availability)
                   then availability_message availability else None))
               (Some (available availability)))
      else ret (mkPhoneCheckResult validation None)
  | _, _ => ret (mkPhoneCheckResult validation None)
  end.
End WithLib.

End PhoneValidation.
Import PhoneValidation.

(* ================================================================== *)
(** * lib/tenant-context.ts and lib/auth.ts *)

Module TenantAndAuth.

Definition getOrganizationBySlug (slug : jsstring)
  : M (option OrganizationWithSettings) :=
  try_catch (organization_findUnique slug) (fun _ => ret None).

Definition createOrganization (name slug : jsstring)
  : M (option OrganizationWithSettings) :=
  try_catch
    (o <- organization_create name slug (str "United States") ;; ret (Some o))
    (fun _ => ret None).

(** The caller's session as Clerk's [auth()] reports it. *)
Definition Session := option jsstring.

Definition getCurrentUser (session : Session) : M (option User) :=
  try_catch
    (match session with
     | None => ret None
     | Some clerkUserId =>
         if negb (truthy clerkUserId) then ret None
         else user_findUnique clerkUserId
     end)
    (fun _ => ret None).

Definition getUserByClerkId (clerkUserId : jsstring) : M (option User) :=
  try_catch (user_findUnique clerkUserId) (fun _ => ret None).

Definition hasRole (user : option User) (role : UserRole) : bool :=
  match user with
  | None => false
  | Some u => role_eqb (user_role u) role
  end.

Definition roleHierarchy (r : UserRole) : nat :=
  match r with
  | SUPER_ADMIN => 3
  | MANAGER => 2
  | VIEWER => 1
  end.

Definition hasMinimumRole (user : option User) (minimumRole : UserRole) : bool :=
  match user with
  | None => false
  | Some u => Nat.leb (roleHierarchy minimumRole) (roleHierarchy (user_role u))
  end.

Definition canPerformAction (user : option User) (action : Action) : bool :=
  match user with
  | None => false
  | Some u => ROLE_PERMISSIONS (user_role u) action
  end.

Definition createInternalUser (data : UserCreateInput) : M (option User) :=
  try_catch (u <- user_create data ;; ret (Some u)) (fun _ => ret None).

Definition isFirstUserInOrganization (organizationId : Id) : M bool :=
  try_catch
    (userCount <- user_count organizationId ;; ret (Nat.eqb userCount 0))
    (fun _ => ret false).

End TenantAndAuth.
Import TenantAndAuth.

(* ================================================================== *)
(** * HTTP responses *)

Module Http.

Inductive Payload : Type :=
| RegisterPayload (customerId : Id) (isFirstCustomer : bool) (message : jsstring)
| CreatePayload (customerId : Id) (message : jsstring)
| SettingsPayload (s : OrganizationSettings).

(** The JSON bodies the handlers send: the [ApiResponse] envelope, and the
    two shapes of the webhook endpoint. *)
Inductive Body : Type :=
| ApiSuccess (data : Payload)
| ApiError (error : jsstring) (details : option (list (jsstring * list jsstring)))
| WebhookReceived
| WebhookError (error : jsstring).

Record HttpResponse : Type := mkHttpResponse {
  status : nat;
  body : Body
}.

(** [NextResponse.json({ success: false, error }, { status })] *)
Definition fail (status : nat) (error : jsstring) : HttpResponse :=
  mkHttpResponse status (ApiError error None).

(** [acc[err.field] = [err.message]] : a later error on the same field
    replaces the earlier one and keeps its position. *)
Fixpoint setKey (acc : list (jsstring * list jsstring)) (k : jsstring)
    (v : list jsstring) : list (jsstring * list jsstring) :=
  match acc with
  | [] => [(k, v)]
  | (k', v') :: rest =>
      if JS.eqb k' k then (k', v) :: rest else (k', v') :: setKey rest k v
  end.

(** [validationErrors.reduce((acc, err) => ..., {})] *)
Definition detailsOf (errors : list ValidationError)
  : list (jsstring * list jsstring) :=
  fold_left (fun acc err => setKey acc (field err) [message err]) errors [].

Definition validationFailed (errors : list ValidationError) : HttpResponse :=
  mkHttpResponse 400 (ApiError (str "Validation failed") (Some (detailsOf errors))).

End Http.
Import Http.

(* ================================================================== *)
(** * lib/middleware/rbac.ts *)

Module Rbac.

Definition roleHasPermission (role : UserRole) (action : Action) : bool :=
  ROLE_PERMISSIONS role action.

Definition roleIsAtLeast (firstRole secondRole : UserRole) : bool :=
  Nat.leb (roleHierarchy secondRole) (roleHierarchy firstRole).

Record RbacOptions : Type := mkRbacOptions {
  minimumRole : option UserRole;
  requiredAction : option Action;
  organizationId : option Id
}.

Inductive RbacResult : Type :=
| Authorized (user : User)
| Denied (response : HttpResponse).

Definition withRBAC (session : Session) (options : RbacOptions) : M RbacResult :=
  try_catch
    (user <- getCurrentUser session ;;
     match user with
     | None => ret (Denied (fail 401 (str "Authentication required")))
     | Some u =>
         if truthy_opt (organizationId options)
            && negb (opt_eqb (organizationId options) (user_organizationId u))
         then ret (Denied (fail 403 (str "Access denied: Invalid organization")))
         else
           match minimumRole options with
           | Some m =>
               if negb (roleIsAtLeast (user_role u) m) then
                 ret (Denied (fail 403
                        (str "Access denied: Minimum role " ++ role_name m
                         ++ str " required")))
               else
                 match requiredAction options with
                 | Some a =>
                     if negb (roleHasPermission (user_role u) a) then
                       ret (Denied (fail 403
                              (str "Access denied: Insufficient permissions")))
                     else ret (Authorized u)
                 | None => ret (Authorized u)
                 end
           | None =>
               match requiredAction options with
               | Some a =>
                   if negb (roleHasPermission (user_role u) a) then
                     ret (Denied (fail 403
                            (str "Access denied: Insufficient permissions")))
                   else ret (Authorized u)
               | None => ret (Authorized u)
               end
           end
     end)
    (fun _ => ret (Denied (fail 500 (str "Internal server error")))).

(** Whether a message spells out one of the role identifiers. *)
Definition namesRole (msg : jsstring) : bool :=
  existsb (fun r => includes msg (role_name r)) [SUPER_ADMIN; MANAGER; VIEWER].

Definition errorOf (r : HttpResponse) : jsstring :=
  match body r with
  | ApiError e _ => e
  | WebhookError e => e
  | _ => []
  end.

End Rbac.
Import Rbac.

(* ================================================================== *)
(** * API route handlers *)

Module Routes.

(** [s?.trim() || null] *)
Definition trimOrNull (o : option jsstring) : option jsstring :=
  match o with
  | Some s => if truthy (trim s) then Some (trim s) else None
  | None => None
  end.

(** [s || null] *)
Definition orNull (o : option jsstring) : option jsstring :=
  if truthy_opt o then o else None.

(** [tenantId.slice(1).replace(/-/g, " ")] *)
Definition dashesToSpaces (s : jsstring) : jsstring :=
  map (fun c => if char_eqb c (ch "-") then ch " " else c) s.

Section WithHostAndLib.
Context {host : Host} {lib : PhoneLib}.

(** [new Date(body.birthDate)] *)
Definition newDate (b : DateOrString) : JsDate :=
  match b with
  | IsDate d => d
  | IsString s => newDateFromString s
  end.

Definition customerInput (organizationId : Id) (body : CustomerRegistrationData)
    (phone : jsstring) (by_ : option Id) : CustomerCreateInput :=
  mkCustomerCreateInput organizationId
    (trim (firstName body)) (trim (lastName body)) phone
    (newDate (birthDate body))
    (trimOrNull (email body)) (trimOrNull (addressLine1 body))
    (trimOrNull (addressLine2 body)) (trimOrNull (city body))
    (trimOrNull (state body)) (trimOrNull (postalCode body))
    (orNull (data_country body)) (consentGiven body) by_ by_.

(** The [catch (dbError)] around [db.customer.create]. *)
Definition onCreateError (dbError : JsError) : HttpResponse :=
  match dbError with
  | PrismaKnownRequestError code =>
      if JS.eqb code (str "P2002") then
        fail 409 (str "Phone number already registered")
      else fail 500 (str "Failed to create customer record")
  | OtherError _ => fail 500 (str "Failed to create customer record")
  end.

(** The check after [validatePhoneAndCheckAvailability]:
    [!isValid || available === false]. *)
Definition phoneRejected (p : PhoneCheckResult) : bool :=
  negb (isValid (validation p))
  || match check_available p with Some false => true | _ => false end.

Definition phoneRejection (p : PhoneCheckResult) : HttpResponse :=
  fail 400 (or_else (error (validation p)) (str "Invalid phone number")).

(** [organization.settings?.country] *)
Definition settingsCountry (o : OrganizationWithSettings) : option jsstring :=
  match settings o with
  | Some s => Some (settings_country s)
  | None => None
  end.

(** [organization.settings?.country || body.country || "United States"] *)
Definition registrationCountry (o : OrganizationWithSettings)
    (body : CustomerRegistrationData) : jsstring :=
  or_else (settingsCountry o) (or_else (data_country body) (str "United States")).

(** [body.country || organization.settings?.country || "United States"] *)
Definition adminCountry (o : OrganizationWithSettings)
    (body : CustomerRegistrationData) : jsstring :=
  or_else (data_country body) (or_else (settingsCountry o) (str "United States")).

(** [db.customer.create({ data: { ..., phone: phoneValidation.formatted! } })]:
    the client refuses a missing [phone] before any query is sent. *)
Definition createWithPhone (phone : option jsstring)
    (data : jsstring -> CustomerCreateInput) : M Customer :=
  match phone with
  | Some f => customer_create (data f)
  | None => throw (OtherError (str "PrismaClientValidationError"))
  end.

(** POST /api/[tenantId]/customers/register *)
Definition register_POST (clk : ClockReads) (tenantId : jsstring)
    (body : CustomerRegistrationData) : M HttpResponse :=
  try_catch
    (let validationErrors := validateCustomerRegistration clk body in
     if Nat.ltb 0 (List.length validationErrors) then
       ret (validationFailed validationErrors)
     else
       found <- getOrganizationBySlug tenantId ;;
       resolved <-
         match found with
         | Some o => ret (Some (o, false))
         | None =>
             let orgName :=
               toUpperCase (firstn 1 tenantId) ++ dashesToSpaces (skipn 1 tenantId) in
             created <- createOrganization orgName tenantId ;;
             match created with
             | Some o => ret (Some (o, true))
             | None => ret None
             end
         end ;;
       match resolved with
       | None => ret (fail 500 (str "Failed to create organization"))
       | Some (o, isFirstCustomer) =>
           phoneValidation <-
             validatePhoneAndCheckAvailability (phone body)
               (registrationCountry o body) (org_id (organization o)) None ;;
           if phoneRejected phoneValidation then
             ret (phoneRejection phoneValidation)
           else
             try_catch
               (customer <-
                  createWithPhone (formatted (validation phoneValidation))
                    (fun f => customerInput (org_id (organization o)) body f None) ;;
                ret (mkHttpResponse 201
                       (ApiSuccess
                          (RegisterPayload (cust_id customer) isFirstCustomer
                             (if isFirstCustomer
                              then str "Registration successful! You are the first customer."
                              else str "Registration successful!")))))
               (fun dbError => ret (onCreateError dbError))
       end)
    (fun _ => ret (fail 500 (str "Internal server error"))).

(** POST /api/[tenantId]/customers/create *)
Definition create_POST (clk : ClockReads) (session : Session)
    (tenantId : jsstring) (body : CustomerRegistrationData) : M HttpResponse :=
  try_catch
    (if negb (truthy_opt session) then ret (fail 401 (str "Unauthorized"))
     else
       found <- getOrganizationBySlug tenantId ;;
       match found with
       | None => ret (fail 404 (str "Organization not found"))
       | Some o =>
           internalUser <- getUserByClerkId (or_else session []) ;;
           match internalUser with
           | None => ret (fail 403 (str "Forbidden"))
           | Some u =>
               if negb (JS.eqb (user_organizationId u) (org_id (organization o)))
               then ret (fail 403 (str "Forbidden"))
               else if role_eqb (user_role u) VIEWER then
                 ret (fail 403 (str "Insufficient permissions to create customers"))
               else
                 let validationErrors := validateCustomerRegistration clk body in
                 if Nat.ltb 0 (List.length validationErrors) then
                   ret (validationFailed validationErrors)
                 else
                   phoneValidation <-
                     validatePhoneAndCheckAvailability (phone body)
                       (adminCountry o body) (org_id (organization o)) None ;;
                   if phoneRejected phoneValidation then
                     ret (phoneRejection phoneValidation)
                   else
                     try_catch
                       (customer <-
                          createWithPhone (formatted (validation phoneValidation))
                            (fun f => customerInput (org_id (organization o)) body f
                                        (Some (user_id u))) ;;
                        ret (mkHttpResponse 201
                               (ApiSuccess
                                  (CreatePayload (cust_id customer)
                                     (str "Customer created successfully")))))
                       (fun dbError => ret (onCreateError dbError))
           end
       end)
    (fun _ => ret (fail 500 (str "Internal server error"))).

End WithHostAndLib.

(** GET /api/[tenantId]/settings *)
Definition settings_GET (session : Session) (tenantId : jsstring) : M HttpResponse :=
  try_catch
    (if negb (truthy_opt session) then ret (fail 401 (str "Unauthorized"))
     else
       found <- getOrganizationBySlug tenantId ;;
       match found with
       | None => ret (fail 404 (str "Organization not found"))
       | Some o =>
           internalUser <- getUserByClerkId (or_else session []) ;;
           match internalUser with
           | None => ret (fail 403 (str "Forbidden"))
           | Some u =>
               if negb (JS.eqb (user_organizationId u) (org_id (organization o)))
               then ret (fail 403 (str "Forbidden"))
               else if negb (role_eqb (user_role u) SUPER_ADMIN) then
                 ret (fail 403 (str "Only super admins can access settings"))
               else
                 existing <- settings_findUnique (org_id (organization o)) ;;
                 s <- match existing with
                      | Some s => ret s
                      | None =>
                          settings_create (org_id (organization o))
                            (str "United States")
                      end ;;
                 ret (mkHttpResponse 200 (ApiSuccess (SettingsPayload s)))
           end
       end)
    (fun _ => ret (fail 500 (str "Internal server error"))).

(** The [user.created] event of the identity provider, after the
    signature check. *)
Record WebhookEvent : Type := mkWebhookEvent {
  evt_type : jsstring;
  evt_id : jsstring;
  email_addresses : option (list jsstring);
  first_name : option jsstring;
  last_name : option jsstring;
  organizationSlug : option jsstring
}.

Record WebhookRequest : Type := mkWebhookRequest {
  webhookSecret : option jsstring;
  svixId : option jsstring;
  svixTimestamp : option jsstring;
  svixSignature : option jsstring;
  (** the outcome of [wh.verify]; [None] when it throws *)
  verified : option WebhookEvent
}.

(** [email?.split("@")[0]] *)
Fixpoint beforeAt (s : jsstring) : jsstring :=
  match s with
  | [] => []
  | c :: s' => if char_eqb c (ch "@") then [] else c :: beforeAt s'
  end.

(** POST /api/webhooks/clerk *)
Definition clerk_POST (req : WebhookRequest) : M HttpResponse :=
  if negb (truthy_opt (webhookSecret req)) then
    ret (mkHttpResponse 500 (WebhookError (str "Webhook not configured")))
  else
    try_catch
      (if negb (truthy_opt (svixId req)) || negb (truthy_opt (svixTimestamp req))
          || negb (truthy_opt (svixSignature req)) then
         ret (mkHttpResponse 400 (WebhookError (str "Missing svix headers")))
       else
         match verified req with
         | None => ret (mkHttpResponse 400 (WebhookError (str "Invalid signature")))
         | Some evt =>
             if JS.eqb (evt_type evt) (str "user.created") then
               let email :=
                 match email_addresses evt with
                 | Some (e :: _) => Some e
                 | _ => None
                 end in
               let firstName :=
                 or_else (first_name evt)
                   (or_else (option_map beforeAt email) (str "User")) in
               let lastName := or_else (last_name evt) [] in
               match organizationSlug evt, email with
               | Some slug, Some e =>
                   if negb (truthy slug) || negb (truthy e) then
                     ret (mkHttpResponse 200 WebhookReceived)
                   else
                     found <- organization_findUnique slug ;;
                     match found with
                     | None => ret (mkHttpResponse 200 WebhookReceived)
                     | Some o =>
                         isFirstUser <-
                           isFirstUserInOrganization (org_id (organization o)) ;;
                         let role := if isFirstUser then SUPER_ADMIN else VIEWER in
                         _ <- try_catch
                                (_ <- user_create
                                        (mkUserCreateInput (evt_id evt) e firstName
                                           lastName role (org_id (organization o))) ;;
                                 ret tt)
                                (fun _ => ret tt) ;;
                         ret (mkHttpResponse 200 WebhookReceived)
                     end
               | _, _ => ret (mkHttpResponse 200 WebhookReceived)
               end
             else ret (mkHttpResponse 200 WebhookReceived)
         end)
      (fun _ => ret (mkHttpResponse 500 (WebhookError (str "Webhook handler failed")))).

End Routes.
Import Routes.

(* ================================================================== *)
(** * Vocabulary of the statements

    Outcomes, intermediate worlds and the rules of the specification that
    the properties below are phrased with. *)

Module Vocabulary.

(** The failure, if any, that the environment has in store for the next
    awaited call. *)
Definition nextFault (w : World) : option JsError :=
  match schedule w with
  | [] => None
  | e :: _ => fault e
  end.

(** The store as the next awaited call will find it, after the writes of
    concurrent requests. *)
Definition afterInterference (w : World) : Db :=
  match schedule w with
  | [] => db w
  | e :: _ => interfere e (db w)
  end.

(** The two unavailable answers of the availability checker that do not
    come from a stored customer. *)
Definition formatError : PhoneAvailabilityResult :=
  mkPhoneAvailabilityResult false (Some (str "Phone number must be in E.164 format")).

Definition lookupError : PhoneAvailabilityResult :=
  mkPhoneAvailabilityResult false (Some (str "Error checking phone availability")).

(** The world once [call] has been answered and has left the store [d]. *)
Definition advance (w : World) (call : DbCall) (d : Db) : World :=
  mkWorld d (tl (schedule w)) (trace w ++ [call]).

(** The row that [db.customer.create] inserts into [d], and [d] with a row
    appended. *)
Definition stored (d : Db) (data : CustomerCreateInput) : Customer :=
  mkCustomer (cuid (nextId d)) (in_organizationId data)
    (in_firstName data) (in_lastName data) (in_phone data)
    (in_birthDate data) (in_email data)
    (in_addressLine1 data) (in_addressLine2 data)
    (in_city data) (in_state data) (in_postalCode data)
    (in_country data) (in_consentGiven data)
    (in_createdBy data) (in_updatedBy data).

Definition withCustomer (d : Db) (c : Customer) : Db :=
  mkDb (organizations d) (settingsTable d) (customers d ++ [c]) (users d)
    (N.succ (nextId d)).

(** The formatter's success: [{ isValid: true, formatted: f, country: c }]. *)
Definition accepted (f : jsstring) (c : option jsstring) : PhoneValidationResult :=
  mkPhoneValidationResult true (Some f) c None.

(** Responses of the handlers that the statements name. *)
Definition registered (customerId : Id) : HttpResponse :=
  mkHttpResponse 201
    (ApiSuccess (RegisterPayload customerId false (str "Registration successful!"))).

Definition conflict : HttpResponse :=
  fail 409 (str "Phone number already registered").

Definition consentError : ValidationError :=
  mkValidationError (str "consentGiven") (str "You must agree to the terms to continue").

Definition insufficientPermissions : HttpResponse :=
  fail 403 (str "Access denied: Insufficient permissions").

Definition minimumRoleRequired (m : UserRole) : HttpResponse :=
  fail 403 (str "Access denied: Minimum role " ++ role_name m ++ str " required").

(** The same for [db.user.create]. *)
Definition withUser (d : Db) (u : User) : Db :=
  mkDb (organizations d) (settingsTable d) (customers d) (users d ++ [u])
    (N.succ (nextId d)).

Definition storedUser (d : Db) (data : UserCreateInput) : User :=
  mkUser (cuid (nextId d)) (uin_clerkUserId data) (uin_email data)
    (uin_firstName data) (uin_lastName data) (uin_role data)
    (uin_organizationId data).

(** The name rule in the words of the specification: after trimming, two
    to one hundred characters, each a letter, a space, a hyphen or an
    apostrophe. *)
Definition name_rule_spec (name : jsstring) : Prop :=
  2 <= List.length (trim name) <= 100
  /\ Forall (fun c => nameChar c = true) (trim name).

(** Ninety-nine spaces followed by the two letters "ab". *)
Definition paddedName : jsstring := repeat (ch " ") 99 ++ str "ab".

(** What the formatter needs from libphonenumber-js: the E.164 rendering
    of a valid number is a canonical string, and the library accepts and
    reproduces its own rendering under the same default country. *)
Definition rendersCanonical (lib : PhoneLib) : Prop :=
  forall s cc p,
    isValidPhoneNumber s cc = Some true ->
    parsePhoneNumber s cc = Some p ->
    isE164Format (format_E164 p) = true.

Definition rereadsOwnRendering (lib : PhoneLib) : Prop :=
  forall s cc p,
    isValidPhoneNumber s cc = Some true ->
    parsePhoneNumber s cc = Some p ->
    isValidPhoneNumber (format_E164 p) cc = Some true
    /\ exists p', parsePhoneNumber (format_E164 p) cc = Some p'
                  /\ format_E164 p' = format_E164 p.

(** The two refusals of the birth date validator that depend on the clock. *)
Definition pastError : ValidationError :=
  mkValidationError (str "birthDate") (str "Birth date must be in the past").

Definition tooOldError : ValidationError :=
  mkValidationError (str "birthDate") (str "Please enter a valid birth date").

(** A birth date argument that stands for the instant [d]: a [Date]
    object with that time value, or a non-empty string that parses to it. *)
Definition denotes {host : Host} (b : DateOrString) (d : Z) : Prop :=
  b = IsDate (Some d)
  \/ exists s, b = IsString s /\ truthy s = true /\ Date_parse s = Some d.

End Vocabulary.
Import Vocabulary.

(* ================================================================== *)
(** * Concrete hosts and data used to run the handlers *)

Module Examples.

Local Open Scope Z_scope.

Definition digitValue (c : char) : Z := Z.of_N c - 48.

(** The date-only form [YYYY-MM-DD], read as midnight UTC. *)
Definition parseIsoDate (s : jsstring) : JsDate :=
  match s with
  | [y1; y2; y3; y4; 45%N; m1; m2; 45%N; d1; d2] =>
      if forallb isDigit [y1; y2; y3; y4; m1; m2; d1; d2] then
        let y := 1000 * digitValue y1 + 100 * digitValue y2
                 + 10 * digitValue y3 + digitValue y4 in
        let m := 10 * digitValue m1 + digitValue m2 in
        let d := 10 * digitValue d1 + digitValue d2 in
        if (1 <=? m) && (m <=? 12) && (1 <=? d) && (d <=? 31) then
          TimeClip (MakeDate (MakeDay y (m - 1) d) 0)
        else None
      else None
  | _ => None
  end.

Definition asciiUpper (s : jsstring) : jsstring :=
  map (fun c => if isLower c then (c - 32)%N else c) s.

(** A host whose local time is UTC. *)
Definition utcHost : Host := {|
  LocalTZA := fun _ _ => 0;
  Date_parse := parseIsoDate;
  toUpperCase := asciiUpper
|}.

(** 2026-11-02T00:00:00Z, read twice within the same millisecond. *)
Definition sampleClock : ClockReads := mkClockReads 1793577600000 1793577600000.

Definition john (consent : bool) : CustomerRegistrationData :=
  mkCustomerRegistrationData (str "John") (str "Doe") (str "(555) 123-4567")
    (IsString (str "1990-01-15")) None None None None None None
    (Some (str "US")) consent.

Definition acme : Organization := mkOrganization (str "org-acme") (str "Acme") (str "acme").
Definition beta : Organization := mkOrganization (str "org-beta") (str "Beta") (str "beta").

Definition manager : User :=
  mkUser (str "user-1") (str "clerk-1") (str "m@acme.test") (str "Mia") (str "Moss")
    MANAGER (org_id acme).

Definition viewer : User :=
  mkUser (str "user-2") (str "clerk-2") (str "v@acme.test") (str "Vic") (str "Vale")
    VIEWER (org_id acme).

(** Two tenants without settings rows, two internal users of the first. *)
Definition sampleDb : Db := mkDb [acme; beta] [] [] [manager; viewer] 0.

(** A verified [user.created] event for the tenant [beta], which has no
    internal user yet. *)
Definition sampleEvent : WebhookEvent :=
  mkWebhookEvent (str "user.created") (str "clerk-9") (Some [str "nia@beta.test"])
    (Some (str "Nia")) (Some (str "Nash")) (Some (str "beta")).

Definition sampleRequest : WebhookRequest :=
  mkWebhookRequest (Some (str "whsec")) (Some (str "msg_1")) (Some (str "1793577600"))
    (Some (str "v1,sig")) (Some sampleEvent).

Definition sampleInvite : UserCreateInput :=
  mkUserCreateInput (str "clerk-9") (str "nia@beta.test") (str "Nia") (str "Nash")
    VIEWER (org_id beta).

End Examples.
Import Examples.

(* ================================================================== *)
(** * lib/phone-formatter.ts: the remaining helpers *)

Module PhoneHelpers.

(** The class [[^\d+]]: everything but digits and the plus sign. *)
Definition notDigitOrPlus (c : char) : bool :=
  negb (isDigit c || char_eqb c (ch "+")).

Definition isPlus (c : char) : bool := char_eqb c (ch "+").

Definition normalizePhoneInput (phoneInput : jsstring) : jsstring :=
  let normalized := removeAll notDigitOrPlus phoneInput in
  if existsb isPlus normalized then str "+" ++ removeAll isPlus normalized
  else normalized.

Section WithLib.
Context {lib : PhoneLib}.

Definition arePhoneNumbersEqual (phone1 phone2 : jsstring)
    (countryCode : option jsstring) : bool :=
  if isE164Format phone1 && isE164Format phone2 then JS.eqb phone1 phone2
  else if negb (truthy_opt countryCode) then false
  else
    match parsePhoneNumber phone1 (or_else countryCode []) with
    | None => false
    | Some parsed1 =>
        match parsePhoneNumber phone2 (or_else countryCode []) with
        | None => false
        | Some parsed2 => JS.eqb (format_E164 parsed1) (format_E164 parsed2)
        end
    end.

Definition isValidPhone (phoneInput countryCode : jsstring) : bool :=
  let cleaned := removeAll separatorChar phoneInput in
  match isValidPhoneNumber cleaned countryCode with
  | Some b => b
  | None => false
  end.

End WithLib.

End PhoneHelpers.
Import PhoneHelpers.

(* ================================================================== *)
(** * lib/countries.ts *)

Module Countries.

Record CountryInfo : Type := mkCountryInfo {
  code : jsstring;
  name : jsstring;
  dialCode : jsstring;
  format : jsstring
}.

Definition entry (c n d f : string) : CountryInfo :=
  mkCountryInfo (str c) (str n) (str d) (str f).

Definition COUNTRIES : list CountryInfo := [
  entry "US" "United States" "+1" "(###) ###-####";
  entry "CA" "Canada" "+1" "(###) ###-####";
  entry "GB" "United Kingdom" "+44" "#### ### ####";
  entry "AU" "Australia" "+61" "#### ### ###";
  entry "NZ" "New Zealand" "+64" "### ### ####";
  entry "DE" "Germany" "+49" "#### #######";
  entry "FR" "France" "+33" "# ## ## ## ##";
  entry "IT" "Italy" "+39" "### ### ####";
  entry "ES" "Spain" "+34" "### ## ## ##";
  entry "NL" "Netherlands" "+31" "## ########";
  entry "BE" "Belgium" "+32" "### ## ## ##";
  entry "CH" "Switzerland" "+41" "## ### ## ##";
  entry "AT" "Austria" "+43" "### #######";
  entry "SE" "Sweden" "+46" "##-### ## ##";
  entry "NO" "Norway" "+47" "### ## ###";
  entry "DK" "Denmark" "+45" "## ## ## ##";
  entry "FI" "Finland" "+358" "## ### ## ##";
  entry "IE" "Ireland" "+353" "## ### ####";
  entry "PL" "Poland" "+48" "### ### ###";
  entry "PT" "Portugal" "+351" "### ### ###";
  entry "GR" "Greece" "+30" "### ### ####";
  entry "CZ" "Czech Republic" "+420" "### ### ###";
  entry "HU" "Hungary" "+36" "## ### ####";
  entry "RO" "Romania" "+40" "### ### ###";
  entry "BG" "Bulgaria" "+359" "### ### ###";
  entry "JP" "Japan" "+81" "##-####-####";
  entry "KR" "South Korea" "+82" "##-####-####";
  entry "CN" "China" "+86" "### #### ####";
  entry "IN" "India" "+91" "##### #####";
  entry "SG" "Singapore" "+65" "#### ####";
  entry "MY" "Malaysia" "+60" "##-### ####";
  entry "TH" "Thailand" "+66" "##-###-####";
  entry "ID" "Indonesia" "+62" "###-###-####";
  entry "PH" "Philippines" "+63" "### ### ####";
  entry "VN" "Vietnam" "+84" "### ### ####";
  entry "AE" "United Arab Emirates" "+971" "## ### ####";
  entry "SA" "Saudi Arabia" "+966" "## ### ####";
  entry "IL" "Israel" "+972" "##-###-####";
  entry "TR" "Turkey" "+90" "### ### ## ##";
  entry "ZA" "South Africa" "+27" "## ### ####";
  entry "EG" "Egypt" "+20" "### ### ####";
  entry "BR" "Brazil" "+55" "## #####-####";
  entry "MX" "Mexico" "+52" "### ### ####";
  entry "AR" "Argentina" "+54" "## ####-####";
  entry "CL" "Chile" "+56" "# #### ####";
  entry "CO" "Colombia" "+57" "### ### ####";
  entry "PE" "Peru" "+51" "### ### ###"
].

Definition getCountryByCode (c : jsstring) : option CountryInfo :=
  find (fun country => JS.eqb (code country) c) COUNTRIES.

Definition getCountryByDialCode (d : jsstring) : option CountryInfo :=
  let normalized := if startsWith d (str "+") then d else str "+" ++ d in
  find (fun country => JS.eqb (dialCode country) normalized) COUNTRIES.

(** [COUNTRIES[0]] *)
Definition getDefaultCountry : option CountryInfo := hd_error COUNTRIES.

Definition isValidCountryCode (c : jsstring) : bool :=
  existsb (fun country => JS.eqb (code country) c) COUNTRIES.

(** [country?.name || code] *)
Definition getCountryName (c : jsstring) : jsstring :=
  or_else (option_map name (getCountryByCode c)) c.

End Countries.

(* ================================================================== *)
(** * lib/middleware/rbac.ts and lib/auth.ts: the remaining helpers *)

Module RbacHelpers.

Definition allActions : list Action :=
  [canManageUsers; canManageSettings; canCreateCustomers;
   canEditCustomers; canDeleteCustomers; canViewCustomers].

Definition action_name (a : Action) : jsstring :=
  match a with
  | canManageUsers => str "canManageUsers"
  | canManageSettings => str "canManageSettings"
  | canCreateCustomers => str "canCreateCustomers"
  | canEditCustomers => str "canEditCustomers"
  | canDeleteCustomers => str "canDeleteCustomers"
  | canViewCustomers => str "canViewCustomers"
  end.

(** [Object.entries(permissions).filter(([, allowed]) => allowed).map(([action]) => action)] *)
Definition getRoleActions (role : UserRole) : list jsstring :=
  map action_name (filter (ROLE_PERMISSIONS role) allActions).

(** [["SUPER_ADMIN", "MANAGER", "VIEWER"].includes(role)] *)
Definition isValidRole (role : jsstring) : bool :=
  array_includes [str "SUPER_ADMIN"; str "MANAGER"; str "VIEWER"] role.

Definition belongsToOrganization (user : option User) (organizationId : Id) : bool :=
  match user with
  | None => false
  | Some u => JS.eqb (user_organizationId u) organizationId
  end.

(** [throw new Error(message)] *)
Definition throwError {A} (message : jsstring) : M A := throw (OtherError message).

Definition requireAuth (session : Session) : M User :=
  user <- getCurrentUser session ;;
  match user with
  | None => throwError (str "Authentication required")
  | Some u => ret u
  end.

Definition requireRole (session : Session) (role : UserRole) : M User :=
  user <- requireAuth session ;;
  if negb (hasRole (Some user) role) then
    throwError (str "Role " ++ role_name role ++ str " required")
  else ret user.

Definition requireMinimumRole (session : Session) (minimumRole : UserRole) : M User :=
  user <- requireAuth session ;;
  if negb (hasMinimumRole (Some user) minimumRole) then
    throwError (str "Minimum role " ++ role_name minimumRole ++ str " required")
  else ret user.

End RbacHelpers.
Import RbacHelpers.

(* ================================================================== *)
(** * Tenant slug extraction (lib/tenant-context.ts and middleware.ts) *)

Module TenantSlug.

Definition isSlash (c : char) : bool := char_eqb c (ch "/").

(** [pathname.replace(/^\//, "")] *)
Definition dropLeadingSlash (pathname : jsstring) : jsstring :=
  match pathname with
  | c :: rest => if isSlash c then rest else pathname
  | [] => []
  end.

(** [s.split("/")[0]] *)
Fixpoint firstSegment (s : jsstring) : jsstring :=
  match s with
  | [] => []
  | c :: rest => if isSlash c then [] else c :: firstSegment rest
  end.

Definition extractTenantSlugFromPath (pathname : jsstring) : option jsstring :=
  let tenantSlug := firstSegment (dropLeadingSlash pathname) in
  if negb (truthy tenantSlug) || startsWith tenantSlug (str "_") then None
  else Some tenantSlug.

(** The copy in middleware.ts, which first skips framework paths and
    anything with a dot. *)
Definition extractTenantSlug (pathname : jsstring) : option jsstring :=
  if startsWith pathname (str "/_next") || startsWith pathname (str "/api/_")
     || includes pathname (str ".") then None
  else
    let tenantSlug := firstSegment (dropLeadingSlash pathname) in
    if negb (truthy tenantSlug) || startsWith tenantSlug (str "_") then None
    else Some tenantSlug.

End TenantSlug.
Import TenantSlug.

(* ================================================================== *)
(** * Vocabulary of the further statements *)

Module Vocabulary2.

(** The errors that one rule contributes to the aggregate: none or one. *)
Definition errorList (e : option ValidationError) : list ValidationError :=
  match e with Some x => [x] | None => [] end.

(** The outcome of an optional field's rule, which runs only on a value
    that is present and not empty. *)
Definition whenGiven (v : option jsstring)
    (validate : jsstring -> option ValidationError) : option ValidationError :=
  match v with
  | Some s => if truthy s then validate s else None
  | None => None
  end.

(** The part of a list selected by a mask. *)
Fixpoint pick {A} (mask : list bool) (l : list A) : list A :=
  match mask, l with
  | b :: mask', x :: l' => (if b then [x] else []) ++ pick mask' l'
  | _, _ => []
  end.

(** The field names of the registration payload, in the order in which the
    aggregate validator reports on them. *)
Definition registrationKeys : list jsstring :=
  [str "firstName"; str "lastName"; str "birthDate"; str "consentGiven";
   str "email"; str "addressLine1"; str "addressLine2"; str "city";
   str "state"; str "postalCode"].

End Vocabulary2.
Import Vocabulary2.

(* ================================================================== *)
(** * Further queries issued through the Prisma client

    These calls are awaited like the others: concurrent writes land first
    and the call may fail.  The query log names only the calls listed in
    [DbCall]; the calls below leave it as it is. *)

Module Queries2.

Definition awaitUnlogged {A} (op : Db -> Result A * Db) : M A :=
  fun w =>
    let env := match schedule w with [] => quiet | e :: _ => e end in
    let d := interfere env (db w) in
    match fault env with
    | Some e => (Throw e, mkWorld d (tl (schedule w)) (trace w))
    | None =>
        let (r, d') := op d in
        (r, mkWorld d' (tl (schedule w)) (trace w))
    end.

(** The error of [update] and [delete] on a record that does not exist. *)
Definition P2025 : JsError := PrismaKnownRequestError (str "P2025").

Definition customerById (d : Db) (id : Id) : option Customer :=
  find (fun c => JS.eqb (cust_id c) id) (customers d).

(** [db.customer.findUnique({ where: { id } })] *)
Definition customer_findUnique (id : Id) : M (option Customer) :=
  awaitUnlogged (fun d => (Ok (customerById d id), d)).

(** [db.customer.findUnique({ where: { id, organizationId } })] *)
Definition customer_findUniqueIn (id organizationId : Id) : M (option Customer) :=
  awaitUnlogged
    (fun d =>
       (Ok (find (fun c => JS.eqb (cust_id c) id
                           && JS.eqb (cust_organizationId c) organizationId)
                 (customers d)), d)).

(** The [data] argument of [db.customer.update] as the edit handler sends
    it.  A field that is [undefined] is left as it is; of the fields sent,
    only [phone] can be. *)
Record CustomerUpdateInput : Type := mkCustomerUpdateInput {
  up_firstName : jsstring;
  up_lastName : jsstring;
  up_phone : option jsstring;
  up_birthDate : JsDate;
  up_email : option jsstring;
  up_addressLine1 : option jsstring;
  up_addressLine2 : option jsstring;
  up_city : option jsstring;
  up_state : option jsstring;
  up_postalCode : option jsstring;
  up_country : option jsstring;
  up_consentGiven : bool;
  up_updatedBy : option Id
}.

Definition applyUpdate (c : Customer) (data : CustomerUpdateInput) : Customer :=
  mkCustomer (cust_id c) (cust_organizationId c)
    (up_firstName data) (up_lastName data)
    (match up_phone data with Some p => p | None => cust_phone c end)
    (up_birthDate data)
    (up_email data) (up_addressLine1 data) (up_addressLine2 data)
    (up_city data) (up_state data) (up_postalCode data) (up_country data)
    (up_consentGiven data) (cust_createdBy c) (up_updatedBy data).

Definition replaceCustomer (id : Id) (c' : Customer) (l : list Customer)
  : list Customer :=
  map (fun c => if JS.eqb (cust_id c) id then c' else c) l.

(** [db.customer.update({ where: { id }, data })] under the constraint
    [@@unique([organizationId, phone])]. *)
Definition customer_update (id : Id) (data : CustomerUpdateInput) : M Customer :=
  awaitUnlogged
    (fun d =>
       match customerById d id with
       | None => (Throw P2025, d)
       | Some c =>
           let c' := applyUpdate c data in
           if existsb (customerWhere (cust_organizationId c') (cust_phone c') (Some id))
                      (customers d)
           then (Throw P2002, d)
           else (Ok c', mkDb (organizations d) (settingsTable d)
                             (replaceCustomer id c' (customers d)) (users d) (nextId d))
       end).

(** [db.customer.delete({ where: { id } })] *)
Definition customer_delete (id : Id) : M Customer :=
  awaitUnlogged
    (fun d =>
       match customerById d id with
       | None => (Throw P2025, d)
       | Some c =>
           (Ok c, mkDb (organizations d) (settingsTable d)
                       (filter (fun x => negb (JS.eqb (cust_id x) id)) (customers d))
                       (users d) (nextId d))
       end).

(** [db.organizationSettings.upsert({ where: { organizationId }, update: { country },
    create: { organizationId, country } })] *)
Definition settings_upsert (organizationId : Id) (country : jsstring)
  : M OrganizationSettings :=
  awaitUnlogged
    (fun d =>
       match settingsOf d organizationId with
       | Some s =>
           let s' := mkOrganizationSettings (settings_id s) organizationId country in
           (Ok s', mkDb (organizations d)
                        (map (fun x => if JS.eqb (settings_organizationId x) organizationId
                                       then s' else x) (settingsTable d))
                        (customers d) (users d) (nextId d))
       | None =>
           let s := mkOrganizationSettings (cuid (nextId d)) organizationId country in
           (Ok s, mkDb (organizations d) (settingsTable d ++ [s])
                       (customers d) (users d) (N.succ (nextId d)))
       end).

(** [db.organization.count({ where: { slug } })] *)
Definition organization_count (slug : jsstring) : M nat :=
  awaitUnlogged
    (fun d =>
       (Ok (List.length (filter (fun o => JS.eqb (org_slug o) slug) (organizations d))), d)).

(** [db.user.findFirst({ where: { clerkUserId, organizationId } })] *)
Definition user_findFirst (clerkUserId organizationId : jsstring) : M (option User) :=
  awaitUnlogged
    (fun d =>
       (Ok (find (fun u => JS.eqb (user_clerkUserId u) clerkUserId
                           && JS.eqb (user_organizationId u) organizationId)
                 (users d)), d)).

(** [include: { creator: { select: ... }, updater: { select: ... } }] *)
Record UserSummary : Type := mkUserSummary {
  sum_firstName : jsstring;
  sum_lastName : jsstring;
  sum_email : jsstring
}.

Record CustomerWithPeople : Type := mkCustomerWithPeople {
  base : Customer;
  creator : option UserSummary;
  updater : option UserSummary
}.

Definition personById (d : Db) (id : option Id) : option UserSummary :=
  match id with
  | Some i =>
      match find (fun u => JS.eqb (user_id u) i) (users d) with
      | Some u => Some (mkUserSummary (user_firstName u) (user_lastName u) (user_email u))
      | None => None
      end
  | None => None
  end.

Definition customer_findUniqueWithPeople (id : Id) : M (option CustomerWithPeople) :=
  awaitUnlogged
    (fun d =>
       (Ok (match customerById d id with
            | Some c =>
                Some (mkCustomerWithPeople c (personById d (cust_createdBy c))
                        (personById d (cust_updatedBy c)))
            | None => None
            end), d)).

End Queries2.
Import Queries2.

(* ================================================================== *)
(** * lib/validation/phone.ts, lib/tenant-context.ts and lib/auth.ts:
      the remaining helpers *)

Module StoreHelpers.

Definition getCustomerByPhone (phone organizationId : jsstring)
  : M (option Customer) :=
  try_catch
    (if negb (isE164Format phone) then ret None
     else customer_findFirst organizationId phone None)
    (fun _ => ret None).

(** [customer?.phone === phone] *)
Definition verifyCustomerPhone (phone customerId organizationId : jsstring) : M bool :=
  try_catch
    (customer <- customer_findUniqueIn customerId organizationId ;;
     ret (match customer with
          | Some c => JS.eqb (cust_phone c) phone
          | None => false
          end))
    (fun _ => ret false).

Definition validateUserTenantAccess (clerkUserId organizationId : jsstring) : M bool :=
  try_catch
    (user <- user_findFirst clerkUserId organizationId ;;
     ret (match user with Some _ => true | None => false end))
    (fun _ => ret false).

Definition getOrganizationSettings (organizationId : Id)
  : M (option OrganizationSettings) :=
  try_catch
    (existing <- settings_findUnique organizationId ;;
     match existing with
     | None =>
         s <- settings_create organizationId (str "United States") ;;
         ret (Some s)
     | Some s => ret (Some s)
     end)
    (fun _ => ret None).

Definition organizationExists (slug : jsstring) : M bool :=
  try_catch
    (count <- organization_count slug ;; ret (Nat.ltb 0 count))
    (fun _ => ret false).

End StoreHelpers.
Import StoreHelpers.

(* ================================================================== *)
(** * The remaining API route handlers *)

Module Routes2.

(** [ApiResponse<T>] and the status it is sent with. *)
Inductive ApiResponse (T : Type) : Type :=
| Success (data : T)
| Failure (error : jsstring) (details : option (list (jsstring * list jsstring))).
Arguments Success {T} data.
Arguments Failure {T} error details.

Record Reply (T : Type) : Type := mkReply {
  reply_status : nat;
  reply_body : ApiResponse T
}.
Arguments mkReply {T} reply_status reply_body.
Arguments reply_status {T} r.
Arguments reply_body {T} r.

(** [NextResponse.json({ success: false, error }, { status })] *)
Definition refuse {T} (status : nat) (error : string) : Reply T :=
  mkReply status (Failure (str error) None).

(** The body of POST /api/[tenantId]/customers/validate-phone. *)
Record ValidatePhoneBody : Type := mkValidatePhoneBody {
  vp_phone : option jsstring;
  vp_countryCode : option jsstring;
  vp_excludeCustomerId : option Id
}.

Section WithHostAndLib.
Context {host : Host} {lib : PhoneLib}.

(** POST /api/[tenantId]/customers/validate-phone *)
Definition validatePhone_POST (tenantId : jsstring) (body : ValidatePhoneBody)
  : M (Reply PhoneCheckResult) :=
  try_catch
    (match vp_phone body, vp_countryCode body with
     | Some phone, Some countryCode =>
         if negb (truthy phone) || negb (truthy countryCode) then
           ret (refuse 400 "Phone number and country code are required")
         else
           found <- getOrganizationBySlug tenantId ;;
           match found with
           | None => ret (refuse 404 "Organization not found")
           | Some o =>
               result <-
                 validatePhoneAndCheckAvailability phone countryCode
                   (org_id (organization o)) (vp_excludeCustomerId body) ;;
               if isValid (validation result)
                  && negb (match check_available result with
                           | Some false => true
                           | _ => false
                           end)
               then ret (mkReply 200 (Success result))
               else
                 ret (mkReply 400
                        (Failure (or_else (error (validation result))
                                    (str "Phone validation failed")) None))
           end
     | _, _ => ret (refuse 400 "Phone number and country code are required")
     end)
    (fun _ => ret (refuse 500 "Internal server error")).

(** GET /api/[tenantId]/customers/[customerId] *)
Definition customer_GET (session : Session) (tenantId customerId : jsstring)
  : M (Reply CustomerWithPeople) :=
  try_catch
    (if negb (truthy_opt session) then ret (refuse 401 "Unauthorized")
     else
       found <- getOrganizationBySlug tenantId ;;
       match found with
       | None => ret (refuse 404 "Organization not found")
       | Some o =>
           internalUser <- getUserByClerkId (or_else session []) ;;
           match internalUser with
           | None => ret (refuse 403 "Forbidden")
           | Some u =>
               if negb (JS.eqb (user_organizationId u) (org_id (organization o)))
               then ret (refuse 403 "Forbidden")
               else
                 customer <- customer_findUniqueWithPeople customerId ;;
                 match customer with
                 | None => ret (refuse 404 "Customer not found")
                 | Some c =>
                     if negb (JS.eqb (cust_organizationId (base c))
                                (org_id (organization o)))
                     then ret (refuse 403 "Forbidden")
                     else ret (mkReply 200 (Success c))
                 end
           end
       end)
    (fun _ => ret (refuse 500 "Internal server error")).

Definition customerUpdate (body : CustomerRegistrationData)
    (phone : option jsstring) (by_ : Id) : CustomerUpdateInput :=
  mkCustomerUpdateInput
    (trim (firstName body)) (trim (lastName body)) phone
    (newDate (birthDate body))
    (trimOrNull (email body)) (trimOrNull (addressLine1 body))
    (trimOrNull (addressLine2 body)) (trimOrNull (city body))
    (trimOrNull (state body)) (trimOrNull (postalCode body))
    (orNull (data_country body)) (consentGiven body) (Some by_).

(** PUT /api/[tenantId]/customers/[customerId] *)
Definition customer_PUT (clk : ClockReads) (session : Session)
    (tenantId customerId : jsstring) (body : CustomerRegistrationData)
  : M (Reply Customer) :=
  try_catch
    (if negb (truthy_opt session) then ret (refuse 401 "Unauthorized")
     else
       found <- getOrganizationBySlug tenantId ;;
       match found with
       | None => ret (refuse 404 "Organization not found")
       | Some o =>
           internalUser <- getUserByClerkId (or_else session []) ;;
           match internalUser with
           | None => ret (refuse 403 "Forbidden")
           | Some u =>
               if negb (JS.eqb (user_organizationId u) (org_id (organization o)))
               then ret (refuse 403 "Forbidden")
               else if role_eqb (user_role u) VIEWER then
                 ret (refuse 403 "Insufficient permissions to edit customers")
               else
                 existingCustomer <- customer_findUnique customerId ;;
                 match existingCustomer with
                 | None => ret (refuse 404 "Customer not found")
                 | Some ec =>
                     if negb (JS.eqb (cust_organizationId ec)
                                (org_id (organization o)))
                     then ret (refuse 403 "Forbidden")
                     else
                       let validationErrors := validateCustomerRegistration clk body in
                       if Nat.ltb 0 (List.length validationErrors) then
                         ret (mkReply 400
                                (Failure (str "Validation failed")
                                   (Some (detailsOf validationErrors))))
                       else
                         phoneStep <-
                           (if negb (JS.eqb (phone body) (cust_phone ec)) then
                              phoneValidation <-
                                validatePhoneAndCheckAvailability (phone body)
                                  (adminCountry o body) (org_id (organization o))
                                  (Some customerId) ;;
                              if phoneRejected phoneValidation then
                                ret (inl (mkReply 400
                                            (Failure
                                               (or_else (error (validation phoneValidation))
                                                  (str "Invalid phone number")) None)))
                              else ret (inr (formatted (validation phoneValidation)))
                            else ret (inr (Some (cust_phone ec)))) ;;
                         match phoneStep with
                         | inl refusal => ret refusal
                         | inr formattedPhone =>
                             updatedCustomer <-
                               customer_update customerId
                                 (customerUpdate body formattedPhone (user_id u)) ;;
                             ret (mkReply 200 (Success updatedCustomer))
                         end
                 end
           end
       end)
    (fun _ => ret (refuse 500 "Internal server error")).

End WithHostAndLib.

(** DELETE /api/[tenantId]/customers/[customerId]; the data of a success
    is [{ message: "Customer deleted successfully" }]. *)
Definition customer_DELETE (session : Session) (tenantId customerId : jsstring)
  : M (Reply jsstring) :=
  try_catch
    (if negb (truthy_opt session) then ret (refuse 401 "Unauthorized")
     else
       found <- getOrganizationBySlug tenantId ;;
       match found with
       | None => ret (refuse 404 "Organization not found")
       | Some o =>
           internalUser <- getUserByClerkId (or_else session []) ;;
           match internalUser with
           | None => ret (refuse 403 "Forbidden")
           | Some u =>
               if negb (JS.eqb (user_organizationId u) (org_id (organization o)))
               then ret (refuse 403 "Forbidden")
               else if role_eqb (user_role u) VIEWER then
                 ret (refuse 403 "Insufficient permissions to delete customers")
               else
                 customer <- customer_findUnique customerId ;;
                 match customer with
                 | None => ret (refuse 404 "Customer not found")
                 | Some c =>
                     if negb (JS.eqb (cust_organizationId c) (org_id (organization o)))
                     then ret (refuse 403 "Forbidden")
                     else
                       _ <- customer_delete customerId ;;
                       ret (mkReply 200 (Success (str "Customer deleted successfully")))
                 end
           end
       end)
    (fun _ => ret (refuse 500 "Internal server error")).

(** The [country] member of the body of PUT /api/[tenantId]/settings:
    absent, a string, or a JSON value of another type. *)
Inductive CountryField : Type :=
| CountryMissing
| CountryString (s : jsstring)
| CountryOther.

(** PUT /api/[tenantId]/settings *)
Definition settings_PUT (session : Session) (tenantId : jsstring)
    (country : CountryField) : M HttpResponse :=
  try_catch
    (if negb (truthy_opt session) then ret (fail 401 (str "Unauthorized"))
     else
       found <- getOrganizationBySlug tenantId ;;
       match found with
       | None => ret (fail 404 (str "Organization not found"))
       | Some o =>
           internalUser <- getUserByClerkId (or_else session []) ;;
           match internalUser with
           | None => ret (fail 403 (str "Forbidden"))
           | Some u =>
               if negb (JS.eqb (user_organizationId u) (org_id (organization o)))
               then ret (fail 403 (str "Forbidden"))
               else if negb (role_eqb (user_role u) SUPER_ADMIN) then
                 ret (fail 403 (str "Only super admins can update settings"))
               else
                 match country with
                 | CountryString c =>
                     if negb (truthy c) then ret (fail 400 (str "Country is required"))
                     else
                       match find (fun x => JS.eqb (Countries.name x) c)
                                  Countries.COUNTRIES with
                       | None => ret (fail 400 (str "Invalid country selected"))
                       | Some _ =>
                           s <- settings_upsert (org_id (organization o)) c ;;
                           ret (mkHttpResponse 200 (ApiSuccess (SettingsPayload s)))
                       end
                 | _ => ret (fail 400 (str "Country is required"))
                 end
           end
       end)
    (fun _ => ret (fail 500 (str "Internal server error"))).

End Routes2.
Import Routes2.

(* ================================================================== *)
(** * Vocabulary of the further statements *)

Module Vocabulary3.

(** The constraint [@@unique([organizationId, phone])] on the customers of
    a store: two rows with the same tenant and phone are the same record. *)
Definition phoneUnique (d : Db) : Prop :=
  forall c1 c2,
    In c1 (customers d) -> In c2 (customers d) ->
    cust_organizationId c1 = cust_organizationId c2 ->
    cust_phone c1 = cust_phone c2 ->
    cust_id c1 = cust_id c2.

(** The primary key of the customers. *)
Definition idsUnique (d : Db) : Prop := NoDup (map cust_id (customers d)).

Definition phoneAvailable : PhoneAvailabilityResult :=
  mkPhoneAvailabilityResult true (Some (str "Phone number is available")).

End Vocabulary3.
Import Vocabulary3.

Module Vocabulary4.

(** The caller is signed in and is an internal user of the tenant behind
    the slug, in the store [d]. *)
Definition memberOf (d : Db) (session : Session) (tenantId : jsstring)
    (o : OrganizationWithSettings) (u : User) : Prop :=
  exists clerkUserId,
    session = Some clerkUserId /\ truthy clerkUserId = true
    /\ organizationBySlug d tenantId = Some o
    /\ find (fun x => JS.eqb (user_clerkUserId x) clerkUserId) (users d) = Some u
    /\ user_organizationId u = org_id (organization o).

(** The names of the countries of the registry. *)
Definition countryNames : list jsstring := map Countries.name Countries.COUNTRIES.

End Vocabulary4.
Import Vocabulary4.

Module Examples2.

(** The sample store after John Doe has registered with the tenant
    [acme]. *)
Definition johnDoe : Customer :=
  stored sampleDb
    (customerInput (host := utcHost) (org_id acme) (john true) (str "+15551234567") None).

Definition johnsDb : Db := withCustomer sampleDb johnDoe.

(** An internal user of the other tenant. *)
Definition outsider : User :=
  mkUser (str "user-3") (str "clerk-3") (str "o@beta.test") (str "Odo") (str "Orr")
    SUPER_ADMIN (org_id beta).

Definition johnsDbWithOutsider : Db :=
  mkDb (organizations johnsDb) (settingsTable johnsDb) (customers johnsDb)
    (users johnsDb ++ [outsider]) (nextId johnsDb).

End Examples2.
Import Examples2.

Module Vocabulary5.

(** The constraint [clerkUserId @unique] on the users of a store. *)
Definition clerkIdsUnique (d : Db) : Prop := NoDup (map user_clerkUserId (users d)).

End Vocabulary5.
Import Vocabulary5.

(* ================================================================== *)
(** * Properties *)

Unset Implicit Arguments.

(** ** Correctness of the derivative matcher *)

Lemma Lang_Void w : Lang Void w <-> False.
Proof. split; intros H; [inversion H | contradiction]. Qed.

Lemma Lang_Eps w : Lang Eps w <-> w = [].
Proof. split; intros H; [inversion H; reflexivity | subst; constructor]. Qed.

Lemma Lang_OneOf p w : Lang (OneOf p) w <-> exists c, w = [c] /\ p c = true.
Proof.
  split.
  - intros H; inversion H; subst; eauto.
  - intros (c & -> & Hc); constructor; assumption.
Qed.

Lemma Lang_Cat a b w :
  Lang (Cat a b) w <-> exists s t, w = s ++ t /\ Lang a s /\ Lang b t.
Proof.
  split.
  - intros H; inversion H; subst; eauto.
  - intros (s & t & -> & Hs & Ht); constructor; assumption.
Qed.

Lemma Lang_Alt a b w : Lang (Alt a b) w <-> Lang a w \/ Lang b w.
Proof.
  split.
  - intros H; inversion H; subst; auto.
  - intros [H | H]; [apply LAltL | apply LAltR]; assumption.
Qed.

Lemma nullable_Lang r : nullable r = true <-> Lang r [].
Proof.
  induction r as [| | p | a IHa b IHb | a IHa b IHb | a IHa]; simpl.
  - rewrite Lang_Void. split; [discriminate | contradiction].
  - rewrite Lang_Eps. split; reflexivity.
  - rewrite Lang_OneOf. split; [discriminate | intros (c & E & _); discriminate].
  - rewrite andb_true_iff, IHa, IHb, Lang_Cat. split.
    + intros [Ha Hb]. exists [], []. auto.
    + intros (s & t & E & Hs & Ht). symmetry in E.
      apply app_eq_nil in E as [-> ->]. split; assumption.
  - rewrite orb_true_iff, IHa, IHb, Lang_Alt. reflexivity.
  - split; intros _; [constructor | reflexivity].
Qed.

Lemma Lang_star_cons a c s :
  Lang (Star a) (c :: s) ->
  exists s1 s2, s = s1 ++ s2 /\ Lang a (c :: s1) /\ Lang (Star a) s2.
Proof.
  intros H. remember (Star a) as r eqn:Er. remember (c :: s) as w eqn:Ew.
  revert s Ew.
  induction H as [| | | | | | a' u t Hu _ Ht IHt]; intros s0 Ew; try discriminate.
  injection Er as ->.
  destruct u as [| x u'].
  - simpl in Ew. apply IHt; auto.
  - simpl in Ew. injection Ew as E1 E2. subst.
    exists u', t. auto.
Qed.

Lemma deriv_Lang r : forall c s, Lang (deriv c r) s <-> Lang r (c :: s).
Proof.
  induction r as [| | p | a IHa b IHb | a IHa b IHb | a IHa]; intros c s; simpl.
  - rewrite !Lang_Void. reflexivity.
  - rewrite Lang_Void, Lang_Eps. split; [contradiction | discriminate].
  - rewrite Lang_OneOf. destruct (p c) eqn:Hp.
    + rewrite Lang_Eps. split.
      * intros ->. eauto.
      * intros (c' & E & _). injection E as _ ->. reflexivity.
    + rewrite Lang_Void. split; [contradiction |].
      intros (c' & E & Hc'). injection E as -> _. congruence.
  - assert (Hcat : Lang (Cat (deriv c a) b) s <->
                   exists s1 t, s = s1 ++ t /\ Lang a (c :: s1) /\ Lang b t).
    { rewrite Lang_Cat. split; intros (s1 & t & E & H1 & H2);
        exists s1, t; repeat split; auto; apply IHa; assumption. }
    rewrite (Lang_Cat a b (c :: s)).
    destruct (nullable a) eqn:Hn.
    + rewrite Lang_Alt, Hcat, IHb. split.
      * intros [(s1 & t & -> & H1 & H2) | H].
        -- exists (c :: s1), t. auto.
        -- exists [], (c :: s). repeat split; auto. apply nullable_Lang; assumption.
      * intros (u & t & E & H1 & H2). destruct u as [| x u'].
        -- simpl in E. subst t. right; assumption.
        -- simpl in E. injection E as <- ->. left. eauto.
    + rewrite Hcat. split.
      * intros (s1 & t & -> & H1 & H2). exists (c :: s1), t. auto.
      * intros (u & t & E & H1 & H2). destruct u as [| x u'].
        -- apply nullable_Lang in H1. congruence.
        -- simpl in E. injection E as <- ->. eauto.
  - rewrite !Lang_Alt, IHa, IHb. reflexivity.
  - rewrite Lang_Cat. split.
    + intros (s1 & t & -> & H1 & H2). apply IHa in H1.
      change (c :: s1 ++ t) with ((c :: s1) ++ t). constructor; assumption.
    + intros H. apply Lang_star_cons in H as (s1 & s2 & -> & H1 & H2).
      exists s1, s2. repeat split; auto. apply IHa; assumption.
Qed.

Lemma fullMatch_Lang s : forall r, fullMatch r s = true <-> Lang r s.
Proof.
  induction s as [| c s IH]; intros r; simpl.
  - apply nullable_Lang.
  - rewrite IH. apply deriv_Lang.
Qed.

(** ** Repetitions of a character class *)

Lemma Lang_exactly_class p n : forall w,
  Lang (exactly n (OneOf p)) w <->
  List.length w = n /\ Forall (fun c => p c = true) w.
Proof.
  induction n as [| n IH]; intros w; simpl.
  - rewrite Lang_Eps. split.
    + intros ->. split; [reflexivity | constructor].
    + intros [H _]. destruct w; [reflexivity | discriminate].
  - rewrite Lang_Cat. split.
    + intros (s & t & -> & Hs & Ht).
      apply Lang_OneOf in Hs as (c & -> & Hc). apply IH in Ht as [Hl Hf].
      simpl. split; [congruence | constructor; assumption].
    + intros [Hl Hf]. destruct w as [| c w]; [discriminate |].
      inversion Hf; subst. exists [c], w. repeat split.
      * apply Lang_OneOf; eauto.
      * apply IH. split; [simpl in Hl; congruence | assumption].
Qed.

Lemma Lang_upTo_class p n : forall w,
  Lang (upTo n (OneOf p)) w <->
  List.length w <= n /\ Forall (fun c => p c = true) w.
Proof.
  induction n as [| n IH]; intros w; simpl.
  - rewrite Lang_Eps. split.
    + intros ->. split; [reflexivity | constructor].
    + intros [H _]. destruct w; [reflexivity | simpl in H; lia].
  - unfold Opt. rewrite Lang_Alt, Lang_Eps, Lang_Cat. split.
    + intros [-> | (s & t & -> & Hs & Ht)].
      * split; [simpl; lia | constructor].
      * apply Lang_OneOf in Hs as (c & -> & Hc). apply IH in Ht as [Hl Hf].
        simpl. split; [lia | constructor; assumption].
    + intros [Hl Hf]. destruct w as [| c w]; [left; reflexivity | right].
      inversion Hf; subst. exists [c], w. repeat split.
      * apply Lang_OneOf; eauto.
      * apply IH. split; [simpl in Hl; lia | assumption].
Qed.

Lemma Lang_Rep_class p m n w :
  m <= n ->
  (Lang (Rep m n (OneOf p)) w <->
   m <= List.length w <= n /\ Forall (fun c => p c = true) w).
Proof.
  intros Hmn. unfold Rep. rewrite Lang_Cat. split.
  - intros (s & t & -> & Hs & Ht).
    apply Lang_exactly_class in Hs as [Hls Hfs].
    apply Lang_upTo_class in Ht as [Hlt Hft].
    rewrite length_app. split; [lia | apply Forall_app; split; assumption].
  - intros [Hl Hf].
    exists (firstn m w), (skipn m w). rewrite firstn_skipn. repeat split.
    + apply Lang_exactly_class. split.
      * apply firstn_length_le; lia.
      * rewrite <- (firstn_skipn m w) in Hf. apply Forall_app in Hf. tauto.
    + apply Lang_upTo_class. split.
      * rewrite length_skipn. lia.
      * rewrite <- (firstn_skipn m w) in Hf. apply Forall_app in Hf. tauto.
Qed.

Lemma Lang_Star_class p w :
  Lang (Star (OneOf p)) w <-> Forall (fun c => p c = true) w.
Proof.
  split.
  - intros H. remember (Star (OneOf p)) as r eqn:Er.
    induction H as [| | | | | | a u t Hu _ Ht IHt]; try discriminate.
    + constructor.
    + injection Er as ->. apply Lang_OneOf in Hu as (c & -> & Hc).
      simpl. constructor; auto.
  - induction w as [| c w IH]; intros Hf.
    + constructor.
    + inversion Hf; subst. change (c :: w) with ([c] ++ w).
      constructor; [apply Lang_OneOf; eauto | auto].
Qed.

Lemma Lang_Plus_class p w :
  Lang (Plus (OneOf p)) w <-> w <> [] /\ Forall (fun c => p c = true) w.
Proof.
  unfold Plus. rewrite Lang_Cat. split.
  - intros (s & t & -> & Hs & Ht).
    apply Lang_OneOf in Hs as (c & -> & Hc). apply Lang_Star_class in Ht.
    split; [discriminate | constructor; assumption].
  - intros [Hne Hf]. destruct w as [| c w]; [congruence |].
    inversion Hf; subst. exists [c], w. repeat split.
    + apply Lang_OneOf; eauto.
    + apply Lang_Star_class; assumption.
Qed.

(** ** isE164Format *)

Lemma nonzero_digit_class d :
  between 49%N 57%N d = true <-> isDigit d = true /\ d <> ch "0".
Proof.
  unfold isDigit, between, ch. simpl.
  rewrite !andb_true_iff, !N.leb_le. lia.
Qed.

Lemma e164Regex_language (s : jsstring) :
  isE164Format s = true <-> canonical_form_spec s.
Proof.
  unfold isE164Format, test, canonical_form_spec, e164Regex. simpl seq.
  rewrite fullMatch_Lang, Lang_Cat. split.
  - intros (s1 & t1 & -> & H1 & H2).
    apply Lang_OneOf in H1 as (c & -> & Hc).
    apply Lang_Cat in H2 as (s2 & t2 & -> & H2 & H3).
    apply Lang_OneOf in H2 as (d & -> & Hd).
    apply Lang_Rep_class in H3 as [Hl Hf]; [| lia].
    apply nonzero_digit_class in Hd as [Hd Hnz].
    unfold char_eqb in Hc. apply N.eqb_eq in Hc. subst c.
    exists d, t2. simpl. auto.
  - intros (d & rest & -> & Hd & Hnz & Hl & Hf).
    exists [ch "+"], (d :: rest). repeat split.
    + apply Lang_OneOf. exists (ch "+"). split; [reflexivity |].
      apply N.eqb_refl.
    + apply Lang_Cat. exists [d], rest. repeat split.
      * apply Lang_OneOf. exists d. split; [reflexivity |].
        apply nonzero_digit_class; auto.
      * apply Lang_Rep_class; [lia | auto].
Qed.

(** C6. [isE164Format s] answers true exactly for the strings made of a
    plus sign, one digit other than zero and then one to fourteen further
    digits, i.e. those matched by [^\+[1-9]\d{1,14}$]. *)
Theorem isE164Format_iff_canonical_form (s : jsstring) :
  isE164Format s = true <-> canonical_form_spec s.
Proof. exact (e164Regex_language s). Qed.

Example isE164Format_examples :
  map isE164Format
    [str "+15551234567"; str "+447123456789"; str "+8613800138000";
     str "555-123-4567"; str "(555) 123-4567"; str "+1"; str "15551234567";
     str "+0555123456"; str "+12"; str "+123456789012345"; str "+1234567890123456"]
  = [true; true; true; false; false; false; false; false; true; true; false].
Proof. reflexivity. Qed.

(** ** Calendar arithmetic *)

Section Calendar.
Local Open Scope Z_scope.

Lemma DayFromYear_lower y : 146097 * (y - 1970) - 607 <= 400 * DayFromYear y.
Proof. unfold DayFromYear. Z.div_mod_to_equations. lia. Qed.

Lemma DayFromYear_upper y : 400 * DayFromYear y <= 146097 * (y - 1970) + 593.
Proof. unfold DayFromYear. Z.div_mod_to_equations. lia. Qed.

(** [YearFromTime] is the year ECMA-262 defines: the largest [y] whose
    first instant is not after [t]. *)
Lemma YearFromTime_spec t :
  TimeFromYear (YearFromTime t) <= t < TimeFromYear (YearFromTime t + 1).
Proof.
  unfold TimeFromYear, YearFromTime, Day, msPerDay.
  set (d := t / 86400000).
  assert (Hd : 86400000 * d <= t < 86400000 * (d + 1)).
  { subst d. Z.div_mod_to_equations. lia. }
  clearbody d.
  set (y := 1970 + d * 400 / 146097).
  assert (Hy : 146097 * (y - 1970) <= 400 * d < 146097 * (y - 1970 + 1)).
  { subst y. Z.div_mod_to_equations. lia. }
  clearbody y.
  pose proof (DayFromYear_lower (y + 2)). pose proof (DayFromYear_upper (y - 1)).
  destruct (Z.ltb_spec d (DayFromYear y)).
  - replace (y - 1 + 1) with y by lia. lia.
  - destruct (Z.leb_spec (DayFromYear (y + 1)) d).
    + replace (y + 1 + 1) with (y + 2) by lia. lia.
    + lia.
Qed.

Lemma DayFromYear_step y : 365 <= DayFromYear (y + 1) - DayFromYear y <= 366.
Proof. unfold DayFromYear. Z.div_mod_to_equations. lia. Qed.

(** [k] years span between [365k] and [366k] days. *)
Lemma DayFromYear_diff y k :
  0 <= k -> 365 * k <= DayFromYear y - DayFromYear (y - k) <= 366 * k.
Proof. unfold DayFromYear. intros. Z.div_mod_to_equations. lia. Qed.

End Calendar.

(** ** Running awaited computations *)

Lemma await_fault A (call : DbCall) (op : Db -> Result A * Db) w e :
  nextFault w = Some e ->
  await call op w
  = (Throw e, mkWorld (afterInterference w) (tl (schedule w)) (trace w ++ [call])).
Proof.
  unfold nextFault, afterInterference, await.
  destruct (schedule w) as [| env rest]; simpl; [discriminate |].
  intros ->. reflexivity.
Qed.

Lemma await_run A (call : DbCall) (op : Db -> Result A * Db) w :
  nextFault w = None ->
  await call op w
  = (fst (op (afterInterference w)),
     mkWorld (snd (op (afterInterference w))) (tl (schedule w)) (trace w ++ [call])).
Proof.
  unfold nextFault, afterInterference, await.
  destruct (schedule w) as [| env rest]; simpl.
  - intros _. destruct (op (db w)); reflexivity.
  - intros ->. destruct (op (interfere env (db w))); reflexivity.
Qed.

(** ** checkPhoneAvailability *)

Lemma checkPhoneAvailability_noncanonical phone org excl w :
  isE164Format phone = false ->
  checkPhoneAvailability phone org excl w = (Ok formatError, w).
Proof.
  intros H. unfold checkPhoneAvailability, try_catch. rewrite H. reflexivity.
Qed.

Lemma checkPhoneAvailability_fault phone org excl w e :
  isE164Format phone = true ->
  nextFault w = Some e ->
  fst (checkPhoneAvailability phone org excl w) = Ok lookupError.
Proof.
  intros H Hf. unfold checkPhoneAvailability, try_catch, bind, customer_findFirst.
  rewrite H. cbn [negb]. cbv beta iota.
  rewrite (await_fault _ _ _ _ _ Hf). reflexivity.
Qed.

Lemma checkPhoneAvailability_run phone org excl w :
  isE164Format phone = true ->
  nextFault w = None ->
  checkPhoneAvailability phone org excl w
  = (Ok (match find (customerWhere org phone
                       (if truthy_opt excl then excl else None))
                    (customers (afterInterference w)) with
         | Some c =>
             mkPhoneAvailabilityResult false
               (Some (str "Phone number already registered to "
                      ++ cust_firstName c ++ str " " ++ cust_lastName c))
         | None =>
             mkPhoneAvailabilityResult true (Some (str "Phone number is available"))
         end),
     mkWorld (afterInterference w) (tl (schedule w))
       (trace w ++ [CustomerFindFirst org phone
                      (if truthy_opt excl then excl else None)])).
Proof.
  intros H Hf. unfold checkPhoneAvailability, try_catch, bind, customer_findFirst.
  rewrite H. cbn [negb]. cbv beta iota.
  rewrite (await_run _ _ _ _ Hf). simpl.
  destruct (find _ _); reflexivity.
Qed.

(** C10. [checkPhoneAvailability] always returns a result and never throws;
    when the lookup itself fails the result is unavailable with the generic
    error message, and an answer of available is only ever given after a
    lookup that ran without failure. *)
Theorem checkPhoneAvailability_total_fail_closed
    (phone org : jsstring) (excl : option Id) (w : World) :
  (exists r w', checkPhoneAvailability phone org excl w = (Ok r, w'))
  /\ (forall e, isE164Format phone = true -> nextFault w = Some e ->
        fst (checkPhoneAvailability phone org excl w) = Ok lookupError)
  /\ (forall r w', checkPhoneAvailability phone org excl w = (Ok r, w') ->
        available r = true ->
        isE164Format phone = true /\ nextFault w = None).
Proof.
  split; [| split].
  - destruct (isE164Format phone) eqn:He.
    + destruct (nextFault w) as [e |] eqn:Hf.
      * pose proof (checkPhoneAvailability_fault phone org excl w e He Hf) as H.
        destruct (checkPhoneAvailability phone org excl w) as [r w'].
        simpl in H. subst r. eauto.
      * rewrite (checkPhoneAvailability_run phone org excl w He Hf). eauto.
    + rewrite (checkPhoneAvailability_noncanonical phone org excl w He). eauto.
  - intros e He Hf. apply checkPhoneAvailability_fault with (e := e); assumption.
  - intros r w' Hrun Hav.
    destruct (isE164Format phone) eqn:He.
    + split; [reflexivity |].
      destruct (nextFault w) as [e |] eqn:Hf; [| reflexivity].
      pose proof (checkPhoneAvailability_fault phone org excl w e He Hf) as H.
      rewrite Hrun in H. simpl in H. injection H as ->. discriminate.
    + rewrite (checkPhoneAvailability_noncanonical phone org excl w He) in Hrun.
      injection Hrun as <- _. discriminate.
Qed.

(** A store that is down when the lookup is attempted. *)
Example checkPhoneAvailability_outage :
  fst (checkPhoneAvailability (str "+11234567890") (str "org-123") None
         (mkWorld sampleDb [mkStepEnv (fun d => d) (Some (OtherError (str "Database error")))] []))
  = Ok lookupError.
Proof. reflexivity. Qed.

(** C5. On a string that is not in canonical form the availability checker
    answers unavailable with the format message and leaves the store, the
    schedule and the query log untouched; the combined helper hands back the
    formatter's failure in the same way when formatting fails. *)
Theorem noncanonical_input_never_reaches_storage
    {lib : PhoneLib} (phone phoneInput countryCode org : jsstring)
    (excl : option Id) (w : World) :
  isE164Format phone = false ->
  isValid (validateAndFormatPhone phoneInput countryCode) = false ->
  checkPhoneAvailability phone org excl w = (Ok formatError, w)
  /\ validatePhoneAndCheckAvailability phoneInput countryCode org excl w
     = (Ok (mkPhoneCheckResult (validateAndFormatPhone phoneInput countryCode) None), w).
Proof.
  intros He Hv. split.
  - apply checkPhoneAvailability_noncanonical; assumption.
  - unfold validatePhoneAndCheckAvailability. rewrite Hv. reflexivity.
Qed.

Lemma noncanonical_input_never_reaches_storage_witness :
  checkPhoneAvailability (str "1234567890") (str "org-123") None (alone sampleDb)
  = (Ok formatError, alone sampleDb)
  /\ validatePhoneAndCheckAvailability (lib := nanpLib) (str "123") (str "US")
       (str "org-123") None (alone sampleDb)
     = (Ok (mkPhoneCheckResult
              (validateAndFormatPhone (lib := nanpLib) (str "123") (str "US")) None),
        alone sampleDb).
Proof.
  apply (noncanonical_input_never_reaches_storage (lib := nanpLib)); reflexivity.
Defined.

(** ** The registration handler *)

Lemma getOrganizationBySlug_run slug w :
  nextFault w = None ->
  getOrganizationBySlug slug w
  = (Ok (organizationBySlug (afterInterference w) slug),
     advance w (OrganizationFindUnique slug) (afterInterference w)).
Proof.
  intros Hf. unfold getOrganizationBySlug, try_catch, organization_findUnique.
  rewrite (await_run _ _ _ _ Hf). reflexivity.
Qed.

Lemma customer_create_conflict data w :
  nextFault w = None ->
  phoneTaken (afterInterference w) (in_organizationId data) (in_phone data) = true ->
  customer_create data w
  = (Throw P2002,
     advance w (CustomerCreate (in_organizationId data) (in_phone data))
       (afterInterference w)).
Proof.
  intros Hf Ht. unfold customer_create. rewrite (await_run _ _ _ _ Hf).
  rewrite Ht. reflexivity.
Qed.

Lemma customer_create_insert data w :
  nextFault w = None ->
  phoneTaken (afterInterference w) (in_organizationId data) (in_phone data) = false ->
  customer_create data w
  = (Ok (stored (afterInterference w) data),
     advance w (CustomerCreate (in_organizationId data) (in_phone data))
       (withCustomer (afterInterference w) (stored (afterInterference w) data))).
Proof.
  intros Hf Ht. unfold customer_create. rewrite (await_run _ _ _ _ Hf).
  rewrite Ht. reflexivity.
Qed.

Lemma isE164Format_truthy f : isE164Format f = true -> truthy f = true.
Proof. destruct f; [discriminate | reflexivity]. Qed.

(** The handler up to its insert: the payload validates, the tenant is
    found, the phone formats to [f] and the availability check finds
    nothing. *)
Lemma register_POST_reaches_insert
    {host : Host} {lib : PhoneLib} clk slug body o f c w :
  validateCustomerRegistration clk body = [] ->
  nextFault w = None ->
  organizationBySlug (afterInterference w) slug = Some o ->
  validateAndFormatPhone (phone body) (registrationCountry o body) = accepted f c ->
  isE164Format f = true ->
  let w1 := advance w (OrganizationFindUnique slug) (afterInterference w) in
  nextFault w1 = None ->
  find (customerWhere (org_id (organization o)) f None)
       (customers (afterInterference w1)) = None ->
  let w2 := advance w1 (CustomerFindFirst (org_id (organization o)) f None)
              (afterInterference w1) in
  register_POST clk slug body w
  = match customer_create (customerInput (org_id (organization o)) body f None) w2 with
    | (Ok customer, w3) =>
        (Ok (mkHttpResponse 201
               (ApiSuccess (RegisterPayload (cust_id customer) false
                              (str "Registration successful!")))), w3)
    | (Throw e, w3) => (Ok (onCreateError e), w3)
    end.
Proof.
  intros Hval Hf0 Horg Hfmt He w1 Hf1 Hfree w2.
  unfold register_POST. rewrite Hval. cbn [List.length Nat.ltb Nat.leb].
  unfold try_catch at 1. unfold bind at 1.
  rewrite (getOrganizationBySlug_run slug w Hf0), Horg.
  unfold bind at 1. unfold ret at 1.
  unfold bind at 1. unfold validatePhoneAndCheckAvailability.
  rewrite Hfmt. cbn [isValid formatted accepted]. rewrite (isE164Format_truthy f He).
  unfold bind at 1.
  fold w1. rewrite (checkPhoneAvailability_run f (org_id (organization o)) None w1 He Hf1).
  cbn [truthy_opt]. rewrite Hfree. fold w2.
  unfold ret at 1. unfold phoneRejected. cbn.
  unfold try_catch, bind, createWithPhone.
  subst w2 w1. unfold advance. cbn [db schedule trace].
  destruct (customer_create _ _) as [[customer | e] w3]; reflexivity.
Qed.

Lemma existsb_false_find A (p : A -> bool) l :
  existsb p l = false -> find p l = None.
Proof.
  induction l as [| x l IH]; simpl; [reflexivity |].
  destruct (p x); simpl; [discriminate | exact IH].
Qed.

(** Registration of a free phone by a request that runs alone. *)
Lemma register_POST_alone {host : Host} {lib : PhoneLib} clk slug body o f c d tr :
  validateCustomerRegistration clk body = [] ->
  organizationBySlug d slug = Some o ->
  validateAndFormatPhone (phone body) (registrationCountry o body) = accepted f c ->
  isE164Format f = true ->
  phoneTaken d (org_id (organization o)) f = false ->
  let input := customerInput (org_id (organization o)) body f None in
  register_POST clk slug body (mkWorld d [] tr)
  = (Ok (registered (cust_id (stored d input))),
     mkWorld (withCustomer d (stored d input)) []
       (tr ++ [OrganizationFindUnique slug;
               CustomerFindFirst (org_id (organization o)) f None;
               CustomerCreate (org_id (organization o)) f])).
Proof.
  intros Hval Horg Hfmt He Hfree input.
  rewrite (register_POST_reaches_insert clk slug body o f c (mkWorld d [] tr)
             Hval eq_refl Horg Hfmt He eq_refl).
  - rewrite customer_create_insert; [| reflexivity | exact Hfree].
    unfold registered, advance, afterInterference. cbn [db schedule trace tl].
    rewrite <- !app_assoc. reflexivity.
  - apply existsb_false_find. exact Hfree.
Qed.

(** C1. The same canonical phone registers under two different tenants,
    one request after the other.  And in any world, with any concurrent
    writes, once the handler has found the tenant and its availability
    check has found the phone free, an insert that fails on the unique
    constraint of (tenant, phone) is answered with status 409 and the
    message that the phone is already registered, while any other failure
    of the insert is answered with the generic status 500. *)
Theorem phone_unique_per_tenant_conflict_is_409
    {host : Host} {lib : PhoneLib}
    (clk : ClockReads) (body : CustomerRegistrationData)
    (slugA slugB : jsstring) (oA oB : OrganizationWithSettings)
    (f : jsstring) (cA cB : option jsstring) (d : Db) :
  validateCustomerRegistration clk body = [] ->
  organizationBySlug d slugA = Some oA ->
  organizationBySlug d slugB = Some oB ->
  JS.eqb (org_id (organization oA)) (org_id (organization oB)) = false ->
  validateAndFormatPhone (phone body) (registrationCountry oA body) = accepted f cA ->
  validateAndFormatPhone (phone body) (registrationCountry oB body) = accepted f cB ->
  isE164Format f = true ->
  phoneTaken d (org_id (organization oA)) f = false ->
  phoneTaken d (org_id (organization oB)) f = false ->
  (exists c1 c2 w1 w2,
      register_POST clk slugA body (alone d) = (Ok (registered (cust_id c1)), w1)
      /\ register_POST clk slugB body w1 = (Ok (registered (cust_id c2)), w2)
      /\ customers (db w2) = customers d ++ [c1; c2]
      /\ cust_phone c1 = f /\ cust_organizationId c1 = org_id (organization oA)
      /\ cust_phone c2 = f /\ cust_organizationId c2 = org_id (organization oB))
  /\ (forall (w : World) (o : OrganizationWithSettings) (c : option jsstring)
             (e : JsError),
        nextFault w = None ->
        organizationBySlug (afterInterference w) slugA = Some o ->
        validateAndFormatPhone (phone body) (registrationCountry o body) = accepted f c ->
        let w1 := advance w (OrganizationFindUnique slugA) (afterInterference w) in
        nextFault w1 = None ->
        find (customerWhere (org_id (organization o)) f None)
             (customers (afterInterference w1)) = None ->
        let w2 := advance w1 (CustomerFindFirst (org_id (organization o)) f None)
                    (afterInterference w1) in
        fst (customer_create (customerInput (org_id (organization o)) body f None) w2)
        = Throw e ->
        fst (register_POST clk slugA body w) = Ok (onCreateError e)
        /\ (e = P2002 -> onCreateError e = conflict)
        /\ (forall msg, e = OtherError msg ->
                        onCreateError e = fail 500 (str "Failed to create customer record"))).
Proof.
  intros Hval HA HB Hne HfA HfB He HfreeA HfreeB. split.
  - set (c1 := stored d (customerInput (org_id (organization oA)) body f None)).
    set (d1 := withCustomer d c1).
    set (c2 := stored d1 (customerInput (org_id (organization oB)) body f None)).
    assert (HB1 : organizationBySlug d1 slugB = Some oB) by exact HB.
    assert (Hfree1 : phoneTaken d1 (org_id (organization oB)) f = false).
    { unfold phoneTaken, d1, withCustomer. cbn [customers].
      rewrite existsb_app. unfold phoneTaken in HfreeB. rewrite HfreeB.
      cbn [existsb orb]. unfold customerWhere, c1, stored, customerInput.
      cbn [cust_organizationId in_organizationId]. rewrite Hne. reflexivity. }
    exists c1, c2.
    eexists. eexists. split; [| split; [| split]].
    + unfold alone. apply register_POST_alone with (c := cA); assumption.
    + apply register_POST_alone with (c := cB); assumption.
    + cbn [db]. unfold withCustomer. cbn [customers]. fold c1. fold d1. fold c2.
      unfold d1, withCustomer. cbn [customers]. rewrite <- app_assoc. reflexivity.
    + repeat split; reflexivity.
  - intros w o c e Hf0 Ho Hfo w1 Hf1 Hfree w2 Hthrow.
    split; [| split].
    + rewrite (register_POST_reaches_insert clk slugA body o f c w
                 Hval Hf0 Ho Hfo He Hf1 Hfree).
      fold w1. fold w2.
      destruct (customer_create _ w2) as [[cust | e'] w3]; simpl in Hthrow.
      * discriminate.
      * injection Hthrow as ->. reflexivity.
    + intros ->. reflexivity.
    + intros msg ->. reflexivity.
Qed.

Lemma phone_unique_per_tenant_conflict_is_409_witness :
  (exists c1 c2 w1 w2,
      register_POST (host := utcHost) (lib := nanpLib) sampleClock (str "acme")
        (john true) (alone sampleDb) = (Ok (registered (cust_id c1)), w1)
      /\ register_POST (host := utcHost) (lib := nanpLib) sampleClock (str "beta")
           (john true) w1 = (Ok (registered (cust_id c2)), w2)
      /\ customers (db w2) = customers sampleDb ++ [c1; c2]
      /\ cust_phone c1 = str "+15551234567" /\ cust_organizationId c1 = org_id acme
      /\ cust_phone c2 = str "+15551234567" /\ cust_organizationId c2 = org_id beta)
  /\ (forall (w : World) (o : OrganizationWithSettings) (c : option jsstring)
             (e : JsError),
        nextFault w = None ->
        organizationBySlug (afterInterference w) (str "acme") = Some o ->
        validateAndFormatPhone (lib := nanpLib) (phone (john true))
          (registrationCountry o (john true)) = accepted (str "+15551234567") c ->
        let w1 := advance w (OrganizationFindUnique (str "acme")) (afterInterference w) in
        nextFault w1 = None ->
        find (customerWhere (org_id (organization o)) (str "+15551234567") None)
             (customers (afterInterference w1)) = None ->
        let w2 := advance w1
                    (CustomerFindFirst (org_id (organization o)) (str "+15551234567") None)
                    (afterInterference w1) in
        fst (customer_create
               (customerInput (host := utcHost) (org_id (organization o)) (john true)
                  (str "+15551234567") None) w2)
        = Throw e ->
        fst (register_POST (host := utcHost) (lib := nanpLib) sampleClock (str "acme")
               (john true) w) = Ok (onCreateError e)
        /\ (e = P2002 -> onCreateError e = conflict)
        /\ (forall msg, e = OtherError msg ->
                        onCreateError e = fail 500 (str "Failed to create customer record"))).
Proof.
  apply (@phone_unique_per_tenant_conflict_is_409 utcHost nanpLib
           sampleClock (john true) (str "acme") (str "beta")
           (mkOrganizationWithSettings acme None)
           (mkOrganizationWithSettings beta None)
           (str "+15551234567") (Some (str "US")) (Some (str "US")) sampleDb);
    vm_compute; reflexivity.
Defined.

(** The race itself: the check of this request sees the phone free, a
    rival registration for the same tenant and phone is inserted before
    this request's insert, and the answer is the conflict. *)
Example register_POST_race :
  let rival d := withCustomer d
                   (stored d (customerInput (host := utcHost) (org_id acme) (john true)
                                (str "+15551234567") None)) in
  let w := mkWorld sampleDb [quiet; quiet; mkStepEnv rival None] [] in
  fst (register_POST (host := utcHost) (lib := nanpLib) sampleClock (str "acme")
         (john true) w) = Ok conflict
  /\ trace (snd (register_POST (host := utcHost) (lib := nanpLib) sampleClock
                   (str "acme") (john true) w))
     = [OrganizationFindUnique (str "acme");
        CustomerFindFirst (org_id acme) (str "+15551234567") None;
        CustomerCreate (org_id acme) (str "+15551234567")].
Proof. vm_compute. split; reflexivity. Qed.

(** Registering again without any race is stopped earlier, by the
    availability check, with status 400 and the holder's name. *)
Example register_POST_twice :
  fst (register_POST (host := utcHost) (lib := nanpLib) sampleClock (str "acme")
         (john true)
         (snd (register_POST (host := utcHost) (lib := nanpLib) sampleClock (str "acme")
                 (john true) (alone sampleDb))))
  = Ok (fail 400 (str "Phone number already registered to John Doe")).
Proof. vm_compute. reflexivity. Qed.

(** A tenant created by the first registration receives the settings
    country "United States"; that name, not an ISO code, is what the
    handler then hands to the formatter as the country code. *)
Example register_POST_new_tenant_country :
  fst (register_POST (host := utcHost) (lib := nanpLib) sampleClock (str "gamma")
         (john true) (alone sampleDb))
  = Ok (fail 400 (str "Invalid country code")).
Proof. vm_compute. reflexivity. Qed.

(** ** Consent on the two creation paths *)

Lemma In_push errors e x : In x errors -> In x (push errors e).
Proof.
  intros H. destruct e as [y |]; simpl; [apply in_or_app; left |]; assumption.
Qed.

Lemma In_pushOptional errors v validate x :
  In x errors -> In x (pushOptional errors v validate).
Proof.
  intros H. unfold pushOptional. destruct v as [s |]; [| assumption].
  destruct (truthy s); [apply In_push |]; assumption.
Qed.

Lemma consent_error_reported {host : Host} clk body :
  consentGiven body = false ->
  In consentError (validateCustomerRegistration clk body).
Proof.
  intros Hc. unfold validateCustomerRegistration.
  repeat apply In_pushOptional.
  unfold validateConsent. rewrite Hc. cbn [negb push].
  apply in_or_app. right. left. reflexivity.
Qed.

Lemma nonempty_length A (l : list A) x : In x l -> Nat.ltb 0 (List.length l) = true.
Proof. destruct l; [contradiction | reflexivity]. Qed.

Lemma getUserByClerkId_run cid w :
  nextFault w = None ->
  getUserByClerkId cid w
  = (Ok (find (fun u => JS.eqb (user_clerkUserId u) cid) (users (afterInterference w))),
     advance w (UserFindUnique cid) (afterInterference w)).
Proof.
  intros Hf. unfold getUserByClerkId, try_catch, user_findUnique.
  rewrite (await_run _ _ _ _ Hf). reflexivity.
Qed.

(** C3 (as the code behaves). A payload without consent is answered
    "Validation failed" (400) with the consent message on the public
    registration path, in any world and before any query; and the
    admin-create path answers an authorized manager or super admin in
    exactly the same way after its two lookups, so that no customer with
    [consentGiven = false] is ever stored through it. *)
Theorem consent_false_rejected_on_both_paths
    {host : Host} {lib : PhoneLib}
    (clk : ClockReads) (tenantId clerkUserId : jsstring)
    (body : CustomerRegistrationData)
    (o : OrganizationWithSettings) (u : User) (d : Db) (w : World) :
  consentGiven body = false ->
  truthy clerkUserId = true ->
  organizationBySlug d tenantId = Some o ->
  find (fun u => JS.eqb (user_clerkUserId u) clerkUserId) (users d) = Some u ->
  JS.eqb (user_organizationId u) (org_id (organization o)) = true ->
  role_eqb (user_role u) VIEWER = false ->
  In consentError (validateCustomerRegistration clk body)
  /\ register_POST clk tenantId body w
     = (Ok (validationFailed (validateCustomerRegistration clk body)), w)
  /\ create_POST clk (Some clerkUserId) tenantId body (alone d)
     = (Ok (validationFailed (validateCustomerRegistration clk body)),
        mkWorld d [] [OrganizationFindUnique tenantId; UserFindUnique clerkUserId]).
Proof.
  intros Hc Hs Horg Hu Hsame Hrole.
  pose proof (consent_error_reported clk body Hc) as Hin.
  pose proof (nonempty_length _ _ _ Hin) as Hlen.
  split; [exact Hin | split].
  - unfold register_POST, try_catch. rewrite Hlen. reflexivity.
  - unfold create_POST. unfold try_catch at 1. cbn [truthy_opt]. rewrite Hs.
    cbn [negb]. unfold bind at 1.
    rewrite (getOrganizationBySlug_run tenantId (alone d) eq_refl).
    cbn [afterInterference alone schedule db]. rewrite Horg.
    unfold bind at 1. cbn [or_else]. rewrite Hs.
    rewrite getUserByClerkId_run by reflexivity.
    unfold afterInterference, advance, alone. cbn [schedule db tl trace app].
    rewrite Hu.
    rewrite Hsame, Hrole, Hlen. reflexivity.
Qed.

Lemma consent_false_rejected_on_both_paths_witness :
  In consentError (validateCustomerRegistration (host := utcHost) sampleClock (john false))
  /\ register_POST (host := utcHost) (lib := nanpLib) sampleClock (str "acme")
       (john false) (alone sampleDb)
     = (Ok (validationFailed
              (validateCustomerRegistration (host := utcHost) sampleClock (john false))),
        alone sampleDb)
  /\ create_POST (host := utcHost) (lib := nanpLib) sampleClock (Some (str "clerk-1"))
       (str "acme") (john false) (alone sampleDb)
     = (Ok (validationFailed
              (validateCustomerRegistration (host := utcHost) sampleClock (john false))),
        mkWorld sampleDb [] [OrganizationFindUnique (str "acme");
                             UserFindUnique (str "clerk-1")]).
Proof.
  apply (@consent_false_rejected_on_both_paths utcHost nanpLib sampleClock
           (str "acme") (str "clerk-1") (john false)
           (mkOrganizationWithSettings acme None) manager sampleDb (alone sampleDb));
    vm_compute; reflexivity.
Defined.

(** The same manager creating the same customer with consent given is
    served: the refusal above is due to the consent flag alone. *)
Example create_POST_with_consent :
  fst (create_POST (host := utcHost) (lib := nanpLib) sampleClock
         (Some (str "clerk-1")) (str "acme") (john true) (alone sampleDb))
  = Ok (mkHttpResponse 201
          (ApiSuccess (CreatePayload (cuid 0) (str "Customer created successfully")))).
Proof. vm_compute. reflexivity. Qed.

Example create_POST_without_consent :
  fst (create_POST (host := utcHost) (lib := nanpLib) sampleClock
         (Some (str "clerk-1")) (str "acme") (john false) (alone sampleDb))
  = Ok (mkHttpResponse 400
          (ApiError (str "Validation failed")
             (Some [(str "consentGiven",
                     [str "You must agree to the terms to continue"])]))).
Proof. vm_compute. reflexivity. Qed.

(** ** Authorization denials *)

Lemma getCurrentUser_alone cid d tr :
  truthy cid = true ->
  getCurrentUser (Some cid) (mkWorld d [] tr)
  = (Ok (find (fun u => JS.eqb (user_clerkUserId u) cid) (users d)),
     mkWorld d [] (tr ++ [UserFindUnique cid])).
Proof.
  intros Hs. unfold getCurrentUser, try_catch. rewrite Hs. cbn [negb].
  unfold user_findUnique. rewrite await_run by reflexivity. reflexivity.
Qed.

Lemma minimumRoleRequired_names_role m :
  namesRole (errorOf (minimumRoleRequired m)) = true.
Proof. destruct m; reflexivity. Qed.

(** The claim C2 as stated fails: a read-only caller turned away by a
    minimum-role gate is told the role that would have passed it. *)
Lemma minimum_role_denial_names_the_role :
  fst (withRBAC (Some (str "clerk-2")) (mkRbacOptions (Some MANAGER) None None)
         (alone sampleDb))
  = Ok (Denied (fail 403 (str "Access denied: Minimum role MANAGER required")))
  /\ namesRole (str "Access denied: Minimum role MANAGER required") = true
  /\ roleIsAtLeast MANAGER MANAGER = true.
Proof. vm_compute. repeat split; reflexivity. Qed.

(** C2 (amended). For a signed-in caller who has a user record and passes
    the organization check, the request running alone: a denial on a
    required capability is the fixed message "Access denied: Insufficient
    permissions" with status 403, whatever the role and the capability, and
    that message names no role; a denial on a minimum role has status 403
    and a message that spells out the required minimum role; and the
    settings endpoint turns such a caller away, when the caller is an
    internal user of the tenant behind the slug and not a super admin, with
    status 403 and the fixed message "Only super admins can access
    settings". *)
Theorem authorization_denial_messages
    (cid tenantId : jsstring) (u : User) (o : OrganizationWithSettings)
    (d : Db) (options : RbacOptions) :
  truthy cid = true ->
  find (fun x => JS.eqb (user_clerkUserId x) cid) (users d) = Some u ->
  truthy_opt (organizationId options)
  && negb (opt_eqb (organizationId options) (user_organizationId u)) = false ->
  (forall a,
      match minimumRole options with
      | Some m => roleIsAtLeast (user_role u) m = true
      | None => True
      end ->
      requiredAction options = Some a ->
      roleHasPermission (user_role u) a = false ->
      fst (withRBAC (Some cid) options (alone d)) = Ok (Denied insufficientPermissions))
  /\ namesRole (errorOf insufficientPermissions) = false
  /\ (forall m,
        minimumRole options = Some m ->
        roleIsAtLeast (user_role u) m = false ->
        fst (withRBAC (Some cid) options (alone d)) = Ok (Denied (minimumRoleRequired m))
        /\ namesRole (errorOf (minimumRoleRequired m)) = true)
  /\ (organizationBySlug d tenantId = Some o ->
      JS.eqb (user_organizationId u) (org_id (organization o)) = true ->
      role_eqb (user_role u) SUPER_ADMIN = false ->
      fst (settings_GET (Some cid) tenantId (alone d))
      = Ok (fail 403 (str "Only super admins can access settings"))).
Proof.
  intros Hs Hu Horg.
  assert (Hrun : forall k : option User -> M RbacResult,
             bind (getCurrentUser (Some cid)) k (alone d)
             = k (Some u) (mkWorld d [] [UserFindUnique cid])).
  { intros k. unfold bind, alone. rewrite (getCurrentUser_alone cid d [] Hs), Hu.
    reflexivity. }
  split; [| split; [| split]].
  - intros a Hmin Ha Hperm. unfold withRBAC, try_catch. rewrite Hrun.
    rewrite Horg. rewrite Ha.
    destruct (minimumRole options) as [m |].
    + rewrite Hmin, Hperm. reflexivity.
    + rewrite Hperm. reflexivity.
  - reflexivity.
  - intros m Hm Hlow. split; [| apply minimumRoleRequired_names_role].
    unfold withRBAC, try_catch. rewrite Hrun.
    rewrite Horg. rewrite Hm, Hlow. reflexivity.
  - intros Ho Hsame Hrole. unfold settings_GET. unfold try_catch at 1.
    cbn [truthy_opt]. rewrite Hs. cbn [negb]. unfold bind at 1.
    rewrite (getOrganizationBySlug_run tenantId (alone d) eq_refl).
    unfold afterInterference, advance, alone. cbn [schedule db tl trace app].
    rewrite Ho. unfold bind at 1. cbn [or_else]. rewrite Hs.
    rewrite getUserByClerkId_run by reflexivity.
    unfold afterInterference, advance. cbn [schedule db tl trace app].
    rewrite Hu, Hsame, Hrole. reflexivity.
Qed.

Lemma authorization_denial_messages_witness :
  (forall a,
      roleIsAtLeast VIEWER VIEWER = true ->
      Some canDeleteCustomers = Some a ->
      roleHasPermission VIEWER a = false ->
      fst (withRBAC (Some (str "clerk-2"))
             (mkRbacOptions (Some VIEWER) (Some canDeleteCustomers) None)
             (alone sampleDb))
      = Ok (Denied insufficientPermissions))
  /\ namesRole (errorOf insufficientPermissions) = false
  /\ (forall m,
        Some VIEWER = Some m ->
        roleIsAtLeast VIEWER m = false ->
        fst (withRBAC (Some (str "clerk-2"))
               (mkRbacOptions (Some VIEWER) (Some canDeleteCustomers) None)
               (alone sampleDb))
        = Ok (Denied (minimumRoleRequired m))
        /\ namesRole (errorOf (minimumRoleRequired m)) = true)
  /\ (organizationBySlug sampleDb (str "acme")
      = Some (mkOrganizationWithSettings acme None) ->
      JS.eqb (user_organizationId viewer) (org_id acme) = true ->
      role_eqb VIEWER SUPER_ADMIN = false ->
      fst (settings_GET (Some (str "clerk-2")) (str "acme") (alone sampleDb))
      = Ok (fail 403 (str "Only super admins can access settings"))).
Proof.
  apply (@authorization_denial_messages (str "clerk-2") (str "acme") viewer
           (mkOrganizationWithSettings acme None) sampleDb
           (mkRbacOptions (Some VIEWER) (Some canDeleteCustomers) None));
    reflexivity.
Defined.

(** ** The role of a newly created internal user *)

Lemma user_create_alone data d tr :
  userClash d data = false ->
  tenantExists d (uin_organizationId data) = true ->
  user_create data (mkWorld d [] tr)
  = (Ok (storedUser d data),
     mkWorld (withUser d (storedUser d data)) [] (tr ++ [UserCreate (uin_clerkUserId data)])).
Proof.
  intros Hc Ht. unfold user_create. rewrite await_run by reflexivity.
  unfold afterInterference. cbn [schedule db]. rewrite Hc, Ht. reflexivity.
Qed.

Lemma user_create_unknown_tenant data d tr :
  userClash d data = false ->
  tenantExists d (uin_organizationId data) = false ->
  user_create data (mkWorld d [] tr)
  = (Throw P2003, mkWorld d [] (tr ++ [UserCreate (uin_clerkUserId data)])).
Proof.
  intros Hc Ht. unfold user_create. rewrite await_run by reflexivity.
  unfold afterInterference. cbn [schedule db]. rewrite Hc, Ht. reflexivity.
Qed.

(** A tenant found by its slug is a tenant that the relations of the other
    tables can refer to. *)
Lemma organizationBySlug_tenantExists d slug o :
  organizationBySlug d slug = Some o ->
  tenantExists d (org_id (organization o)) = true.
Proof.
  unfold organizationBySlug, tenantExists.
  destruct (find _ (organizations d)) as [o0 |] eqn:F; [| discriminate].
  intros H. injection H as <-. cbn [organization].
  destruct (find_some _ _ F) as [Hin _].
  apply existsb_exists. exists o0. split; [exact Hin |].
  clear. generalize (org_id o0). intros s.
  induction s as [| a s IH]; simpl; [reflexivity |].
  unfold char_eqb. rewrite N.eqb_refl. exact IH.
Qed.

Lemma isFirstUserInOrganization_alone org d tr :
  isFirstUserInOrganization org (mkWorld d [] tr)
  = (Ok (Nat.eqb (List.length (usersOf d org)) 0),
     mkWorld d [] (tr ++ [UserCount org])).
Proof.
  unfold isFirstUserInOrganization, try_catch, bind, user_count.
  rewrite await_run by reflexivity. reflexivity.
Qed.

(** The claim C4 as stated fails on [createInternalUser]: under a tenant
    without any internal user it stores the role it is given. *)
Lemma createInternalUser_keeps_requested_role :
  usersOf sampleDb (org_id beta) = []
  /\ option_map user_role
       (match fst (createInternalUser
                     (mkUserCreateInput (str "clerk-9") (str "n@beta.test") (str "Nia")
                        (str "Nash") VIEWER (org_id beta))
                     (alone sampleDb)) with
        | Ok u => u
        | Throw _ => None
        end)
     = Some VIEWER.
Proof. vm_compute. split; reflexivity. Qed.

(** C4 (amended). When the identity provider's [user.created] event
    provisions an internal user, the stored role is SUPER_ADMIN if the
    tenant has no internal user at that moment and VIEWER otherwise; the
    event carries no requested role.  [createInternalUser], called for a
    tenant that exists with data that clashes with no stored user, stores
    the role its caller passes, whatever the tenant's user count; called
    for an id that no tenant has, it stores nothing and answers null. *)
Theorem first_provisioned_user_is_super_admin
    (req : WebhookRequest) (evt : WebhookEvent) (slug e : jsstring)
    (rest : list jsstring) (o : OrganizationWithSettings) (d : Db)
    (data : UserCreateInput) :
  truthy_opt (webhookSecret req) = true ->
  truthy_opt (svixId req) = true ->
  truthy_opt (svixTimestamp req) = true ->
  truthy_opt (svixSignature req) = true ->
  verified req = Some evt ->
  evt_type evt = str "user.created" ->
  organizationSlug evt = Some slug -> truthy slug = true ->
  email_addresses evt = Some (e :: rest) -> truthy e = true ->
  organizationBySlug d slug = Some o ->
  (forall fn ln r,
      userClash d (mkUserCreateInput (evt_id evt) e fn ln r (org_id (organization o)))
      = false) ->
  userClash d data = false ->
  (exists u w',
      clerk_POST req (alone d) = (Ok (mkHttpResponse 200 WebhookReceived), w')
      /\ users (db w') = users d ++ [u]
      /\ user_clerkUserId u = evt_id evt
      /\ user_organizationId u = org_id (organization o)
      /\ (usersOf d (org_id (organization o)) = [] -> user_role u = SUPER_ADMIN)
      /\ (usersOf d (org_id (organization o)) <> [] -> user_role u = VIEWER))
  /\ (tenantExists d (uin_organizationId data) = true ->
      exists u w',
        createInternalUser data (alone d) = (Ok (Some u), w')
        /\ users (db w') = users d ++ [u]
        /\ user_organizationId u = uin_organizationId data
        /\ user_role u = uin_role data)
  /\ (tenantExists d (uin_organizationId data) = false ->
      exists w',
        createInternalUser data (alone d) = (Ok None, w')
        /\ db w' = d).
Proof.
  intros Hsec Hid Hts Hsig Hver Htype Hslug Hslugt Hmail Hmailt Horg Hfree Hfree'.
  pose proof (organizationBySlug_tenantExists d slug o Horg) as Htenant.
  split; [| split].
  - set (role := if Nat.eqb (List.length (usersOf d (org_id (organization o)))) 0
                 then SUPER_ADMIN else VIEWER).
    set (input := mkUserCreateInput (evt_id evt) e
                    (or_else (first_name evt)
                       (or_else (option_map beforeAt (Some e)) (str "User")))
                    (or_else (last_name evt) []) role (org_id (organization o))).
    exists (storedUser d input). eexists. split; [| split; [| split; [| split; [| split]]]].
    + unfold clerk_POST. rewrite Hsec, Hid, Hts, Hsig, Hver. cbn [negb orb].
      unfold try_catch at 1. rewrite Htype.
      replace (JS.eqb (str "user.created") (str "user.created")) with true by reflexivity.
      rewrite Hslug, Hmail, Hslugt, Hmailt. cbn [negb orb].
      unfold bind at 1. unfold organization_findUnique.
      rewrite await_run by reflexivity.
      unfold afterInterference, alone. cbn [schedule db tl trace app fst snd].
      rewrite Horg. unfold bind at 1.
      rewrite isFirstUserInOrganization_alone.
      unfold bind at 1. unfold try_catch at 1. unfold bind at 1.
      fold role. fold input.
      rewrite (user_create_alone input d _ (Hfree _ _ _) Htenant).
      reflexivity.
    + reflexivity.
    + reflexivity.
    + reflexivity.
    + intros Hnone. cbn [storedUser user_role input uin_role]. subst role.
      rewrite Hnone. reflexivity.
    + intros Hsome. cbn [storedUser user_role input uin_role]. subst role.
      destruct (usersOf d (org_id (organization o))); [congruence | reflexivity].
  - intros Hdata. exists (storedUser d data). eexists. split; [| split; [| split]].
    + unfold createInternalUser, try_catch, bind, alone.
      rewrite (user_create_alone data d [] Hfree' Hdata). reflexivity.
    + reflexivity.
    + reflexivity.
    + reflexivity.
  - intros Hdata. eexists. split.
    + unfold createInternalUser, try_catch, bind, alone.
      rewrite (user_create_unknown_tenant data d [] Hfree' Hdata). reflexivity.
    + reflexivity.
Qed.

Lemma first_provisioned_user_is_super_admin_witness :
  (exists u w',
      clerk_POST sampleRequest (alone sampleDb)
      = (Ok (mkHttpResponse 200 WebhookReceived), w')
      /\ users (db w') = users sampleDb ++ [u]
      /\ user_clerkUserId u = str "clerk-9"
      /\ user_organizationId u = org_id beta
      /\ (usersOf sampleDb (org_id beta) = [] -> user_role u = SUPER_ADMIN)
      /\ (usersOf sampleDb (org_id beta) <> [] -> user_role u = VIEWER))
  /\ (exists u w',
        createInternalUser sampleInvite (alone sampleDb) = (Ok (Some u), w')
        /\ users (db w') = users sampleDb ++ [u]
        /\ user_organizationId u = org_id beta
        /\ user_role u = VIEWER).
Proof.
  destruct (first_provisioned_user_is_super_admin sampleRequest sampleEvent
              (str "beta") (str "nia@beta.test") []
              (mkOrganizationWithSettings beta None) sampleDb sampleInvite
              eq_refl eq_refl eq_refl eq_refl eq_refl eq_refl eq_refl eq_refl
              eq_refl eq_refl eq_refl (fun _ _ _ => eq_refl) eq_refl)
    as (Hwebhook & Hhelper & _).
  split; [exact Hwebhook | exact (Hhelper eq_refl)].
Defined.

(** The same invitation for an id that no tenant has is refused by the
    store, and the helper answers null. *)
Example createInternalUser_unknown_tenant :
  createInternalUser
    (mkUserCreateInput (str "clerk-9") (str "nia@beta.test") (str "Nia") (str "Nash")
       VIEWER (str "org-nowhere"))
    (alone sampleDb)
  = (Ok None, mkWorld sampleDb [] [UserCreate (str "clerk-9")]).
Proof. vm_compute. reflexivity. Qed.

(** The second event for the same tenant provisions a read-only user. *)
Example second_provisioned_user_is_viewer :
  map user_role
    (users (db (snd (clerk_POST
                       (mkWebhookRequest (Some (str "whsec")) (Some (str "msg_2"))
                          (Some (str "1793577601")) (Some (str "v1,sig"))
                          (Some (mkWebhookEvent (str "user.created") (str "clerk-10")
                                   (Some [str "omar@beta.test"]) None None
                                   (Some (str "beta")))))
                       (snd (clerk_POST sampleRequest (alone sampleDb)))))))
  = [MANAGER; VIEWER; SUPER_ADMIN; VIEWER].
Proof. vm_compute. reflexivity. Qed.

(** ** validateName *)

(** The claim C9 as stated fails: ninety-nine spaces followed by "ab" trim
    to a two-letter name, yet the validator refuses the string because its
    untrimmed length exceeds one hundred. *)
Lemma validateName_measures_untrimmed_length :
  name_rule_spec paddedName
  /\ trim paddedName = str "ab"
  /\ validateName paddedName FirstNameField
     = Some (mkValidationError (str "firstName")
               (str "First name must be less than 100 characters")).
Proof.
  assert (E : trim paddedName = str "ab") by (vm_compute; reflexivity).
  split; [| split; [exact E | vm_compute; reflexivity]].
  unfold name_rule_spec. rewrite E. split.
  - simpl. lia.
  - repeat constructor.
Qed.

Lemma test_nameRegex name :
  test nameRegex name = true <->
  name <> [] /\ Forall (fun c => nameChar c = true) name.
Proof.
  unfold test, nameRegex. rewrite fullMatch_Lang. apply Lang_Plus_class.
Qed.

(** C9 (amended). A name is accepted exactly when its trimmed length is at
    least two, its length as given (untrimmed) is at most one hundred, and
    every code unit is an ASCII letter, white space, a hyphen or an
    apostrophe. *)
Theorem validateName_accepts_iff (name : jsstring) (fieldName : NameField) :
  validateName name fieldName = None <->
  2 <= List.length (trim name)
  /\ List.length name <= 100
  /\ Forall (fun c => nameChar c = true) name.
Proof.
  unfold validateName.
  destruct (Nat.eqb_spec (List.length (trim name)) 0) as [H0 | H0].
  - rewrite orb_true_r. split; [discriminate | intros [H _]; lia].
  - rewrite orb_false_r.
    destruct name as [| c name'].
    + exfalso. apply H0. reflexivity.
    + cbn [truthy negb].
      destruct (Nat.ltb_spec (List.length (trim (c :: name'))) 2) as [H2 | H2].
      * split; [discriminate | intros [H _]; lia].
      * destruct (Nat.ltb_spec 100 (List.length (c :: name'))) as [H100 | H100].
        -- split; [discriminate | intros (_ & H & _); lia].
        -- destruct (test nameRegex (c :: name')) eqn:Ht; cbn [negb].
           ++ apply test_nameRegex in Ht as [_ Hf]. split; [auto | reflexivity].
           ++ split; [discriminate |]. intros (_ & _ & Hf).
              assert (Ht' : test nameRegex (c :: name') = true).
              { apply test_nameRegex. split; [discriminate | exact Hf]. }
              congruence.
Qed.

Example validateName_examples :
  map (fun n => validateName n LastNameField)
    [str "O'Brien"; str "Mary-Jane"; str "  John  "; str "Jos" ++ [233%N];
     str "J"; str "John123"]
  = [None; None; None;
     Some (mkValidationError (str "lastName")
             (str "Last name can only contain letters, spaces, hyphens, and apostrophes"));
     Some (mkValidationError (str "lastName")
             (str "Last name must be at least 2 characters"));
     Some (mkValidationError (str "lastName")
             (str "Last name can only contain letters, spaces, hyphens, and apostrophes"))].
Proof. vm_compute. reflexivity. Qed.

(** ** validateAndFormatPhone *)

Lemma digit_not_separator c : isDigit c = true -> separatorChar c = false.
Proof.
  unfold isDigit, separatorChar, isWhiteSpace, between, char_eqb, ch. simpl N_of_ascii.
  rewrite andb_true_iff, !N.leb_le. intros [Hlo Hhi].
  repeat match goal with
         | |- context [N.eqb ?a ?b] => destruct (N.eqb_spec a b); [lia |]
         | |- context [N.leb ?a ?b] => destruct (N.leb_spec a b); try lia
         end; reflexivity.
Qed.

Lemma removeAll_digits s :
  Forall (fun c => isDigit c = true) s -> removeAll separatorChar s = s.
Proof.
  induction 1 as [| c s Hc _ IH]; [reflexivity |].
  unfold removeAll in *. simpl. rewrite (digit_not_separator c Hc). simpl.
  f_equal. exact IH.
Qed.

(** A canonical string has nothing for the formatter to strip. *)
Lemma removeAll_canonical f :
  isE164Format f = true -> removeAll separatorChar f = f.
Proof.
  intros H. apply e164Regex_language in H
    as (d & rest & -> & Hd & _ & _ & Hrest).
  unfold removeAll. cbn [filter]. rewrite (digit_not_separator d Hd).
  replace (separatorChar (ch "+")) with false by reflexivity. cbn [negb].
  do 2 f_equal. apply removeAll_digits. exact Hrest.
Qed.

Lemma validateAndFormatPhone_accepted {lib : PhoneLib} input cc f c :
  validateAndFormatPhone input cc = accepted f c ->
  array_includes getCountries cc = true
  /\ exists p,
      isValidPhoneNumber (removeAll separatorChar input) cc = Some true
      /\ parsePhoneNumber (removeAll separatorChar input) cc = Some p
      /\ f = format_E164 p.
Proof.
  unfold validateAndFormatPhone, accepted, invalidPhone.
  destruct (truthy (removeAll separatorChar input)); cbn [negb]; [| discriminate].
  destruct (array_includes getCountries cc); cbn [negb]; [| discriminate].
  destruct (isValidPhoneNumber _ cc) as [[|] |]; try discriminate.
  destruct (parsePhoneNumber _ cc) as [p |]; [| discriminate].
  intros H. injection H as Hf _. split; [reflexivity |].
  exists p. auto.
Qed.

(** C7. Whenever the formatter accepts an input under a country code, it
    accepts its own canonical output under the same country code and
    returns that very string again, and the output is in canonical form. *)
Theorem validateAndFormatPhone_round_trip
    {lib : PhoneLib} (phoneInput countryCode f : jsstring) (c : option jsstring) :
  rendersCanonical lib ->
  rereadsOwnRendering lib ->
  validateAndFormatPhone phoneInput countryCode = accepted f c ->
  isE164Format f = true
  /\ exists c', validateAndFormatPhone f countryCode = accepted f c'.
Proof.
  intros Hcanon Hreread Hacc.
  apply validateAndFormatPhone_accepted in Hacc as (Hcc & p & Hv & Hp & ->).
  pose proof (Hcanon _ _ _ Hv Hp) as He.
  destruct (Hreread _ _ _ Hv Hp) as (Hv' & p' & Hp' & Hsame).
  split; [exact He |].
  exists (Some (or_else (pn_country p') countryCode)).
  unfold validateAndFormatPhone.
  rewrite (removeAll_canonical _ He), (isE164Format_truthy _ He), Hcc, Hv', Hp', Hsame.
  reflexivity.
Qed.

Lemma nanpNationalPart_sound s n :
  nanpNationalPart s = Some n -> nanpNational n = true.
Proof.
  unfold nanpNationalPart.
  destruct (startsWith s (str "+1")).
  - destruct (nanpNational (skipn 2 s)) eqn:H; [| discriminate].
    intros E. injection E as <-. exact H.
  - destruct (nanpNational s) eqn:H; [| discriminate].
    intros E. injection E as <-. exact H.
Qed.

Lemma nanpLib_rereads n :
  nanpNational n = true -> nanpNationalPart (str "+1" ++ n) = Some n.
Proof.
  intros H. unfold nanpNationalPart.
  replace (startsWith (str "+1" ++ n) (str "+1")) with true by reflexivity.
  replace (skipn 2 (str "+1" ++ n)) with n by reflexivity.
  rewrite H. reflexivity.
Qed.

Lemma nanpLib_rendersCanonical : rendersCanonical nanpLib.
Proof.
  intros s cc p _ Hp. cbn [parsePhoneNumber nanpLib] in Hp.
  destruct (nanpNationalPart s) as [n |] eqn:Hn; [| discriminate].
  injection Hp as <-. cbn [format_E164].
  apply nanpNationalPart_sound in Hn.
  apply e164Regex_language.
  destruct n as [| d rest]; [discriminate |].
  cbn [nanpNational] in Hn.
  apply andb_true_iff in Hn as [Hn Hdigits].
  apply andb_true_iff in Hn as [Hd Hlen].
  apply Nat.eqb_eq in Hlen. rewrite forallb_forall in Hdigits.
  exists (ch "1"), (d :: rest). repeat split.
  - discriminate.
  - simpl. lia.
  - simpl. lia.
  - constructor.
    + unfold isDigit, between in *. apply andb_true_iff in Hd as [H1 H2].
      apply N.leb_le in H1, H2. apply andb_true_iff. rewrite !N.leb_le. lia.
    + apply Forall_forall. exact Hdigits.
Qed.

Lemma nanpLib_rereadsOwnRendering : rereadsOwnRendering nanpLib.
Proof.
  intros s cc p _ Hp. cbn [parsePhoneNumber isValidPhoneNumber nanpLib] in *.
  destruct (nanpNationalPart s) as [n |] eqn:Hn; [| discriminate].
  injection Hp as <-. cbn [format_E164].
  apply nanpNationalPart_sound in Hn.
  change (43%N :: 49%N :: n) with (str "+1" ++ n).
  rewrite (nanpLib_rereads n Hn). split; [reflexivity |].
  eexists. split; reflexivity.
Qed.

Lemma validateAndFormatPhone_round_trip_witness :
  isE164Format (str "+15551234567") = true
  /\ exists c',
      validateAndFormatPhone (lib := nanpLib) (str "+15551234567") (str "US")
      = accepted (str "+15551234567") c'.
Proof.
  apply (@validateAndFormatPhone_round_trip nanpLib (str "(555) 123-4567") (str "US")
           (str "+15551234567") (Some (str "US"))
           nanpLib_rendersCanonical nanpLib_rereadsOwnRendering).
  vm_compute. reflexivity.
Defined.

(** ** validateBirthDate *)

Section BirthDate.
Local Open Scope Z_scope.
Context {host : Host}.

Lemma MonthFromTime_range t : 0 <= MonthFromTime t <= 11.
Proof.
  unfold MonthFromTime.
  repeat match goal with
         | |- context [if ?b then _ else _] => destruct b
         end; lia.
Qed.

Lemma daysBeforeMonth_leap m b1 b2 :
  0 <= m <= 11 ->
  -1 <= daysBeforeMonth b1 m - daysBeforeMonth b2 m <= 1.
Proof.
  intros Hm.
  assert (Hcases : m = 0 \/ m = 1 \/ m = 2 \/ m = 3 \/ m = 4 \/ m = 5 \/ m = 6
                   \/ m = 7 \/ m = 8 \/ m = 9 \/ m = 10 \/ m = 11) by lia.
  destruct b1, b2;
    repeat (destruct Hcases as [-> | Hcases]; [vm_compute; split; discriminate |]);
    subst m; vm_compute; split; discriminate.
Qed.

Lemma Day_TimeWithinDay t : Day t * msPerDay + TimeWithinDay t = t.
Proof.
  unfold Day, TimeWithinDay, msPerDay.
  pose proof (Z.div_mod t 86400000 ltac:(lia)). lia.
Qed.

(** Moving a date [k] calendar years back moves its time value back by
    [365k] to [366k] days, up to the day lost or gained on 29 February and
    the two time zone adjustments. *)
Lemma yearsBefore_bounds t k :
  (forall u b, - msPerDay < LocalTZA u b < msPerDay) ->
  0 <= k ->
  exists v,
    yearsBefore t k = TimeClip v
    /\ t - (366 * k + 3) * msPerDay <= v <= t - (365 * k - 3) * msPerDay.
Proof.
  intros Htz Hk. unfold yearsBefore, setFullYear, getFullYear.
  eexists. split; [reflexivity |].
  unfold UTC, MakeDate, LocalTime.
  set (lt := t + LocalTZA t true).
  pose proof (Htz t true) as Hz1.
  match goal with
  | |- context [LocalTZA ?x false] => pose proof (Htz x false) as Hz2;
                                      set (z2 := LocalTZA x false) in *
  end.
  pose proof (MonthFromTime_range lt) as Hm.
  unfold MakeDay.
  replace (MonthFromTime lt / 12) with 0
    by (symmetry; apply Z.div_small; lia).
  replace (MonthFromTime lt mod 12) with (MonthFromTime lt)
    by (symmetry; apply Z.mod_small; lia).
  rewrite Z.add_0_r.
  unfold DateFromTime, DayWithinYear, InLeapYear.
  set (y := YearFromTime lt) in *.
  pose proof (daysBeforeMonth_leap (MonthFromTime lt) (isLeapYear (y - k))
                (isLeapYear y) Hm) as Hd.
  pose proof (DayFromYear_diff y k Hk) as Hy.
  pose proof (Day_TimeWithinDay lt) as Hlt.
  unfold msPerDay in *. subst lt. lia.
Qed.

Lemma TimeClip_in_range v : - maxTime <= v <= maxTime -> TimeClip v = Some v.
Proof.
  intros H. unfold TimeClip.
  destruct (Z.ltb_spec maxTime (Z.abs v)); [lia | reflexivity].
Qed.

End BirthDate.

Lemma validateBirthDate_denotes {host : Host} clk b d :
  denotes b d ->
  validateBirthDate clk b
  = if date_ge (Some d) (Some (read_today clk)) then Some pastError
    else if date_lt (Some d) (yearsBefore (read_minDate clk) 150) then Some tooOldError
    else None.
Proof.
  intros [-> | (s & -> & Hs & Hp)]; unfold validateBirthDate.
  - reflexivity.
  - rewrite Hs. cbn [negb]. unfold newDateFromString. rewrite Hp. reflexivity.
Qed.

(** C8 (amended). The validator compares instants, not calendar dates.
    With the clock read at [today] and again at [minDate]: every birth date
    at or after [today] is refused as not being in the past, the instant
    [today] itself included; a date before [today] is refused as too old
    when it lies before the instant 150 calendar years before [minDate],
    and is accepted otherwise, however late in the day before [today] it
    lies; a date obtained by setting the year of a recent clock reading 151
    years back is refused; and one set 10 years back is accepted. *)
Theorem validateBirthDate_past_and_150_years
    {host : Host} (clk : ClockReads) (t0 : Z) :
  (forall u b, (- msPerDay < LocalTZA u b < msPerDay)%Z) ->
  (0 <= t0)%Z ->
  (t0 <= read_today clk)%Z ->
  (read_today clk <= read_minDate clk)%Z ->
  (read_minDate clk <= t0 + 365 * msPerDay)%Z ->
  (read_minDate clk <= maxTime)%Z ->
  (forall b d, denotes b d -> (read_today clk <= d)%Z ->
               validateBirthDate clk b = Some pastError)
  /\ validateBirthDate clk (IsDate (Some (read_today clk))) = Some pastError
  /\ (forall b d m, denotes b d -> (d < read_today clk)%Z ->
                    yearsBefore (read_minDate clk) 150 = Some m -> (d < m)%Z ->
                    validateBirthDate clk b = Some tooOldError)
  /\ (exists d, yearsBefore t0 151 = Some d
                /\ validateBirthDate clk (IsDate (Some d)) = Some tooOldError)
  /\ (exists d, yearsBefore t0 10 = Some d
                /\ validateBirthDate clk (IsDate (Some d)) = None)
  /\ (exists m, yearsBefore (read_minDate clk) 150 = Some m
                /\ (m < read_today clk)%Z
                /\ forall b d, denotes b d -> (m <= d < read_today clk)%Z ->
                               validateBirthDate clk b = None).
Proof.
  intros Htz H0 H1 H2 H3 H4.
  assert (Hpast : forall b d, denotes b d -> (read_today clk <= d)%Z ->
                              validateBirthDate clk b = Some pastError).
  { intros b d Hb Hd. rewrite (validateBirthDate_denotes clk b d Hb).
    cbn [date_ge]. destruct (Z.leb_spec (read_today clk) d); [reflexivity | lia]. }
  assert (Hold : forall b d m, denotes b d -> (d < read_today clk)%Z ->
                   yearsBefore (read_minDate clk) 150 = Some m -> (d < m)%Z ->
                   validateBirthDate clk b = Some tooOldError).
  { intros b d m Hb Hd Hm Hlt. rewrite (validateBirthDate_denotes clk b d Hb).
    cbn [date_ge]. destruct (Z.leb_spec (read_today clk) d); [lia |].
    rewrite Hm. cbn [date_lt]. destruct (Z.ltb_spec d m); [reflexivity | lia]. }
  destruct (yearsBefore_bounds (read_minDate clk) 150 Htz ltac:(lia))
    as (m & Hm & Hmb).
  assert (Hmin : yearsBefore (read_minDate clk) 150 = Some m).
  { rewrite Hm. apply TimeClip_in_range. unfold msPerDay, maxTime in *. lia. }
  split; [exact Hpast | split; [| split; [exact Hold | split; [| split]]]].
  - apply (Hpast _ (read_today clk)); [left; reflexivity | lia].
  - destruct (yearsBefore_bounds t0 151 Htz ltac:(lia)) as (d & Hd & Hdb).
    exists d. split.
    + rewrite Hd. apply TimeClip_in_range. unfold msPerDay, maxTime in *. lia.
    + apply (Hold _ d m); [left; reflexivity | | exact Hmin |];
        unfold msPerDay in *; lia.
  - destruct (yearsBefore_bounds t0 10 Htz ltac:(lia)) as (d & Hd & Hdb).
    exists d. split.
    + rewrite Hd. apply TimeClip_in_range. unfold msPerDay, maxTime in *. lia.
    + rewrite (validateBirthDate_denotes clk _ d (or_introl eq_refl)).
      cbn [date_ge]. destruct (Z.leb_spec (read_today clk) d);
        [unfold msPerDay in *; lia |].
      rewrite Hmin. cbn [date_lt].
      destruct (Z.ltb_spec d m); [unfold msPerDay in *; lia | reflexivity].
  - exists m. split; [exact Hmin |]. split; [unfold msPerDay in *; lia |].
    intros b d Hb [Hlo Hhi]. rewrite (validateBirthDate_denotes clk b d Hb).
    cbn [date_ge]. destruct (Z.leb_spec (read_today clk) d); [lia |].
    rewrite Hmin. cbn [date_lt].
    destruct (Z.ltb_spec d m); [lia | reflexivity].
Qed.

Lemma validateBirthDate_past_and_150_years_witness :
  (forall b d, denotes (host := utcHost) b d -> (read_today sampleClock <= d)%Z ->
               validateBirthDate (host := utcHost) sampleClock b = Some pastError)
  /\ validateBirthDate (host := utcHost) sampleClock
       (IsDate (Some (read_today sampleClock))) = Some pastError
  /\ (forall b d m, denotes (host := utcHost) b d -> (d < read_today sampleClock)%Z ->
                    yearsBefore (host := utcHost) (read_minDate sampleClock) 150 = Some m ->
                    (d < m)%Z ->
                    validateBirthDate (host := utcHost) sampleClock b = Some tooOldError)
  /\ (exists d, yearsBefore (host := utcHost) 1793577600000 151 = Some d
                /\ validateBirthDate (host := utcHost) sampleClock (IsDate (Some d))
                   = Some tooOldError)
  /\ (exists d, yearsBefore (host := utcHost) 1793577600000 10 = Some d
                /\ validateBirthDate (host := utcHost) sampleClock (IsDate (Some d)) = None)
  /\ (exists m, yearsBefore (host := utcHost) (read_minDate sampleClock) 150 = Some m
                /\ (m < read_today sampleClock)%Z
                /\ forall b d, denotes (host := utcHost) b d ->
                               (m <= d < read_today sampleClock)%Z ->
                               validateBirthDate (host := utcHost) sampleClock b = None).
Proof.
  apply (@validateBirthDate_past_and_150_years utcHost sampleClock 1793577600000%Z).
  - intros u b. simpl. unfold msPerDay. lia.
  - lia.
  - simpl. lia.
  - simpl. lia.
  - simpl. unfold msPerDay. lia.
  - simpl. unfold maxTime. lia.
Defined.

(** The claim C8 as stated fails on "a date equal to today is rejected":
    with the clock read at noon, today's calendar date in the date-only
    form that the forms send is the instant of the preceding midnight, and
    a [Date] made one millisecond before the clock reading lies on the same
    calendar day; the validator accepts both. *)
Lemma validateBirthDate_accepts_today :
  let noon := mkClockReads 1793620800000 1793620800000 in
  Date_parse (Host := utcHost) (str "2026-11-02") = Some 1793577600000%Z
  /\ Day 1793577600000 = Day (read_today noon)
  /\ validateBirthDate (host := utcHost) noon (IsString (str "2026-11-02")) = None
  /\ Day (read_today noon - 1) = Day (read_today noon)
  /\ validateBirthDate (host := utcHost) noon (IsDate (Some (read_today noon - 1)%Z))
     = None.
Proof. vm_compute. repeat split; reflexivity. Qed.

Example yearsBefore_examples :
  yearsBefore (host := utcHost) 1793577600000 150 = Some (-2939932800000)%Z
  /\ yearsBefore (host := utcHost) 1793577600000 10 = Some 1478044800000%Z.
Proof. vm_compute. split; reflexivity. Qed.

(* ================================================================== *)
(** * Further properties of the code *)

(** ** Strings *)

Lemma eqb_eq (s t : jsstring) : JS.eqb s t = true <-> s = t.
Proof.
  revert t. induction s as [| a s IH]; intros [| b t]; simpl;
    try (split; [discriminate | discriminate]); [split; reflexivity |].
  unfold char_eqb. rewrite andb_true_iff, N.eqb_eq, IH.
  split; [intros [-> ->]; reflexivity | intros E; injection E; auto].
Qed.

Lemma eqb_refl (s : jsstring) : JS.eqb s s = true.
Proof. apply eqb_eq. reflexivity. Qed.

Lemma eqb_sym (s t : jsstring) : JS.eqb s t = JS.eqb t s.
Proof.
  destruct (JS.eqb s t) eqn:E.
  - apply eqb_eq in E. subst. symmetry. apply eqb_refl.
  - destruct (JS.eqb t s) eqn:E'; [| reflexivity].
    apply eqb_eq in E'. subst. rewrite eqb_refl in E. discriminate.
Qed.

(** ** normalizePhoneInput *)

Lemma digit_not_plus c : isDigit c = true -> isPlus c = false.
Proof.
  unfold isDigit, between, isPlus, char_eqb, ch. simpl N_of_ascii.
  rewrite andb_true_iff, !N.leb_le. intros [H1 H2].
  apply N.eqb_neq. lia.
Qed.

Lemma keep_digits_and_plus c :
  negb (notDigitOrPlus c) = isDigit c || isPlus c.
Proof. unfold notDigitOrPlus, isPlus. apply negb_involutive. Qed.

Lemma removeAll_nonDigits_plusFree s :
  existsb isPlus s = false ->
  removeAll notDigitOrPlus s = filter isDigit s.
Proof.
  unfold removeAll. induction s as [| c s IH]; simpl; [reflexivity |].
  intros H. apply orb_false_iff in H as [Hc Hs].
  rewrite keep_digits_and_plus, Hc, orb_false_r, (IH Hs). reflexivity.
Qed.

Lemma removeAll_plus_digits s :
  removeAll isPlus (removeAll notDigitOrPlus s) = filter isDigit s.
Proof.
  unfold removeAll. induction s as [| c s IH]; simpl; [reflexivity |].
  rewrite keep_digits_and_plus.
  destruct (isDigit c) eqn:Hd; simpl.
  - rewrite (digit_not_plus c Hd). simpl. rewrite IH. reflexivity.
  - destruct (isPlus c) eqn:Hp; simpl; [rewrite Hp; simpl |]; exact IH.
Qed.

Lemma existsb_plus_kept s :
  existsb isPlus (removeAll notDigitOrPlus s) = existsb isPlus s.
Proof.
  unfold removeAll. induction s as [| c s IH]; simpl; [reflexivity |].
  rewrite keep_digits_and_plus.
  destruct (isPlus c) eqn:Hp; simpl.
  - rewrite orb_true_r. simpl. rewrite Hp. reflexivity.
  - rewrite orb_false_r. destruct (isDigit c); simpl; [rewrite Hp |]; exact IH.
Qed.

Lemma normalizePhoneInput_closed_form s :
  normalizePhoneInput s
  = (if existsb isPlus s then str "+" else []) ++ filter isDigit s.
Proof.
  unfold normalizePhoneInput. rewrite existsb_plus_kept, removeAll_plus_digits.
  destruct (existsb isPlus s) eqn:H; [reflexivity |].
  apply removeAll_nonDigits_plusFree. exact H.
Qed.

Lemma filter_idem A (p : A -> bool) l : filter p (filter p l) = filter p l.
Proof.
  induction l as [| x l IH]; simpl; [reflexivity |].
  destruct (p x) eqn:H; simpl; [rewrite H, IH |]; auto.
Qed.

Lemma existsb_plus_digits s : existsb isPlus (filter isDigit s) = false.
Proof.
  induction s as [| c s IH]; simpl; [reflexivity |].
  destruct (isDigit c) eqn:Hd; simpl; [rewrite (digit_not_plus c Hd) |]; exact IH.
Qed.

(** X1. [normalizePhoneInput] keeps the digits of its input in order and
    nothing else, puts a single plus sign in front of them exactly when the
    input holds a plus sign anywhere, and gives the same string when applied
    to its own output. *)
Theorem normalizePhoneInput_shape_and_idempotent (s : jsstring) :
  (exists digits,
      Forall (fun c => isDigit c = true) digits
      /\ digits = filter isDigit s
      /\ normalizePhoneInput s
         = (if existsb isPlus s then str "+" else []) ++ digits)
  /\ normalizePhoneInput (normalizePhoneInput s) = normalizePhoneInput s.
Proof.
  split.
  - exists (filter isDigit s). split; [| split].
    + apply Forall_forall. intros c Hc. apply filter_In in Hc. tauto.
    + reflexivity.
    + apply normalizePhoneInput_closed_form.
  - rewrite !normalizePhoneInput_closed_form.
    destruct (existsb isPlus s) eqn:H.
    + change (str "+" ++ filter isDigit s) with (ch "+" :: filter isDigit s).
      cbn [existsb filter]. replace (isPlus (ch "+")) with true by reflexivity.
      replace (isDigit (ch "+")) with false by reflexivity.
      cbn [orb]. rewrite filter_idem. reflexivity.
    + cbn [app]. rewrite existsb_plus_digits, filter_idem. reflexivity.
Qed.

Example normalizePhoneInput_examples :
  map normalizePhoneInput
    [str "(555) 123-4567"; str "+1 555-123-4567"; str "++1 555-123-4567"; str "1+2"; []]
  = [str "5551234567"; str "+15551234567"; str "+15551234567"; str "+12"; []].
Proof. reflexivity. Qed.

(** ** arePhoneNumbersEqual and isValidPhone *)

(** X2. [arePhoneNumbersEqual] does not depend on the order of its two
    numbers; on two canonical strings it is plain string equality whatever
    the country code; and without a country code two strings of which one is
    not canonical are never equal, even when they are the same string. *)
Theorem arePhoneNumbersEqual_symmetric
    {lib : PhoneLib} (phone1 phone2 : jsstring) (countryCode : option jsstring) :
  arePhoneNumbersEqual phone1 phone2 countryCode
  = arePhoneNumbersEqual phone2 phone1 countryCode
  /\ (isE164Format phone1 = true -> isE164Format phone2 = true ->
      (arePhoneNumbersEqual phone1 phone2 countryCode = true <-> phone1 = phone2))
  /\ (isE164Format phone1 && isE164Format phone2 = false ->
      truthy_opt countryCode = false ->
      arePhoneNumbersEqual phone1 phone2 countryCode = false).
Proof.
  unfold arePhoneNumbersEqual. split; [| split].
  - rewrite (andb_comm (isE164Format phone2)), (eqb_sym phone2 phone1).
    destruct (isE164Format phone1 && isE164Format phone2); [reflexivity |].
    destruct (negb (truthy_opt countryCode)); [reflexivity |].
    destruct (parsePhoneNumber phone1 _) as [p1 |], (parsePhoneNumber phone2 _) as [p2 |];
      try reflexivity.
    apply eqb_sym.
  - intros -> ->. cbn [andb]. apply eqb_eq.
  - intros -> ->. reflexivity.
Qed.

(** X3. [validateAndFormatPhone] accepts an input exactly when the quick
    check [isValidPhone] accepts it and, in addition, something is left
    after the separators are stripped, the country code is one the library
    lists, and the library can parse the number; in particular the quick
    check never refuses what the formatter accepts. *)
Theorem formatter_accepts_iff_isValidPhone
    {lib : PhoneLib} (phoneInput countryCode : jsstring) :
  isValid (validateAndFormatPhone phoneInput countryCode) = true <->
  isValidPhone phoneInput countryCode = true
  /\ removeAll separatorChar phoneInput <> []
  /\ array_includes getCountries countryCode = true
  /\ parsePhoneNumber (removeAll separatorChar phoneInput) countryCode <> None.
Proof.
  unfold validateAndFormatPhone, isValidPhone, invalidPhone.
  destruct (removeAll separatorChar phoneInput) as [| c cleaned] eqn:Hc; cbn [truthy negb].
  - split; [discriminate | intros (_ & H & _); congruence].
  - destruct (array_includes getCountries countryCode); cbn [negb].
    + destruct (isValidPhoneNumber _ countryCode) as [[|] |]; cbn [isValid].
      * destruct (parsePhoneNumber _ countryCode) as [p |]; cbn [isValid].
        -- split; [intros _; repeat split; discriminate | reflexivity].
        -- split; [discriminate | intros (_ & _ & _ & H); congruence].
      * split; [discriminate | intros [H _]; discriminate].
      * split; [discriminate | intros [H _]; discriminate].
    + split; [discriminate | intros (_ & _ & H & _); discriminate].
Qed.

(** ** Roles and capabilities *)

(** X4. [roleIsAtLeast] is a total order on the three roles, with
    SUPER_ADMIN on top and VIEWER at the bottom. *)
Theorem roleIsAtLeast_total_order (a b c : UserRole) :
  roleIsAtLeast a a = true
  /\ (roleIsAtLeast a b = true -> roleIsAtLeast b c = true -> roleIsAtLeast a c = true)
  /\ (roleIsAtLeast a b = true -> roleIsAtLeast b a = true -> a = b)
  /\ (roleIsAtLeast a b = true \/ roleIsAtLeast b a = true)
  /\ roleIsAtLeast SUPER_ADMIN a = true
  /\ roleIsAtLeast a VIEWER = true.
Proof.
  destruct a, b, c; repeat split; try (intros; (reflexivity || discriminate));
    auto.
Qed.

(** X5. Capabilities grow with the rank: whatever a role may do, every
    role at least as high may do too.  Every role may view customers, and an
    absent user may do nothing. *)
Theorem permissions_grow_with_rank (a b : UserRole) (action : Action) :
  (roleIsAtLeast a b = true ->
   roleHasPermission b action = true -> roleHasPermission a action = true)
  /\ roleHasPermission a canViewCustomers = true
  /\ canPerformAction None action = false
  /\ hasMinimumRole None a = false.
Proof.
  destruct a, b, action; repeat split; try (intros; (reflexivity || discriminate)).
Qed.

Example getRoleActions_examples :
  map (fun r => List.length (getRoleActions r)) [SUPER_ADMIN; MANAGER; VIEWER] = [6; 4; 1]
  /\ getRoleActions VIEWER = [str "canViewCustomers"].
Proof. split; reflexivity. Qed.

(** X6. [isValidRole] accepts exactly the three role identifiers, spelled
    as they are stored; different roles have different identifiers. *)
Theorem isValidRole_iff_role_name (s : jsstring) :
  (isValidRole s = true <-> exists r, s = role_name r)
  /\ (forall r1 r2, role_name r1 = role_name r2 -> r1 = r2).
Proof.
  split.
  - unfold isValidRole, array_includes. cbn [existsb].
    rewrite !orb_true_iff, !eqb_eq. split.
    + intros [-> | [-> | [-> | H]]];
        [exists SUPER_ADMIN | exists MANAGER | exists VIEWER | discriminate];
        reflexivity.
    + intros [[| |] ->]; auto.
  - intros [| |] [| |] H; try reflexivity; discriminate.
Qed.

Example isValidRole_examples :
  map isValidRole [str "SUPER_ADMIN"; str "ADMIN"; str "super_admin"; []]
  = [true; false; false; false].
Proof. reflexivity. Qed.

(** X7. In every world, [requireMinimumRole] hands back a user only if
    that user's role is at least the required one, and [requireRole] only if
    it is exactly the required one; without a session both throw. *)
Theorem require_role_guards
    (session : Session) (role : UserRole) (w w' : World) (u : User) :
  (requireMinimumRole session role w = (Ok u, w') ->
   roleIsAtLeast (user_role u) role = true)
  /\ (requireRole session role w = (Ok u, w') -> user_role u = role)
  /\ fst (requireMinimumRole None role w)
     = Throw (OtherError (str "Authentication required"))
  /\ fst (requireRole None role w)
     = Throw (OtherError (str "Authentication required")).
Proof.
  split; [| split; [| split]].
  - unfold requireMinimumRole, requireAuth, bind.
    destruct (getCurrentUser session w) as [[[x |] | e] w1]; cbn; try discriminate.
    unfold roleIsAtLeast.
    destruct (Nat.leb (roleHierarchy role) (roleHierarchy (user_role x))) eqn:H; cbn.
    + intros E. injection E as <- _. exact H.
    + discriminate.
  - unfold requireRole, requireAuth, bind.
    destruct (getCurrentUser session w) as [[[x |] | e] w1]; cbn; try discriminate.
    destruct (role_eqb (user_role x) role) eqn:H; cbn.
    + intros E. injection E as <- _. destruct (user_role x), role; (reflexivity || discriminate).
    + discriminate.
  - reflexivity.
  - reflexivity.
Qed.

Example requireMinimumRole_examples :
  fst (requireMinimumRole (Some (str "clerk-1")) MANAGER (alone sampleDb)) = Ok manager
  /\ fst (requireMinimumRole (Some (str "clerk-2")) MANAGER (alone sampleDb))
     = Throw (OtherError (str "Minimum role MANAGER required")).
Proof. vm_compute. split; reflexivity. Qed.

(** ** Tenant slug extraction *)

Lemma firstSegment_no_slash s : existsb isSlash (firstSegment s) = false.
Proof.
  induction s as [| c s IH]; simpl; [reflexivity |].
  destruct (isSlash c) eqn:H; simpl; [reflexivity |]. rewrite H. exact IH.
Qed.

Lemma firstSegment_prefix s :
  exists rest, s = firstSegment s ++ rest
               /\ (rest = [] \/ exists r, rest = ch "/" :: r).
Proof.
  induction s as [| c s (rest & E & Hr)]; simpl.
  - exists []. auto.
  - destruct (isSlash c) eqn:H.
    + exists (c :: s). split; [reflexivity |]. right. exists s.
      unfold isSlash, char_eqb in H. apply N.eqb_eq in H. subst. reflexivity.
    + exists rest. split; [simpl; f_equal; exact E | exact Hr].
Qed.

Lemma firstSegment_app s rest :
  existsb isSlash s = false ->
  firstSegment (s ++ ch "/" :: rest) = s /\ firstSegment s = s.
Proof.
  induction s as [| c s IH]; cbn [app firstSegment existsb].
  - intros _. split; reflexivity.
  - intros H. apply orb_false_iff in H as [Hc Hs]. rewrite Hc.
    destruct (IH Hs) as [E1 E2]. rewrite E1, E2. split; reflexivity.
Qed.

(** X8. What [extractTenantSlugFromPath] returns is a non-empty first
    path segment without a slash that does not start with an underscore;
    and every such segment is recovered from the paths [/slug] and
    [/slug/rest]. *)
Theorem extractTenantSlugFromPath_round_trip (pathname slug rest : jsstring) :
  (extractTenantSlugFromPath pathname = Some slug ->
   slug <> [] /\ existsb isSlash slug = false
   /\ startsWith slug (str "_") = false
   /\ exists tail, dropLeadingSlash pathname = slug ++ tail
                   /\ (tail = [] \/ exists r, tail = ch "/" :: r))
  /\ (slug <> [] -> existsb isSlash slug = false ->
      startsWith slug (str "_") = false ->
      extractTenantSlugFromPath (str "/" ++ slug) = Some slug
      /\ extractTenantSlugFromPath (str "/" ++ slug ++ str "/" ++ rest) = Some slug).
Proof.
  split.
  - unfold extractTenantSlugFromPath.
    destruct (firstSegment_prefix (dropLeadingSlash pathname)) as (tail & E & Ht).
    pose proof (firstSegment_no_slash (dropLeadingSlash pathname)) as Hn.
    destruct (firstSegment (dropLeadingSlash pathname)) as [| c seg] eqn:Hseg;
      cbn [truthy negb orb]; [discriminate |].
    destruct (startsWith (c :: seg) (str "_")) eqn:Hu; [discriminate |].
    intros H. injection H as <-.
    repeat split; [discriminate | exact Hn | exact Hu |].
    exists tail. auto.
  - intros Hne Hslash Hu. unfold extractTenantSlugFromPath.
    change (dropLeadingSlash (str "/" ++ slug)) with slug.
    change (dropLeadingSlash (str "/" ++ slug ++ str "/" ++ rest))
      with (slug ++ ch "/" :: rest).
    destruct (firstSegment_app slug rest Hslash) as [E1 E2].
    rewrite E1, E2, Hu.
    destruct slug; [congruence | split; reflexivity].
Qed.

Example extractTenantSlugFromPath_edges :
  map extractTenantSlugFromPath
    [str "/"; []; str "//acme"; str "/_next/static"; str "acme/x"; str "/acme"]
  = [None; None; None; None; Some (str "acme"); Some (str "acme")].
Proof. reflexivity. Qed.

Lemma includes_after_prefix (p s : jsstring) (c : char) :
  includes s [c] = false -> existsb (char_eqb c) p = false ->
  includes (p ++ s) [c] = false.
Proof.
  intros Hs. induction p as [| x p IH]; simpl; [intros _; exact Hs |].
  intros H. apply orb_false_iff in H as [Hx Hp].
  rewrite Hx, (IH Hp). reflexivity.
Qed.

(** X9. The middleware's [extractTenantSlug] never disagrees with
    [extractTenantSlugFromPath]: when it finds a slug it is the same slug.
    It finds none on any path that holds a dot.  For the API routes, whose
    paths start with [/api/], the slug it finds is "api", not the tenant
    that follows. *)
Theorem middleware_extractTenantSlug (pathname slug rest : jsstring) :
  (extractTenantSlug pathname = Some slug ->
   extractTenantSlugFromPath pathname = Some slug)
  /\ (includes pathname (str ".") = true -> extractTenantSlug pathname = None)
  /\ (includes rest (str ".") = false -> startsWith rest (str "_") = false ->
      extractTenantSlug (str "/api/" ++ rest) = Some (str "api")).
Proof.
  split; [| split].
  - unfold extractTenantSlug, extractTenantSlugFromPath.
    destruct (startsWith pathname (str "/_next") || startsWith pathname (str "/api/_")
              || includes pathname (str ".")); [discriminate | auto].
  - intros H. unfold extractTenantSlug. rewrite H, !orb_true_r. reflexivity.
  - intros Hdot Hu. unfold extractTenantSlug.
    assert (E1 : startsWith (str "/api/" ++ rest) (str "/_next") = false) by reflexivity.
    assert (E2 : startsWith (str "/api/" ++ rest) (str "/api/_") = false).
    { change (startsWith (str "/api/" ++ rest) (str "/api/_"))
        with (startsWith rest (str "_")). exact Hu. }
    assert (E3 : includes (str "/api/" ++ rest) (str ".") = false).
    { apply includes_after_prefix; [exact Hdot | reflexivity]. }
    rewrite E1, E2, E3. reflexivity.
Qed.

Example middleware_extractTenantSlug_api_route :
  extractTenantSlug (str "/api/acme/customers/register") = Some (str "api")
  /\ extractTenantSlug (str "/acme/add-customer") = Some (str "acme")
  /\ extractTenantSlug (str "/acme/logo.png") = None.
Proof. repeat split; reflexivity. Qed.

(** ** The country registry *)

Lemma COUNTRIES_found_by_code :
  Forall (fun c => Countries.getCountryByCode (Countries.code c) = Some c)
         Countries.COUNTRIES.
Proof. unfold Countries.COUNTRIES. repeat (constructor; [vm_compute; reflexivity |]). constructor. Qed.

(** X10. In the country registry the lookup by ISO code is the inverse of
    the [code] field: every entry is found under its own code and whatever
    is found under a code is an entry that carries it.  [isValidCountryCode]
    holds exactly for the codes that are found, and [getCountryName] gives an
    unknown code back unchanged. *)
Theorem getCountryByCode_inverse (s : jsstring) (c : Countries.CountryInfo) :
  (In c Countries.COUNTRIES -> Countries.getCountryByCode (Countries.code c) = Some c)
  /\ (Countries.getCountryByCode s = Some c ->
      In c Countries.COUNTRIES /\ Countries.code c = s)
  /\ (Countries.isValidCountryCode s = true <->
      exists x, Countries.getCountryByCode s = Some x)
  /\ (Countries.getCountryByCode s = None -> Countries.getCountryName s = s).
Proof.
  split; [| split; [| split]].
  - intros H. pose proof COUNTRIES_found_by_code as F.
    rewrite Forall_forall in F. apply F. exact H.
  - unfold Countries.getCountryByCode. intros H. apply find_some in H as [Hin He].
    apply eqb_eq in He. auto.
  - unfold Countries.isValidCountryCode, Countries.getCountryByCode. split.
    + intros H. apply existsb_exists in H as (x & Hin & Hx).
      destruct (find _ Countries.COUNTRIES) as [y |] eqn:Hf; [eauto |].
      exfalso. apply (find_none _ _ Hf) in Hin. congruence.
    + intros [x H]. apply find_some in H as [Hin Hx].
      apply existsb_exists. eauto.
  - intros H. unfold Countries.getCountryName. rewrite H. reflexivity.
Qed.

Example COUNTRIES_codes_and_names_distinct :
  List.length Countries.COUNTRIES = 47
  /\ NoDup (map Countries.code Countries.COUNTRIES)
  /\ NoDup (map Countries.name Countries.COUNTRIES).
Proof.
  split; [reflexivity |].
  assert (D : forall l : list jsstring,
             (fix nodup (l : list jsstring) : bool :=
                match l with
                | [] => true
                | x :: r => negb (existsb (JS.eqb x) r) && nodup r
                end) l = true -> NoDup l).
  { induction l as [| x r IH]; intros H; [constructor |].
    apply andb_true_iff in H as [Hx Hr]. constructor; [| apply IH; exact Hr].
    intros Hin. apply negb_true_iff in Hx.
    assert (existsb (JS.eqb x) r = true).
    { apply existsb_exists. exists x. split; [exact Hin | apply eqb_refl]. }
    congruence. }
  split; apply D; vm_compute; reflexivity.
Qed.

(** Dial codes are shared; the lookup returns the first entry, with or
    without the plus sign. *)
Example getCountryByDialCode_shared :
  option_map Countries.code (Countries.getCountryByDialCode (str "+1")) = Some (str "US")
  /\ option_map Countries.code (Countries.getCountryByDialCode (str "1")) = Some (str "US")
  /\ Countries.getCountryByDialCode (str "+999") = None
  /\ option_map Countries.name Countries.getDefaultCountry = Some (str "United States").
Proof. vm_compute. repeat split; reflexivity. Qed.

(** ** Field validators *)

Lemma Lang_Chr a w : Lang (Chr a) w <-> w = [ch a].
Proof.
  unfold Chr. rewrite Lang_OneOf. split.
  - intros (c & -> & Hc). unfold char_eqb in Hc. apply N.eqb_eq in Hc. subst. reflexivity.
  - intros ->. exists (ch a). split; [reflexivity | apply N.eqb_refl].
Qed.

(** X11. [validateEmail] accepts the empty string, and otherwise exactly
    the strings [local@domain.tld] whose three parts are non-empty and hold
    neither white space nor an at sign (the domain and the last part may
    hold further dots). *)
Theorem validateEmail_accepts_iff (email : jsstring) :
  validateEmail email = None <->
  email = []
  \/ exists local domain tld,
       email = local ++ str "@" ++ domain ++ str "." ++ tld
       /\ local <> [] /\ domain <> [] /\ tld <> []
       /\ Forall (fun c => notSpaceOrAt c = true) (local ++ domain ++ tld).
Proof.
  unfold validateEmail. destruct email as [| c0 email']; cbn [truthy negb].
  - split; [auto | reflexivity].
  - set (email := c0 :: email').
    assert (Hlang : test emailRegex email = true <->
              exists l d t, email = l ++ str "@" ++ d ++ str "." ++ t
                            /\ l <> [] /\ d <> [] /\ t <> []
                            /\ Forall (fun c => notSpaceOrAt c = true) (l ++ d ++ t)).
    { unfold test, emailRegex. cbn [seq]. rewrite fullMatch_Lang, Lang_Cat. split.
      - intros (l & r1 & -> & Hl & H1).
        apply Lang_Cat in H1 as (a & r2 & -> & Ha & H2). apply Lang_Chr in Ha. subst a.
        apply Lang_Cat in H2 as (d & r3 & -> & Hd & H3).
        apply Lang_Cat in H3 as (p & t & -> & Hp & Ht). apply Lang_Chr in Hp. subst p.
        apply Lang_Plus_class in Hl as [Hl1 Hl2].
        apply Lang_Plus_class in Hd as [Hd1 Hd2].
        apply Lang_Plus_class in Ht as [Ht1 Ht2].
        exists l, d, t. repeat split; auto.
        rewrite !Forall_app. auto.
      - intros (l & d & t & E & Hl & Hd & Ht & Hf).
        rewrite !Forall_app in Hf. destruct Hf as (Fl & Fd & Ft).
        exists l, (str "@" ++ d ++ str "." ++ t). split; [exact E |].
        split; [apply Lang_Plus_class; auto |].
        apply Lang_Cat. exists [ch "@"], (d ++ str "." ++ t).
        split; [reflexivity |]. split; [apply Lang_Chr; reflexivity |].
        apply Lang_Cat. exists d, (str "." ++ t).
        split; [reflexivity |]. split; [apply Lang_Plus_class; auto |].
        apply Lang_Cat. exists [ch "."], t.
        split; [reflexivity |]. split; [apply Lang_Chr; reflexivity |].
        apply Lang_Plus_class; auto. }
    destruct (test emailRegex email) eqn:Ht; cbn [negb].
    + split; [intros _; right; apply Hlang; reflexivity | reflexivity].
    + split; [discriminate |]. intros [H | H]; [discriminate |].
      apply Hlang in H. discriminate.
Qed.

Example validateEmail_examples :
  map (fun e => match validateEmail e with None => true | Some _ => false end)
    [str "test@example.com"; str "user.name@domain.co.uk"; str "user+tag@example.com";
     str "invalid"; str "@example.com"; str "user@"; str "user @example.com";
     str "a@b@c.d"; []]
  = [true; true; true; false; false; false; false; false; true].
Proof. vm_compute. reflexivity. Qed.

(** X12. For the country code "US", [validatePostalCode] accepts the empty
    string, five digits, and five digits followed by a hyphen and four
    digits, and nothing else. *)
Theorem validatePostalCode_US_accepts_iff (postalCode : jsstring) :
  validatePostalCode postalCode (Some (str "US")) = None <->
  postalCode = []
  \/ exists zip, List.length zip = 5 /\ Forall (fun c => isDigit c = true) zip
       /\ (postalCode = zip
           \/ exists plus4, List.length plus4 = 4
                /\ Forall (fun c => isDigit c = true) plus4
                /\ postalCode = zip ++ str "-" ++ plus4).
Proof.
  assert (Hlang : forall p, test usZipRegex p = true <->
            exists zip, List.length zip = 5 /\ Forall (fun c => isDigit c = true) zip
              /\ (p = zip
                  \/ exists plus4, List.length plus4 = 4
                       /\ Forall (fun c => isDigit c = true) plus4
                       /\ p = zip ++ str "-" ++ plus4)).
  { intros p. unfold test, usZipRegex. cbn [seq]. rewrite fullMatch_Lang, Lang_Cat. split.
    - intros (zip & r & -> & Hz & Hr).
      apply Lang_Rep_class in Hz as [Hz1 Hz2]; [| lia].
      exists zip. split; [lia | split; [exact Hz2 |]].
      unfold Opt in Hr. apply Lang_Alt in Hr as [Hr | Hr].
      + apply Lang_Eps in Hr. subst. left. apply app_nil_r.
      + apply Lang_Cat in Hr as (h & q & -> & Hh & Hq). apply Lang_Chr in Hh. subst h.
        apply Lang_Rep_class in Hq as [Hq1 Hq2]; [| lia].
        right. exists q. split; [lia | split; [exact Hq2 | reflexivity]].
    - intros (zip & Hl & Hf & [-> | (q & Hql & Hqf & ->)]).
      + exists zip, []. split; [symmetry; apply app_nil_r |].
        split; [apply Lang_Rep_class; [lia | split; [lia | exact Hf]] |].
        apply Lang_Alt. left. apply Lang_Eps. reflexivity.
      + exists zip, (str "-" ++ q). split; [reflexivity |].
        split; [apply Lang_Rep_class; [lia | split; [lia | exact Hf]] |].
        apply Lang_Alt. right. apply Lang_Cat. exists [ch "-"], q.
        split; [reflexivity |]. split; [apply Lang_Chr; reflexivity |].
        apply Lang_Rep_class; [lia | split; [lia | exact Hqf]]. }
  unfold validatePostalCode. destruct postalCode as [| c0 p']; cbn [truthy negb].
  - split; [auto | reflexivity].
  - set (p := c0 :: p').
    replace (opt_eqb (Some (str "US")) (str "US")) with true by reflexivity.
    destruct (test usZipRegex p) eqn:Ht.
    + pose proof (proj1 (Hlang p) Ht) as (zip & Hl & Hf & Hshape).
      assert (Hlen : Nat.ltb (List.length p) 3 || Nat.ltb 10 (List.length p) = false).
      { destruct Hshape as [-> | (q & Hql & _ & ->)].
        - rewrite Hl. reflexivity.
        - rewrite !length_app, Hl, Hql. reflexivity. }
      rewrite Hlen. cbn [negb]. split; [intros _; right; eauto | reflexivity].
    + destruct (Nat.ltb (List.length p) 3 || Nat.ltb 10 (List.length p)); cbn [negb].
      * split; [discriminate |]. intros [H | H]; [discriminate |].
        apply Hlang in H. congruence.
      * split; [discriminate |]. intros [H | H]; [discriminate |].
        apply Hlang in H. congruence.
Qed.

Example validatePostalCode_examples :
  map (fun pc => match validatePostalCode (fst pc) (snd pc) with
                 | None => true | Some _ => false end)
    [(str "12345", Some (str "US")); (str "12345-6789", Some (str "US"));
     (str "1234", Some (str "US")); (str "123456", Some (str "US"));
     (str "K1A 0B1", Some (str "CA")); (str "K1A0B1", Some (str "CA"));
     (str "12345", Some (str "CA")); (str "SW1A 1AA", Some (str "GB"));
     (str "ec1a1bb", Some (str "GB")); (str "12345", Some (str "GB"));
     (str "ABC-123", Some (str "DE")); (str "123", Some (str "United States"));
     (str "12", None)]
  = [true; true; false; false; true; true; false; true; true; false; true; true; false].
Proof. vm_compute. reflexivity. Qed.

(** ** The aggregate validator *)

Lemma push_errorList errors e : push errors e = errors ++ errorList e.
Proof. destruct e; simpl; [reflexivity | symmetry; apply app_nil_r]. Qed.

Lemma pushOptional_errorList errors v validate :
  pushOptional errors v validate = errors ++ errorList (whenGiven v validate).
Proof.
  unfold pushOptional, whenGiven. destruct v as [s |]; [| symmetry; apply app_nil_r].
  destruct (truthy s); [apply push_errorList | symmetry; apply app_nil_r].
Qed.

Lemma pick_In A (mask : list bool) (l : list A) x : In x (pick mask l) -> In x l.
Proof.
  revert l. induction mask as [| b mask IH]; intros [| y l]; simpl; try contradiction.
  intros H. apply in_app_or in H as [H | H].
  - destruct b; simpl in H; [destruct H as [-> | []]; auto | contradiction].
  - right. apply IH. exact H.
Qed.

Lemma NoDup_pick A (mask : list bool) (l : list A) : NoDup l -> NoDup (pick mask l).
Proof.
  revert l. induction mask as [| b mask IH]; intros [| y l] H; simpl; try constructor.
  inversion H as [| ? ? Hy Hl]; subst.
  destruct b; simpl; [| apply IH; exact Hl].
  constructor; [| apply IH; exact Hl].
  intros Hin. apply Hy. apply (pick_In _ _ _ _ Hin).
Qed.

Lemma field_errorList (o : option ValidationError) (k : jsstring) :
  (forall e, o = Some e -> field e = k) ->
  map field (errorList o) = match o with Some _ => [k] | None => [] end.
Proof. destruct o as [e |]; simpl; intros H; [rewrite (H e eq_refl) |]; reflexivity. Qed.

Lemma validateName_field name f e :
  validateName name f = Some e -> field e = nameField_key f.
Proof.
  unfold validateName.
  repeat match goal with
         | |- context [if ?b then _ else _] => destruct b
         end; intros H; try discriminate; injection H as <-; reflexivity.
Qed.

Lemma validateBirthDate_field {host : Host} clk b e :
  validateBirthDate clk b = Some e -> field e = str "birthDate".
Proof.
  unfold validateBirthDate.
  repeat match goal with
         | |- context [if ?b then _ else _] => destruct b
         | |- context [match ?d with Some _ => _ | None => _ end] => destruct d
         end; intros H; try discriminate; injection H as <-; reflexivity.
Qed.

Lemma validateConsent_field c e :
  validateConsent c = Some e -> field e = str "consentGiven".
Proof. unfold validateConsent. destruct c; simpl; intros H; [discriminate |]. injection H as <-. reflexivity. Qed.

Lemma whenGiven_field v validate k :
  (forall s e, validate s = Some e -> field e = k) ->
  forall e, whenGiven v validate = Some e -> field e = k.
Proof.
  intros H e. unfold whenGiven. destruct v as [s |]; [| discriminate].
  destruct (truthy s); [apply H | discriminate].
Qed.

Lemma validateEmail_field s e : validateEmail s = Some e -> field e = str "email".
Proof.
  unfold validateEmail.
  repeat match goal with
         | |- context [if ?b then _ else _] => destruct b
         end; intros H; try discriminate; injection H as <-; reflexivity.
Qed.

Lemma validateAddressLine_field f s e :
  validateAddressLine s f = Some e -> field e = addressField_key f.
Proof.
  unfold validateAddressLine.
  repeat match goal with
         | |- context [if ?b then _ else _] => destruct b
         end; intros H; try discriminate; injection H as <-; reflexivity.
Qed.

Lemma validateCity_field s e : validateCity s = Some e -> field e = str "city".
Proof.
  unfold validateCity.
  repeat match goal with
         | |- context [if ?b then _ else _] => destruct b
         end; intros H; try discriminate; injection H as <-; reflexivity.
Qed.

Lemma validateState_field s e : validateState s = Some e -> field e = str "state".
Proof.
  unfold validateState.
  repeat match goal with
         | |- context [if ?b then _ else _] => destruct b
         end; intros H; try discriminate; injection H as <-; reflexivity.
Qed.

Lemma validatePostalCode_field c s e :
  validatePostalCode s c = Some e -> field e = str "postalCode".
Proof.
  unfold validatePostalCode.
  repeat match goal with
         | |- context [if ?b then _ else _] => destruct b
         end; intros H; try discriminate; injection H as <-; reflexivity.
Qed.

Lemma setKey_fresh acc k v :
  ~ In k (map fst acc) -> setKey acc k v = acc ++ [(k, v)].
Proof.
  induction acc as [| [k' v'] acc IH]; simpl; intros H; [reflexivity |].
  destruct (JS.eqb k' k) eqn:E.
  - apply eqb_eq in E. exfalso. apply H. left. exact E.
  - rewrite IH; [reflexivity |]. intros Hin. apply H. right. exact Hin.
Qed.

Lemma detailsOf_distinct errors :
  NoDup (map field errors) ->
  detailsOf errors = map (fun e => (field e, [message e])) errors.
Proof.
  unfold detailsOf.
  assert (G : forall acc,
             NoDup (map field acc ++ map field errors) ->
             fold_left (fun a err => setKey a (field err) [message err]) errors
               (map (fun e => (field e, [message e])) acc)
             = map (fun e => (field e, [message e])) (acc ++ errors)).
  { induction errors as [| e errors IH]; intros acc H; simpl.
    - rewrite app_nil_r. reflexivity.
    - rewrite setKey_fresh.
      + replace (map (fun e0 => (field e0, [message e0])) acc ++ [(field e, [message e])])
          with (map (fun e0 => (field e0, [message e0])) (acc ++ [e]))
          by (rewrite map_app; reflexivity).
        rewrite IH.
        * rewrite <- app_assoc. reflexivity.
        * rewrite map_app, <- app_assoc. exact H.
      + rewrite map_map. cbn [fst]. simpl in H.
        apply NoDup_remove_2 in H. intros Hin. apply H.
        apply in_or_app. left. exact Hin. }
  intros H. apply (G []). exact H.
Qed.

Lemma app_eq_nil_iff A (l1 l2 : list A) : l1 ++ l2 = [] <-> l1 = [] /\ l2 = [].
Proof.
  split; [apply app_eq_nil | intros [-> ->]; reflexivity].
Qed.

Lemma errorList_nil e : errorList e = [] <-> e = None.
Proof. destruct e; simpl; split; (reflexivity || discriminate). Qed.

(** X13. The aggregate validator reports at most one error per field, so
    the [details] object of the "Validation failed" response carries every
    violation found, one entry per field in the order of the checks; and it
    reports nothing exactly when the four required rules pass and each
    optional rule passes on the value given for it. *)
Theorem validateCustomerRegistration_reports_every_violation
    {host : Host} (clk : ClockReads) (data : CustomerRegistrationData) :
  let errors := validateCustomerRegistration clk data in
  NoDup (map field errors)
  /\ detailsOf errors = map (fun e => (field e, [message e])) errors
  /\ (forall k, In k (map field errors) -> In k registrationKeys)
  /\ (errors = [] <->
      validateName (firstName data) FirstNameField = None
      /\ validateName (lastName data) LastNameField = None
      /\ validateBirthDate clk (birthDate data) = None
      /\ consentGiven data = true
      /\ whenGiven (email data) validateEmail = None
      /\ whenGiven (addressLine1 data)
           (fun a => validateAddressLine a AddressLine1Field) = None
      /\ whenGiven (addressLine2 data)
           (fun a => validateAddressLine a AddressLine2Field) = None
      /\ whenGiven (city data) validateCity = None
      /\ whenGiven (state data) validateState = None
      /\ whenGiven (postalCode data)
           (fun p => validatePostalCode p (data_country data)) = None).
Proof.
  intros errors.
  assert (Hparts : errors
            = errorList (validateName (firstName data) FirstNameField)
              ++ errorList (validateName (lastName data) LastNameField)
              ++ errorList (validateBirthDate clk (birthDate data))
              ++ errorList (validateConsent (consentGiven data))
              ++ errorList (whenGiven (email data) validateEmail)
              ++ errorList (whenGiven (addressLine1 data)
                              (fun a => validateAddressLine a AddressLine1Field))
              ++ errorList (whenGiven (addressLine2 data)
                              (fun a => validateAddressLine a AddressLine2Field))
              ++ errorList (whenGiven (city data) validateCity)
              ++ errorList (whenGiven (state data) validateState)
              ++ errorList (whenGiven (postalCode data)
                              (fun p => validatePostalCode p (data_country data)))).
  { subst errors. unfold validateCustomerRegistration.
    rewrite !pushOptional_errorList, !push_errorList, <- !app_assoc. reflexivity. }
  assert (Hfields : exists mask, map field errors = pick mask registrationKeys).
  { rewrite Hparts, !map_app.
    rewrite (field_errorList _ _ (validateName_field (firstName data) FirstNameField)).
    rewrite (field_errorList _ _ (validateName_field (lastName data) LastNameField)).
    rewrite (field_errorList _ _ (validateBirthDate_field clk (birthDate data))).
    rewrite (field_errorList _ _ (validateConsent_field (consentGiven data))).
    rewrite (field_errorList _ _ (whenGiven_field (email data) _ _ validateEmail_field)).
    rewrite (field_errorList _ _
               (whenGiven_field (addressLine1 data) _ _
                  (validateAddressLine_field AddressLine1Field))).
    rewrite (field_errorList _ _
               (whenGiven_field (addressLine2 data) _ _
                  (validateAddressLine_field AddressLine2Field))).
    rewrite (field_errorList _ _ (whenGiven_field (city data) _ _ validateCity_field)).
    rewrite (field_errorList _ _ (whenGiven_field (state data) _ _ validateState_field)).
    rewrite (field_errorList _ _
               (whenGiven_field (postalCode data) _ _
                  (validatePostalCode_field (data_country data)))).
    eexists [_; _; _; _; _; _; _; _; _; _].
    unfold registrationKeys, pick. rewrite app_nil_r.
    repeat (f_equal; [match goal with
                      | |- match ?o with Some _ => _ | None => _ end = (if _ then _ else _) =>
                          instantiate (1 := match o with Some _ => true | None => false end);
                          destruct o; reflexivity
                      end |]).
    match goal with
    | |- match ?o with Some _ => _ | None => _ end = (if _ then _ else _) =>
        instantiate (1 := match o with Some _ => true | None => false end);
        destruct o; reflexivity
    end. }
  destruct Hfields as (mask & Hmask).
  assert (Hnodup : NoDup (map field errors)).
  { rewrite Hmask. apply NoDup_pick.
    unfold registrationKeys.
    repeat (constructor; [simpl; intuition discriminate |]). constructor. }
  split; [exact Hnodup | split; [apply detailsOf_distinct; exact Hnodup | split]].
  - intros k Hk. rewrite Hmask in Hk. apply (pick_In _ _ _ _ Hk).
  - rewrite Hparts. rewrite !app_eq_nil_iff, !errorList_nil.
    unfold validateConsent.
    destruct (consentGiven data); cbn [negb]; split; intros H;
      repeat match goal with H : _ /\ _ |- _ => destruct H end;
      repeat split; auto; discriminate.
Qed.

(** ** Availability while editing a customer *)

Lemma find_none_iff A (p : A -> bool) l :
  find p l = None <-> forall x, In x l -> p x = false.
Proof.
  induction l as [| a l IH]; simpl.
  - split; [intros _ x [] | reflexivity].
  - destruct (p a) eqn:E.
    + split; [discriminate |]. intros H. rewrite (H a) in E by auto. discriminate.
    + rewrite IH. split.
      * intros H x [<- | Hx]; auto.
      * intros H x Hx. apply H. auto.
Qed.

(** X14. A stored customer's own canonical phone is reported as available
    to an edit of that customer, which passes the customer's id as the
    record to exclude, provided the store satisfies the uniqueness of
    (tenant, phone); the same question without an id to exclude, or with the
    empty string as id, is answered as taken, naming the holder. *)
Theorem checkPhoneAvailability_excludes_own_record
    (w : World) (c : Customer) :
  nextFault w = None ->
  phoneUnique (afterInterference w) ->
  In c (customers (afterInterference w)) ->
  isE164Format (cust_phone c) = true ->
  truthy (cust_id c) = true ->
  fst (checkPhoneAvailability (cust_phone c) (cust_organizationId c)
         (Some (cust_id c)) w) = Ok phoneAvailable
  /\ (forall excl, truthy_opt excl = false ->
      exists holder,
        In holder (customers (afterInterference w))
        /\ cust_organizationId holder = cust_organizationId c
        /\ cust_phone holder = cust_phone c
        /\ fst (checkPhoneAvailability (cust_phone c) (cust_organizationId c) excl w)
           = Ok (mkPhoneAvailabilityResult false
                   (Some (str "Phone number already registered to "
                          ++ cust_firstName holder ++ str " "
                          ++ cust_lastName holder)))).
Proof.
  intros Hf Hu Hin He Hid. split.
  - rewrite (checkPhoneAvailability_run _ _ _ _ He Hf).
    cbn [truthy_opt]. rewrite Hid. cbn [fst].
    replace (find _ _) with (@None Customer); [reflexivity |].
    symmetry. apply find_none_iff. intros x Hx. unfold customerWhere.
    destruct (JS.eqb (cust_organizationId x) (cust_organizationId c)) eqn:E1;
      [| reflexivity].
    destruct (JS.eqb (cust_phone x) (cust_phone c)) eqn:E2; [| reflexivity].
    apply eqb_eq in E1, E2. rewrite (Hu x c Hx Hin E1 E2), eqb_refl. reflexivity.
  - intros excl Hex.
    rewrite (checkPhoneAvailability_run _ _ _ _ He Hf). rewrite Hex. cbn [fst].
    destruct (find _ _) as [h |] eqn:F.
    + destruct (find_some _ _ F) as [Hh Hw]. unfold customerWhere in Hw.
      rewrite !andb_true_iff in Hw. destruct Hw as [[E1 E2] _].
      apply eqb_eq in E1, E2. exists h. repeat split; assumption.
    + exfalso. rewrite find_none_iff in F. specialize (F c Hin).
      unfold customerWhere in F. rewrite !eqb_refl in F. discriminate.
Qed.

Lemma checkPhoneAvailability_excludes_own_record_witness :
  let c := stored sampleDb
             (customerInput (host := utcHost) (org_id acme) (john true)
                (str "+15551234567") None) in
  fst (checkPhoneAvailability (str "+15551234567") (org_id acme)
         (Some (cust_id c)) (alone (withCustomer sampleDb c))) = Ok phoneAvailable.
Proof.
  intros c.
  refine (proj1 (checkPhoneAvailability_excludes_own_record
                   (alone (withCustomer sampleDb c)) c eq_refl _ _ eq_refl eq_refl)).
  - intros c1 c2 [<- | []] [<- | []] _ _. reflexivity.
  - simpl. left. reflexivity.
Defined.

(** ** Looking a registered customer up by phone *)

Lemma find_app_none A (p : A -> bool) l l' :
  find p l = None -> find p (l ++ l') = find p l'.
Proof.
  induction l as [| a l IH]; simpl; [reflexivity |].
  destruct (p a); [discriminate | exact IH].
Qed.

Lemma find_app_miss A (p : A -> bool) l x :
  p x = false -> find p (l ++ [x]) = find p l.
Proof.
  intros Hx. induction l as [| a l IH]; simpl.
  - rewrite Hx. reflexivity.
  - destruct (p a); [reflexivity | exact IH].
Qed.

Lemma getCustomerByPhone_run phone org w :
  isE164Format phone = true ->
  nextFault w = None ->
  getCustomerByPhone phone org w
  = (Ok (find (customerWhere org phone None) (customers (afterInterference w))),
     advance w (CustomerFindFirst org phone None) (afterInterference w)).
Proof.
  intros He Hf. unfold getCustomerByPhone, try_catch, customer_findFirst.
  rewrite He. cbn [negb]. cbv beta iota.
  rewrite (await_run _ _ _ _ Hf). reflexivity.
Qed.

(** X15. After a public registration that ran alone and succeeded, looking
    the canonical phone up under the same tenant returns exactly the record
    that was stored, and looking it up under any other tenant returns what
    it returned before the registration. *)
Theorem getCustomerByPhone_finds_registered
    {host : Host} {lib : PhoneLib}
    (clk : ClockReads) (slug : jsstring) (body : CustomerRegistrationData)
    (o : OrganizationWithSettings) (f : jsstring) (c : option jsstring) (d : Db) :
  validateCustomerRegistration clk body = [] ->
  organizationBySlug d slug = Some o ->
  validateAndFormatPhone (phone body) (registrationCountry o body) = accepted f c ->
  isE164Format f = true ->
  phoneTaken d (org_id (organization o)) f = false ->
  let after := snd (register_POST clk slug body (alone d)) in
  let row := stored d (customerInput (org_id (organization o)) body f None) in
  fst (getCustomerByPhone f (org_id (organization o)) after) = Ok (Some row)
  /\ forall other,
       other <> org_id (organization o) ->
       fst (getCustomerByPhone f other after)
       = fst (getCustomerByPhone f other (alone d)).
Proof.
  intros Hval Horg Hfmt He Hfree after row. subst after. unfold alone.
  rewrite (register_POST_alone clk slug body o f c d [] Hval Horg Hfmt He Hfree).
  cbn [snd]. split.
  - rewrite getCustomerByPhone_run by (exact He || reflexivity).
    unfold afterInterference, withCustomer. cbn [fst schedule db customers].
    rewrite find_app_none by (apply existsb_false_find; exact Hfree).
    subst row. unfold stored, customerInput, customerWhere. simpl.
    rewrite !eqb_refl. reflexivity.
  - intros other Hother.
    rewrite !getCustomerByPhone_run by (exact He || reflexivity).
    unfold afterInterference, withCustomer. cbn [fst schedule db customers].
    rewrite find_app_miss; [reflexivity |].
    unfold stored, customerInput, customerWhere. simpl.
    destruct (JS.eqb (org_id (organization o)) other) eqn:E; [| reflexivity].
    apply eqb_eq in E. congruence.
Qed.

Lemma getCustomerByPhone_finds_registered_witness :
  let row := stored sampleDb
               (customerInput (host := utcHost) (org_id acme) (john true)
                  (str "+15551234567") None) in
  let after := snd (register_POST (host := utcHost) (lib := nanpLib) sampleClock
                      (str "acme") (john true) (alone sampleDb)) in
  fst (getCustomerByPhone (str "+15551234567") (org_id acme) after) = Ok (Some row)
  /\ forall other,
       other <> org_id acme ->
       fst (getCustomerByPhone (str "+15551234567") other after)
       = fst (getCustomerByPhone (str "+15551234567") other (alone sampleDb)).
Proof.
  apply (@getCustomerByPhone_finds_registered utcHost nanpLib sampleClock
           (str "acme") (john true) (mkOrganizationWithSettings acme None)
           (str "+15551234567") (Some (str "US")) sampleDb);
    vm_compute; reflexivity.
Defined.

(** A string that is not canonical is answered with null without a
    lookup, and a failing lookup is answered with null as well. *)
Example getCustomerByPhone_edges :
  (forall w, getCustomerByPhone (str "555-123-4567") (org_id acme) w = (Ok None, w))
  /\ fst (getCustomerByPhone (str "+15551234567") (org_id acme)
            (mkWorld sampleDb [mkStepEnv (fun d => d) (Some (OtherError (str "down")))] []))
     = Ok None.
Proof. split; [intros w |]; vm_compute; reflexivity. Qed.

(** ** The settings row of a tenant *)

Lemma settingsOf_organizationId d org s :
  settingsOf d org = Some s -> settings_organizationId s = org.
Proof.
  unfold settingsOf. intros F. destruct (find_some _ _ F) as [_ E].
  apply eqb_eq. exact E.
Qed.

(** X16. [getOrganizationSettings], run alone: when the tenant asked for
    has a settings row, the answer is that row and the store is left as it
    is; when it has none and a tenant with that id exists, a new row with
    the country "United States" is appended to the table and answered; in
    both cases asking again gives the same row and writes nothing.  When
    there is no row and no tenant has that id, the store refuses the insert
    and the answer is null, with the store left as it is. *)
Theorem getOrganizationSettings_lazy_default
    (organizationId : Id) (d : Db) (tr : list DbCall) :
  (forall s0,
      settingsOf d organizationId = Some s0 ->
      exists w1,
        getOrganizationSettings organizationId (mkWorld d [] tr) = (Ok (Some s0), w1)
        /\ settings_organizationId s0 = organizationId
        /\ db w1 = d
        /\ fst (getOrganizationSettings organizationId w1) = Ok (Some s0)
        /\ db (snd (getOrganizationSettings organizationId w1)) = d)
  /\ (settingsOf d organizationId = None ->
      tenantExists d organizationId = true ->
      exists s w1,
        getOrganizationSettings organizationId (mkWorld d [] tr) = (Ok (Some s), w1)
        /\ settings_organizationId s = organizationId
        /\ settings_country s = str "United States"
        /\ settingsTable (db w1) = settingsTable d ++ [s]
        /\ customers (db w1) = customers d /\ users (db w1) = users d
        /\ organizations (db w1) = organizations d
        /\ settingsOf (db w1) organizationId = Some s
        /\ fst (getOrganizationSettings organizationId w1) = Ok (Some s)
        /\ db (snd (getOrganizationSettings organizationId w1)) = db w1)
  /\ (settingsOf d organizationId = None ->
      tenantExists d organizationId = false ->
      exists w1,
        getOrganizationSettings organizationId (mkWorld d [] tr) = (Ok None, w1)
        /\ db w1 = d).
Proof.
  unfold getOrganizationSettings, try_catch, bind, settings_findUnique, settings_create.
  split; [| split].
  - intros s0 F.
    rewrite await_run by reflexivity.
    unfold afterInterference. cbn [schedule db fst snd tl trace].
    rewrite F. eexists. split; [reflexivity |]. cbn [db].
    split; [exact (settingsOf_organizationId _ _ _ F) |].
    split; [reflexivity |].
    rewrite await_run by reflexivity.
    unfold afterInterference. cbn [schedule db fst snd tl trace].
    rewrite F. split; reflexivity.
  - intros F Ht.
    rewrite await_run by reflexivity.
    unfold afterInterference. cbn [schedule db fst snd tl trace].
    rewrite F.
    rewrite await_run by reflexivity.
    unfold afterInterference. cbn [schedule db fst snd tl trace].
    rewrite F, Ht. cbn [negb fst snd].
    eexists. eexists. split; [reflexivity |]. cbn [db settings_organizationId
      settings_country settingsTable customers users organizations].
    assert (F' : settingsOf
                   (mkDb (organizations d)
                      (settingsTable d
                       ++ [mkOrganizationSettings (cuid (nextId d)) organizationId
                             (str "United States")])
                      (customers d) (users d) (N.succ (nextId d))) organizationId
                 = Some (mkOrganizationSettings (cuid (nextId d)) organizationId
                           (str "United States"))).
    { unfold settingsOf in *. cbn [settingsTable].
      rewrite find_app_none by exact F. simpl. rewrite eqb_refl. reflexivity. }
    repeat (split; [reflexivity |]).
    split; [exact F' |].
    rewrite await_run by reflexivity.
    unfold afterInterference. cbn [schedule db fst snd tl trace].
    rewrite F'. split; reflexivity.
  - intros F Ht.
    rewrite await_run by reflexivity.
    unfold afterInterference. cbn [schedule db fst snd tl trace].
    rewrite F.
    rewrite await_run by reflexivity.
    unfold afterInterference. cbn [schedule db fst snd tl trace].
    rewrite F, Ht. cbn [negb fst snd].
    eexists. split; reflexivity.
Qed.

(** The tenant [acme] of the sample store has no settings row and receives
    the default one; an id that no tenant has receives nothing. *)
Example getOrganizationSettings_examples :
  getOrganizationSettings (org_id acme) (alone sampleDb)
  = (Ok (Some (mkOrganizationSettings (str "c0") (org_id acme) (str "United States"))),
     mkWorld (mkDb [acme; beta]
                [mkOrganizationSettings (str "c0") (org_id acme) (str "United States")]
                [] [manager; viewer] 1)
       [] [SettingsFindUnique (org_id acme); SettingsCreate (org_id acme)])
  /\ getOrganizationSettings (str "org-nowhere") (alone sampleDb)
     = (Ok None,
        mkWorld sampleDb []
          [SettingsFindUnique (str "org-nowhere"); SettingsCreate (str "org-nowhere")]).
Proof. vm_compute. split; reflexivity. Qed.

(** When a concurrent request creates the row between the lookup and the
    insert, the insert fails on the unique tenant and the answer is null. *)
Example getOrganizationSettings_race :
  let rival d := mkDb (organizations d)
                   (settingsTable d
                    ++ [mkOrganizationSettings (str "s-1") (org_id acme) (str "Canada")])
                   (customers d) (users d) (nextId d) in
  fst (getOrganizationSettings (org_id acme)
         (mkWorld sampleDb [quiet; mkStepEnv rival None] [])) = Ok None.
Proof. vm_compute. reflexivity. Qed.

(** ** Creating and finding a tenant *)

Lemma awaitUnlogged_run A (op : Db -> Result A * Db) w :
  nextFault w = None ->
  awaitUnlogged op w
  = (fst (op (afterInterference w)),
     mkWorld (snd (op (afterInterference w))) (tl (schedule w)) (trace w)).
Proof.
  unfold nextFault, afterInterference, awaitUnlogged.
  destruct (schedule w) as [| env rest]; simpl.
  - intros _. destruct (op (db w)); reflexivity.
  - intros ->. destruct (op (interfere env (db w))); reflexivity.
Qed.

Lemma awaitUnlogged_fault A (op : Db -> Result A * Db) w e :
  nextFault w = Some e ->
  awaitUnlogged op w
  = (Throw e, mkWorld (afterInterference w) (tl (schedule w)) (trace w)).
Proof.
  unfold nextFault, afterInterference, awaitUnlogged.
  destruct (schedule w) as [| env rest]; simpl; [discriminate |].
  intros ->. reflexivity.
Qed.

Lemma find_existsb A (p : A -> bool) l :
  existsb p l = match find p l with Some _ => true | None => false end.
Proof.
  induction l as [| a l IH]; simpl; [reflexivity |].
  destruct (p a); [reflexivity | exact IH].
Qed.

Lemma filter_count_existsb A (p : A -> bool) l :
  Nat.ltb 0 (List.length (filter p l)) = existsb p l.
Proof.
  induction l as [| a l IH]; simpl; [reflexivity |].
  destruct (p a); [reflexivity | exact IH].
Qed.

Lemma organizationBySlug_found d slug :
  match organizationBySlug d slug with Some _ => true | None => false end
  = existsb (fun o => JS.eqb (org_slug o) slug) (organizations d).
Proof.
  unfold organizationBySlug. rewrite find_existsb.
  destruct (find _ _); reflexivity.
Qed.

(** X17. Run alone against the same store, [organizationExists] answers
    true exactly when [getOrganizationBySlug] finds a tenant, and that is
    exactly when [createOrganization] for that slug answers null and
    leaves the store as it is. *)
Theorem organizationExists_agrees_with_lookup
    (name slug : jsstring) (d : Db) (tr : list DbCall) :
  let w := mkWorld d [] tr in
  exists b,
    fst (organizationExists slug w) = Ok b
    /\ db (snd (organizationExists slug w)) = d
    /\ fst (getOrganizationBySlug slug w)
       = Ok (organizationBySlug d slug)
    /\ (b = true <-> organizationBySlug d slug <> None)
    /\ (b = true <->
        fst (createOrganization name slug w) = Ok None)
    /\ (b = true -> db (snd (createOrganization name slug w)) = d).
Proof.
  intros w. subst w.
  exists (existsb (fun o => JS.eqb (org_slug o) slug) (organizations d)).
  unfold organizationExists, createOrganization, try_catch, bind,
    organization_count, organization_create.
  rewrite awaitUnlogged_run by reflexivity.
  rewrite getOrganizationBySlug_run by reflexivity.
  rewrite await_run by reflexivity.
  unfold afterInterference, ret. cbn [schedule db fst snd tl trace].
  rewrite filter_count_existsb, <- organizationBySlug_found.
  destruct (organizationBySlug d slug); cbn [fst snd db].
  - repeat split; try reflexivity; try discriminate; intros _; reflexivity.
  - repeat split; try reflexivity; try discriminate.
    intros H. exfalso. apply H. reflexivity.
Qed.

(** X18. A tenant created alone under a free slug is found again under
    that slug, with the name given and a settings row of its own whose
    country is "United States", provided no settings row already refers to
    the id that the new tenant receives. *)
Theorem createOrganization_round_trip
    (name slug : jsstring) (d : Db) (tr : list DbCall) :
  organizationBySlug d slug = None ->
  settingsOf d (cuid (nextId d)) = None ->
  exists o s w1,
    createOrganization name slug (mkWorld d [] tr) = (Ok (Some o), w1)
    /\ org_name (organization o) = name
    /\ org_slug (organization o) = slug
    /\ settings o = Some s
    /\ settings_organizationId s = org_id (organization o)
    /\ settings_country s = str "United States"
    /\ fst (getOrganizationBySlug slug w1) = Ok (Some o)
    /\ fst (organizationExists slug w1) = Ok true
    /\ customers (db w1) = customers d /\ users (db w1) = users d.
Proof.
  intros Hfree Hfresh.
  assert (Hex : existsb (fun o => JS.eqb (org_slug o) slug) (organizations d) = false).
  { rewrite <- organizationBySlug_found, Hfree. reflexivity. }
  unfold createOrganization, try_catch, bind, organization_create.
  rewrite await_run by reflexivity.
  unfold afterInterference, ret. cbn [schedule db fst snd tl trace].
  rewrite Hex. cbn [fst snd].
  eexists. eexists. eexists. split; [reflexivity |].
  cbn [organization settings org_name org_slug org_id settings_organizationId
       settings_country db customers users].
  repeat split.
  - rewrite getOrganizationBySlug_run by reflexivity.
    unfold afterInterference. cbn [schedule db fst].
    unfold organizationBySlug. cbn [organizations].
    rewrite find_app_none by (apply existsb_false_find; exact Hex).
    cbn [find org_slug]. rewrite eqb_refl.
    unfold settingsOf in *. cbn [settingsTable org_id].
    rewrite find_app_none by exact Hfresh.
    cbn [find settings_organizationId]. rewrite eqb_refl. reflexivity.
  - unfold organizationExists, try_catch, bind, organization_count.
    rewrite awaitUnlogged_run by reflexivity.
    unfold afterInterference, ret. cbn [schedule db fst snd tl trace organizations].
    rewrite filter_count_existsb, existsb_app. cbn [existsb org_slug].
    rewrite eqb_refl, orb_true_r. reflexivity.
Qed.

Lemma createOrganization_round_trip_witness :
  exists o s w1,
    createOrganization (str "Gamma") (str "gamma") (mkWorld sampleDb [] [])
    = (Ok (Some o), w1)
    /\ org_name (organization o) = str "Gamma"
    /\ org_slug (organization o) = str "gamma"
    /\ settings o = Some s
    /\ settings_organizationId s = org_id (organization o)
    /\ settings_country s = str "United States"
    /\ fst (getOrganizationBySlug (str "gamma") w1) = Ok (Some o)
    /\ fst (organizationExists (str "gamma") w1) = Ok true
    /\ customers (db w1) = customers sampleDb /\ users (db w1) = users sampleDb.
Proof.
  apply (createOrganization_round_trip (str "Gamma") (str "gamma") sampleDb []);
    vm_compute; reflexivity.
Defined.

(** ** Changing the settings of a tenant *)

Lemma find_map_replace A (p : A -> bool) (y : A) l x :
  p y = true -> find p l = Some x ->
  find p (map (fun a => if p a then y else a) l) = Some y.
Proof.
  intros Hy. induction l as [| a l IH]; simpl; [discriminate |].
  destruct (p a) eqn:E.
  - intros _. rewrite Hy. reflexivity.
  - rewrite E. exact IH.
Qed.

Lemma settings_upsert_run organizationId c w :
  nextFault w = None ->
  exists s d',
    settings_upsert organizationId c w
    = (Ok s, mkWorld d' (tl (schedule w)) (trace w))
    /\ settings_country s = c
    /\ settings_organizationId s = organizationId
    /\ settingsOf d' organizationId = Some s
    /\ organizations d' = organizations (afterInterference w)
    /\ customers d' = customers (afterInterference w)
    /\ users d' = users (afterInterference w).
Proof.
  intros Hf. unfold settings_upsert. rewrite (awaitUnlogged_run _ _ _ Hf).
  destruct (settingsOf (afterInterference w) organizationId) as [s0 |] eqn:F;
    cbn [fst snd]; eexists; eexists; (split; [reflexivity |]);
    cbn [settings_country settings_organizationId organizations customers users];
    repeat split.
  - unfold settingsOf in *. cbn [settingsTable].
    apply (find_map_replace _
             (fun s => JS.eqb (settings_organizationId s) organizationId)
             (mkOrganizationSettings (settings_id s0) organizationId c)
             (settingsTable (afterInterference w)) s0); [| exact F].
    cbn [settings_organizationId]. apply eqb_refl.
  - unfold settingsOf in *. cbn [settingsTable].
    rewrite find_app_none by exact F. simpl. rewrite eqb_refl. reflexivity.
Qed.

Lemma find_name_In c x :
  find (fun y => JS.eqb (Countries.name y) c) Countries.COUNTRIES = Some x ->
  In c countryNames.
Proof.
  intros F. destruct (find_some _ _ F) as [Hin E]. apply eqb_eq in E. subst c.
  unfold countryNames. apply in_map. exact Hin.
Qed.

(** X19. PUT on the settings of a tenant, run alone, always answers, and
    writes only when it answers 200.  It answers 200 only to a signed-in
    super admin of the tenant behind the slug and only for a country that is
    the name of an entry of the country registry; the tenant's settings row
    then carries that name, is the row sent back, and is what GET on the
    settings answers to the same caller next. *)
Theorem settings_PUT_stores_registry_country
    (session : Session) (tenantId : jsstring) (country : CountryField)
    (d : Db) (tr : list DbCall) :
  exists resp w1,
    settings_PUT session tenantId country (mkWorld d [] tr) = (Ok resp, w1)
    /\ ((status resp <> 200 /\ db w1 = d)
        \/ (exists c o u s,
              country = CountryString c
              /\ In c countryNames
              /\ memberOf d session tenantId o u
              /\ user_role u = SUPER_ADMIN
              /\ resp = mkHttpResponse 200 (ApiSuccess (SettingsPayload s))
              /\ settings_country s = c
              /\ settings_organizationId s = org_id (organization o)
              /\ settingsOf (db w1) (org_id (organization o)) = Some s
              /\ fst (settings_GET session tenantId w1) = Ok resp)).
Proof.
  unfold settings_PUT. unfold try_catch at 1.
  destruct session as [cid |]; cbn [truthy_opt];
    [destruct (truthy cid) eqn:Hs |]; cbn [negb];
    try (eexists; eexists; split; [reflexivity |]; left; split;
         [discriminate | reflexivity]).
  unfold bind at 1. rewrite getOrganizationBySlug_run by reflexivity.
  unfold afterInterference, advance. cbn [schedule db tl trace].
  destruct (organizationBySlug d tenantId) as [o |] eqn:Horg;
    [| eexists; eexists; split; [reflexivity |]; left; split;
       [discriminate | reflexivity]].
  unfold bind at 1. cbn [or_else]. rewrite Hs.
  rewrite getUserByClerkId_run by reflexivity.
  unfold afterInterference, advance. cbn [schedule db tl trace].
  destruct (find (fun u => JS.eqb (user_clerkUserId u) cid) (users d))
    as [u |] eqn:Hu;
    [| eexists; eexists; split; [reflexivity |]; left; split;
       [discriminate | reflexivity]].
  destruct (JS.eqb (user_organizationId u) (org_id (organization o))) eqn:Hsame;
    cbn [negb];
    [| eexists; eexists; split; [reflexivity |]; left; split;
       [discriminate | reflexivity]].
  destruct (role_eqb (user_role u) SUPER_ADMIN) eqn:Hrole; cbn [negb];
    [| eexists; eexists; split; [reflexivity |]; left; split;
       [discriminate | reflexivity]].
  destruct country as [| c |];
    try (eexists; eexists; split; [reflexivity |]; left; split;
         [discriminate | reflexivity]).
  destruct (truthy c) eqn:Hc; cbn [negb];
    [| eexists; eexists; split; [reflexivity |]; left; split;
       [discriminate | reflexivity]].
  destruct (find (fun x => JS.eqb (Countries.name x) c) Countries.COUNTRIES)
    as [x |] eqn:Hfind;
    [| eexists; eexists; split; [reflexivity |]; left; split;
       [discriminate | reflexivity]].
  unfold bind at 1.
  match goal with
  | |- context [settings_upsert ?org c ?w] =>
      destruct (settings_upsert_run org c w eq_refl)
        as (s & d' & Hrun & Hsc & Hso & Hsof & Horgs & Hcust & Husers);
      rewrite Hrun
  end.
  cbn [schedule db tl trace afterInterference] in *.
  eexists. eexists. split; [reflexivity |]. right.
  exists c, o, u, s.
  assert (Hr : user_role u = SUPER_ADMIN) by (destruct (user_role u); easy).
  apply eqb_eq in Hsame.
  repeat split; try assumption.
  - exact (find_name_In _ _ Hfind).
  - exists cid. repeat split; assumption.
  - (* the GET that follows *)
    unfold settings_GET. unfold try_catch at 1. cbn [truthy_opt]. rewrite Hs.
    cbn [negb]. unfold bind at 1.
    rewrite getOrganizationBySlug_run by reflexivity.
    unfold afterInterference, advance. cbn [schedule db tl trace].
    assert (Horg' : organizationBySlug d' tenantId
                    = Some (mkOrganizationWithSettings (organization o) (Some s))).
    { unfold organizationBySlug in *. rewrite Horgs.
      destruct (find _ (organizations d)) as [o0 |]; [| discriminate].
      injection Horg as <-. cbn [organization settings] in *.
      rewrite Hsof. reflexivity. }
    rewrite Horg'. unfold bind at 1. cbn [or_else]. rewrite Hs.
    rewrite getUserByClerkId_run by reflexivity.
    unfold afterInterference, advance. cbn [schedule db tl trace].
    rewrite Husers, Hu. cbn [organization].
    rewrite Hsame, eqb_refl, Hrole. cbn [negb].
    unfold bind at 1. unfold settings_findUnique.
    rewrite await_run by reflexivity.
    unfold afterInterference. cbn [schedule db tl trace fst snd].
    rewrite Hsof. reflexivity.
Qed.

(** The registry holds names and codes; the handler accepts the names
    only. *)
Example settings_PUT_examples :
  let admin := mkUser (str "user-0") (str "clerk-0") (str "a@acme.test") (str "Ada")
                 (str "Ash") SUPER_ADMIN (org_id acme) in
  let d := mkDb [acme; beta] [] [] [admin; manager] 0 in
  fst (settings_PUT (Some (str "clerk-0")) (str "acme") (CountryString (str "Canada"))
         (alone d))
  = Ok (mkHttpResponse 200
          (ApiSuccess (SettingsPayload
                         (mkOrganizationSettings (str "c0") (org_id acme) (str "Canada")))))
  /\ fst (settings_PUT (Some (str "clerk-0")) (str "acme") (CountryString (str "CA"))
            (alone d))
     = Ok (fail 400 (str "Invalid country selected"))
  /\ fst (settings_PUT (Some (str "clerk-0")) (str "acme") CountryOther (alone d))
     = Ok (fail 400 (str "Country is required"))
  /\ fst (settings_PUT (Some (str "clerk-1")) (str "acme") (CountryString (str "Canada"))
            (alone d))
     = Ok (fail 403 (str "Only super admins can update settings"))
  /\ fst (settings_PUT (Some (str "clerk-0")) (str "beta") (CountryString (str "Canada"))
            (alone d))
     = Ok (fail 403 (str "Forbidden")).
Proof. vm_compute. repeat split; reflexivity. Qed.

(** ** The settings country on the public registration path *)

Lemma array_includes_length l (n : jsstring) :
  (forall c, In c l -> List.length c = 2) ->
  List.length n <> 2 ->
  array_includes l n = false.
Proof.
  intros Hl Hn. unfold array_includes.
  induction l as [| a l IH]; simpl; [reflexivity |].
  destruct (JS.eqb n a) eqn:E.
  - apply eqb_eq in E. subst a. exfalso. apply Hn. apply Hl. left. reflexivity.
  - apply IH. intros c Hc. apply Hl. right. exact Hc.
Qed.

Lemma countryNames_long n : In n countryNames -> 3 <= List.length n.
Proof.
  assert (H : forallb (fun x => Nat.leb 3 (List.length x)) countryNames = true)
    by (vm_compute; reflexivity).
  rewrite forallb_forall in H. intros Hin. apply Nat.leb_le. apply H. exact Hin.
Qed.

Lemma validateAndFormatPhone_country_name {lib : PhoneLib} input n :
  (forall c, In c getCountries -> List.length c = 2) ->
  In n countryNames ->
  validateAndFormatPhone input n = invalidPhone "Phone number is required"
  \/ validateAndFormatPhone input n = invalidPhone "Invalid country code".
Proof.
  intros Hlib Hn. unfold validateAndFormatPhone.
  destruct (truthy (removeAll separatorChar input)); cbn [negb]; [| left; reflexivity].
  rewrite array_includes_length; [right; reflexivity | exact Hlib |].
  pose proof (countryNames_long n Hn). lia.
Qed.

(** X20. When the phone library knows countries by two-letter codes and
    the tenant's settings row carries the name of a registry country, which
    is what tenant creation and the settings handler store, the public
    registration handler run alone answers every request with status 400
    and stores nothing: the name is handed to the formatter as the country
    code. *)
Theorem register_POST_with_settings_country_name
    {host : Host} {lib : PhoneLib}
    (clk : ClockReads) (slug : jsstring) (body : CustomerRegistrationData)
    (o : OrganizationWithSettings) (n : jsstring) (d : Db) (tr : list DbCall) :
  (forall c, In c getCountries -> List.length c = 2) ->
  organizationBySlug d slug = Some o ->
  settingsCountry o = Some n ->
  In n countryNames ->
  exists resp w1,
    register_POST clk slug body (mkWorld d [] tr) = (Ok resp, w1)
    /\ status resp = 400
    /\ db w1 = d
    /\ (validateCustomerRegistration clk body = [] ->
        resp = fail 400 (str "Phone number is required")
        \/ resp = fail 400 (str "Invalid country code")).
Proof.
  intros Hlib Horg Hset Hn.
  unfold register_POST. unfold try_catch at 1.
  destruct (validateCustomerRegistration clk body) as [| e errs] eqn:Hval.
  2: { cbn [List.length Nat.ltb Nat.leb]. eexists. eexists.
       split; [reflexivity |]. repeat split. discriminate. }
  cbn [List.length Nat.ltb Nat.leb]. unfold bind at 1.
  rewrite getOrganizationBySlug_run by reflexivity.
  unfold afterInterference, advance. cbn [schedule db tl trace].
  rewrite Horg. unfold bind at 1. unfold ret at 1. unfold bind at 1.
  assert (Hc : registrationCountry o body = n).
  { unfold registrationCountry. rewrite Hset. cbn [or_else].
    pose proof (countryNames_long n Hn). destruct n; [simpl in *; lia | reflexivity]. }
  rewrite Hc. unfold validatePhoneAndCheckAvailability.
  destruct (validateAndFormatPhone_country_name (phone body) n Hlib Hn) as [E | E];
    rewrite E; unfold invalidPhone; cbn [isValid formatted]; unfold ret at 1;
    unfold phoneRejected, phoneRejection;
    cbn [validation isValid negb orb error or_else truthy str];
    (eexists; eexists; split; [reflexivity |]);
    repeat split; auto.
Qed.

Lemma register_POST_with_settings_country_name_witness :
  let o := mkOrganizationWithSettings acme
             (Some (mkOrganizationSettings (str "s-1") (org_id acme) (str "Canada"))) in
  let d := mkDb [acme]
             [mkOrganizationSettings (str "s-1") (org_id acme) (str "Canada")] [] [] 0 in
  exists resp w1,
    register_POST (host := utcHost) (lib := nanpLib) sampleClock (str "acme")
      (john true) (mkWorld d [] []) = (Ok resp, w1)
    /\ status resp = 400
    /\ db w1 = d
    /\ (validateCustomerRegistration (host := utcHost) sampleClock (john true) = [] ->
        resp = fail 400 (str "Phone number is required")
        \/ resp = fail 400 (str "Invalid country code")).
Proof.
  intros o d.
  apply (@register_POST_with_settings_country_name utcHost nanpLib sampleClock
           (str "acme") (john true) o (str "Canada") d []).
  - intros c [<- | [<- | []]]; reflexivity.
  - reflexivity.
  - reflexivity.
  - vm_compute. tauto.
Defined.

(** ** Reading and deleting one customer *)

(** The checks every handler of an internal route starts with: the
    session, the tenant behind the slug, the caller's user record and its
    tenant.  The first goal left is the one in which all of them pass. *)
Ltac route_checks session d tenantId cid Hs o Horg u Hu Hsame :=
  unfold try_catch at 1;
  destruct session as [cid |]; cbn [truthy_opt];
  [destruct (truthy cid) eqn:Hs |]; cbn [negb];
  [ unfold bind at 1; rewrite getOrganizationBySlug_run by reflexivity;
    unfold afterInterference, advance; cbn [schedule db tl trace];
    destruct (organizationBySlug d tenantId) as [o |] eqn:Horg;
    [ unfold bind at 1; cbn [or_else]; rewrite Hs;
      rewrite getUserByClerkId_run by reflexivity;
      unfold afterInterference, advance; cbn [schedule db tl trace];
      destruct (find (fun u => JS.eqb (user_clerkUserId u) cid) (users d))
        as [u |] eqn:Hu;
      [ destruct (JS.eqb (user_organizationId u) (org_id (organization o)))
          eqn:Hsame; cbn [negb] | ]
    | ]
  | | ].

Lemma NoDup_map_In_inj A B (f : A -> B) l x y :
  NoDup (map f l) -> In x l -> In y l -> f x = f y -> x = y.
Proof.
  induction l as [| a l IH]; simpl; [contradiction |].
  intros Hnd Hx Hy E. inversion Hnd as [| ? ? Hnot Hnd']; subst.
  destruct Hx as [-> | Hx], Hy as [-> | Hy]; auto.
  - exfalso. apply Hnot. rewrite E. apply in_map. exact Hy.
  - exfalso. apply Hnot. rewrite <- E. apply in_map. exact Hx.
Qed.

Lemma customerById_In d id c :
  customerById d id = Some c -> In c (customers d) /\ cust_id c = id.
Proof.
  unfold customerById. intros F. destruct (find_some _ _ F) as [Hin E].
  apply eqb_eq in E. auto.
Qed.

(** X21. GET on one customer, run alone, always answers and never writes.
    It discloses a customer only with status 200, only to a signed-in
    internal user of the tenant behind the slug, and only the stored record
    with the id asked for, which belongs to that same tenant. *)
Theorem customer_GET_discloses_own_tenant_only
    (session : Session) (tenantId customerId : jsstring) (d : Db) (tr : list DbCall) :
  exists resp w1,
    customer_GET session tenantId customerId (mkWorld d [] tr) = (Ok resp, w1)
    /\ db w1 = d
    /\ forall c,
         reply_body resp = Success c ->
         reply_status resp = 200
         /\ customerById d customerId = Some (base c)
         /\ creator c = personById d (cust_createdBy (base c))
         /\ updater c = personById d (cust_updatedBy (base c))
         /\ exists o u,
              memberOf d session tenantId o u
              /\ cust_organizationId (base c) = org_id (organization o).
Proof.
  unfold customer_GET. route_checks session d tenantId cid Hs o Horg u Hu Hsame;
    try (eexists; eexists; split; [reflexivity |]; split; [reflexivity |];
         intros c Hc; discriminate).
  unfold bind at 1. unfold customer_findUniqueWithPeople.
  rewrite awaitUnlogged_run by reflexivity.
  unfold afterInterference. cbn [schedule db tl trace fst snd].
  destruct (customerById d customerId) as [c0 |] eqn:Hc0;
    [| eexists; eexists; split; [reflexivity |]; split; [reflexivity |];
       intros c Hc; discriminate].
  cbn [base].
  destruct (JS.eqb (cust_organizationId c0) (org_id (organization o))) eqn:Hown;
    cbn [negb];
    [| eexists; eexists; split; [reflexivity |]; split; [reflexivity |];
       intros c Hc; discriminate].
  eexists. eexists. split; [reflexivity |]. split; [reflexivity |].
  intros c Hc. cbn [reply_body reply_status] in *. injection Hc as <-.
  cbn [base creator updater]. apply eqb_eq in Hsame, Hown.
  repeat split; try reflexivity; try assumption.
  exists o, u. split; [| exact Hown].
  exists cid. repeat split; assumption.
Qed.

Ltac delete_refused :=
  eexists; eexists; split; [reflexivity |]; cbn [db reply_status];
  split; [auto |];
  split; [intros ? ? ?; contradiction |];
  split; [discriminate |];
  repeat split; auto.

(** X22. DELETE on one customer, run alone against a store whose customer
    ids are unique, always answers and never adds a record.  A record that
    is gone afterwards is the one with the id asked for, the answer was 200,
    and the caller was a signed-in internal user, not a viewer, of the
    tenant behind the slug, which is the tenant the record belonged to.
    After a 200 no record with that id is left; after any other answer the
    store is as before. *)
Theorem customer_DELETE_removes_own_tenant_only
    (session : Session) (tenantId customerId : jsstring) (d : Db) (tr : list DbCall) :
  idsUnique d ->
  exists resp w1,
    customer_DELETE session tenantId customerId (mkWorld d [] tr) = (Ok resp, w1)
    /\ (forall x, In x (customers (db w1)) -> In x (customers d))
    /\ (forall x,
          In x (customers d) -> ~ In x (customers (db w1)) ->
          reply_status resp = 200
          /\ cust_id x = customerId
          /\ exists o u,
               memberOf d session tenantId o u
               /\ user_role u <> VIEWER
               /\ cust_organizationId x = org_id (organization o))
    /\ (reply_status resp = 200 -> customerById (db w1) customerId = None)
    /\ (reply_status resp <> 200 -> db w1 = d)
    /\ organizations (db w1) = organizations d
    /\ users (db w1) = users d
    /\ settingsTable (db w1) = settingsTable d.
Proof.
  intros Hids.
  unfold customer_DELETE. route_checks session d tenantId cid Hs o Horg u Hu Hsame;
    try delete_refused.
  destruct (role_eqb (user_role u) VIEWER) eqn:Hrole;
    try delete_refused.
  unfold bind at 1. unfold customer_findUnique.
  rewrite awaitUnlogged_run by reflexivity.
  unfold afterInterference. cbn [schedule db tl trace fst snd].
  destruct (customerById d customerId) as [c0 |] eqn:Hc0;
    try delete_refused.
  destruct (JS.eqb (cust_organizationId c0) (org_id (organization o))) eqn:Hown;
    cbn [negb];
    try delete_refused.
  unfold bind at 1. unfold customer_delete.
  rewrite awaitUnlogged_run by reflexivity.
  unfold afterInterference. cbn [schedule db tl trace fst snd].
  rewrite Hc0. cbn [fst snd].
  eexists. eexists. split; [reflexivity |].
  cbn [db reply_status customers organizations users settingsTable].
  apply eqb_eq in Hsame, Hown.
  destruct (customerById_In _ _ _ Hc0) as [Hin0 Hid0].
  split; [intros x Hx; apply filter_In in Hx; tauto |].
  split.
  { intros x Hx Hgone.
    assert (Hx_id : cust_id x = customerId).
    { destruct (JS.eqb (cust_id x) customerId) eqn:E.
      - apply eqb_eq. exact E.
      - exfalso. apply Hgone. apply filter_In. rewrite E. auto. }
    assert (x = c0).
    { apply (NoDup_map_In_inj _ _ cust_id (customers d)); auto. congruence. }
    subst x. split; [reflexivity |]. split; [exact Hx_id |].
    exists o, u. split; [exists cid; repeat split; assumption |].
    split; [| exact Hown].
    intros Hv. rewrite Hv in Hrole. discriminate. }
  split.
  { intros _. unfold customerById. cbn [customers].
    apply find_none_iff. intros x Hx. apply filter_In in Hx.
    destruct Hx as [_ Hx]. destruct (JS.eqb (cust_id x) customerId);
      [discriminate | reflexivity]. }
  split; [intros Hn; exfalso; apply Hn; reflexivity |].
  repeat split; reflexivity.
Qed.

Lemma customer_DELETE_removes_own_tenant_only_witness :
  exists resp w1,
    customer_DELETE (Some (str "clerk-1")) (str "acme") (cust_id johnDoe)
      (mkWorld johnsDb [] []) = (Ok resp, w1)
    /\ (forall x, In x (customers (db w1)) -> In x (customers johnsDb))
    /\ (forall x,
          In x (customers johnsDb) -> ~ In x (customers (db w1)) ->
          reply_status resp = 200
          /\ cust_id x = cust_id johnDoe
          /\ exists o u,
               memberOf johnsDb (Some (str "clerk-1")) (str "acme") o u
               /\ user_role u <> VIEWER
               /\ cust_organizationId x = org_id (organization o))
    /\ (reply_status resp = 200 -> customerById (db w1) (cust_id johnDoe) = None)
    /\ (reply_status resp <> 200 -> db w1 = johnsDb)
    /\ organizations (db w1) = organizations johnsDb
    /\ users (db w1) = users johnsDb
    /\ settingsTable (db w1) = settingsTable johnsDb.
Proof.
  apply (customer_DELETE_removes_own_tenant_only (Some (str "clerk-1")) (str "acme")
           (cust_id johnDoe) johnsDb []).
  vm_compute. constructor; [intros [] | constructor].
Defined.

(** A manager of the tenant deletes the customer; a viewer of the tenant
    and a super admin of another tenant are refused, whichever slug the
    latter uses; an unknown id is not found. *)
Example customer_DELETE_examples :
  (let r := customer_DELETE (Some (str "clerk-1")) (str "acme") (cust_id johnDoe)
              (alone johnsDbWithOutsider) in
   fst r = Ok (mkReply 200 (Success (str "Customer deleted successfully")))
   /\ customers (db (snd r)) = [])
  /\ fst (customer_DELETE (Some (str "clerk-2")) (str "acme") (cust_id johnDoe)
            (alone johnsDbWithOutsider))
     = Ok (refuse 403 "Insufficient permissions to delete customers")
  /\ fst (customer_DELETE (Some (str "clerk-3")) (str "acme") (cust_id johnDoe)
            (alone johnsDbWithOutsider))
     = Ok (refuse 403 "Forbidden")
  /\ fst (customer_DELETE (Some (str "clerk-3")) (str "beta") (cust_id johnDoe)
            (alone johnsDbWithOutsider))
     = Ok (refuse 403 "Forbidden")
  /\ fst (customer_DELETE (Some (str "clerk-1")) (str "acme") (str "nobody")
            (alone johnsDbWithOutsider))
     = Ok (refuse 404 "Customer not found")
  /\ fst (customer_GET (Some (str "clerk-2")) (str "acme") (cust_id johnDoe)
            (alone johnsDbWithOutsider))
     = Ok (mkReply 200 (Success (mkCustomerWithPeople johnDoe None None)))
  /\ fst (customer_GET (Some (str "clerk-3")) (str "beta") (cust_id johnDoe)
            (alone johnsDbWithOutsider))
     = Ok (refuse 403 "Forbidden").
Proof. vm_compute. repeat split; reflexivity. Qed.

(** ** Editing one customer *)

(** The combined phone helper, run alone: it never writes, and a result
    that the handlers let pass carries no formatted phone, an empty one, or
    a canonical one that no other record of the tenant holds. *)
Lemma validatePhoneAndCheckAvailability_alone {lib : PhoneLib}
    input cc org excl d tr :
  exists pv tr',
    validatePhoneAndCheckAvailability input cc org excl (mkWorld d [] tr)
    = (Ok pv, mkWorld d [] tr')
    /\ (phoneRejected pv = false ->
        match formatted (validation pv) with
        | Some f =>
            f = []
            \/ (isE164Format f = true
                /\ find (customerWhere org f (if truthy_opt excl then excl else None))
                        (customers d) = None)
        | None => True
        end).
Proof.
  unfold validatePhoneAndCheckAvailability.
  destruct (isValid (validateAndFormatPhone input cc)) eqn:Hv.
  2: { eexists. eexists. split; [reflexivity |].
       unfold phoneRejected. cbn [validation]. rewrite Hv. discriminate. }
  destruct (formatted (validateAndFormatPhone input cc)) as [f |] eqn:Hf.
  2: { eexists. eexists. split; [reflexivity |]. cbn [validation]. rewrite Hf. auto. }
  destruct (truthy f) eqn:Ht.
  2: { eexists. eexists. split; [reflexivity |]. cbn [validation]. rewrite Hf.
       intros _. left. destruct f; [reflexivity | discriminate]. }
  unfold bind.
  destruct (isE164Format f) eqn:He.
  - rewrite checkPhoneAvailability_run by (exact He || reflexivity).
    unfold afterInterference. cbn [schedule db tl trace].
    destruct (find _ (customers d)) eqn:F;
      (eexists; eexists; split; [reflexivity |]);
      unfold phoneRejected; cbn [validation check_available available isValid formatted negb orb].
    + discriminate.
    + intros _. right. split; [exact He | exact F].
  - rewrite (checkPhoneAvailability_noncanonical _ _ _ _ He).
    eexists. eexists. split; [reflexivity |].
    unfold phoneRejected, formatError.
    cbn [validation check_available available isValid formatted negb orb].
    discriminate.
Qed.

Ltac put_refused :=
  eexists; eexists; split; [reflexivity |]; cbn [db reply_status reply_body];
  split; [auto |]; intros ? ?; discriminate.

(** X23. PUT on one customer, run alone, always answers and writes only
    when it answers with the updated record.  It does so only for a payload
    that passes the registration validator, only to a signed-in internal
    user, not a viewer, of the tenant behind the slug, and only for a stored
    record of that same tenant.  The updated record keeps the id, the tenant
    and the creator of the stored one and names the caller as its updater;
    its phone is the stored phone, or a canonical string, or the empty
    string; and no record with another id holds that tenant and phone. *)
Theorem customer_PUT_edits_own_tenant_only
    {host : Host} {lib : PhoneLib}
    (clk : ClockReads) (session : Session) (tenantId customerId : jsstring)
    (body : CustomerRegistrationData) (d : Db) (tr : list DbCall) :
  exists resp w1,
    customer_PUT clk session tenantId customerId body (mkWorld d [] tr) = (Ok resp, w1)
    /\ (reply_status resp <> 200 -> db w1 = d)
    /\ forall c',
         reply_body resp = Success c' ->
         reply_status resp = 200
         /\ validateCustomerRegistration clk body = []
         /\ exists o u ec,
              memberOf d session tenantId o u
              /\ user_role u <> VIEWER
              /\ customerById d customerId = Some ec
              /\ cust_organizationId ec = org_id (organization o)
              /\ cust_id c' = cust_id ec
              /\ cust_organizationId c' = cust_organizationId ec
              /\ cust_createdBy c' = cust_createdBy ec
              /\ cust_updatedBy c' = Some (user_id u)
              /\ (cust_phone c' = cust_phone ec
                  \/ isE164Format (cust_phone c') = true
                  \/ cust_phone c' = [])
              /\ customers (db w1) = replaceCustomer customerId c' (customers d)
              /\ (forall x, In x (customers d) ->
                            cust_organizationId x = cust_organizationId c' ->
                            cust_phone x = cust_phone c' ->
                            cust_id x = customerId).
Proof.
  unfold customer_PUT. route_checks session d tenantId cid Hs o Horg u Hu Hsame;
    try put_refused.
  destruct (role_eqb (user_role u) VIEWER) eqn:Hrole; try put_refused.
  unfold bind at 1. unfold customer_findUnique.
  rewrite awaitUnlogged_run by reflexivity.
  unfold afterInterference. cbn [schedule db tl trace fst snd].
  destruct (customerById d customerId) as [ec |] eqn:Hec; try put_refused.
  destruct (JS.eqb (cust_organizationId ec) (org_id (organization o))) eqn:Hown;
    cbn [negb]; try put_refused.
  destruct (validateCustomerRegistration clk body) as [| e errs] eqn:Hval;
    cbn [List.length Nat.ltb Nat.leb]; try put_refused.
  apply eqb_eq in Hsame, Hown.
  assert (Hmember : memberOf d (Some cid) tenantId o u)
    by (exists cid; repeat split; assumption).
  assert (Hnv : user_role u <> VIEWER)
    by (intros Hv; rewrite Hv in Hrole; discriminate).
  (* the update itself, for any phone that the phone step lets through *)
  assert (Hupdate : forall formattedPhone tr',
    (match formattedPhone with
     | Some f => f = cust_phone ec \/ isE164Format f = true \/ f = []
     | None => True
     end) ->
    exists resp w1,
      (let (r, w') :=
         (updatedCustomer <-
            customer_update customerId (customerUpdate body formattedPhone (user_id u)) ;;
          ret (mkReply 200 (Success updatedCustomer))) (mkWorld d [] tr') in
       match r with
       | Ok a => (Ok a, w')
       | Throw _ => ret (@refuse Customer 500 "Internal server error") w'
       end) = (Ok resp, w1)
      /\ (reply_status resp <> 200 -> db w1 = d)
      /\ forall c',
           reply_body resp = Success c' ->
           reply_status resp = 200
           /\ @nil ValidationError = []
           /\ exists o0 u0 ec0,
                memberOf d (Some cid) tenantId o0 u0
                /\ user_role u0 <> VIEWER
                /\ Some ec = Some ec0
                /\ cust_organizationId ec0 = org_id (organization o0)
                /\ cust_id c' = cust_id ec0
                /\ cust_organizationId c' = cust_organizationId ec0
                /\ cust_createdBy c' = cust_createdBy ec0
                /\ cust_updatedBy c' = Some (user_id u0)
                /\ (cust_phone c' = cust_phone ec0
                    \/ isE164Format (cust_phone c') = true
                    \/ cust_phone c' = [])
                /\ customers (db w1) = replaceCustomer customerId c' (customers d)
                /\ (forall x, In x (customers d) ->
                              cust_organizationId x = cust_organizationId c' ->
                              cust_phone x = cust_phone c' ->
                              cust_id x = customerId)).
  { intros formattedPhone tr' Hphone.
    unfold bind, customer_update.
    rewrite awaitUnlogged_run by reflexivity.
    unfold afterInterference. cbn [schedule db tl trace fst snd].
    rewrite Hec.
    destruct (existsb _ (customers d)) eqn:Hclash; cbn [fst snd].
    - eexists. eexists. split; [reflexivity |]. cbn [db reply_status reply_body].
      split; [auto |]. intros ? ?; discriminate.
    - eexists. eexists. split; [reflexivity |]. cbn [db reply_status reply_body].
      split; [intros Hn; exfalso; apply Hn; reflexivity |].
      intros c' Hc'. injection Hc' as <-.
      split; [reflexivity |]. split; [reflexivity |].
      exists o, u, ec.
      cbn [applyUpdate cust_id cust_organizationId cust_createdBy cust_updatedBy
           cust_phone customerUpdate up_phone up_updatedBy customers].
      repeat split; try assumption; try reflexivity.
      + destruct formattedPhone as [f |]; [| left; reflexivity].
        destruct Hphone as [-> | [H | ->]]; auto.
      + intros x Hx Ho Hp.
        destruct (JS.eqb (cust_id x) customerId) eqn:E; [apply eqb_eq; exact E |].
        exfalso.
        assert (Hall := proj1 (find_none_iff _ _ _) (existsb_false_find _ _ _ Hclash)
                          x Hx).
        unfold customerWhere in Hall.
        cbn [applyUpdate cust_organizationId cust_phone customerUpdate up_phone] in Hall.
        rewrite Ho, Hp, !eqb_refl, E in Hall. discriminate. }
  unfold bind at 1.
  destruct (JS.eqb (phone body) (cust_phone ec)) eqn:Hsamephone; cbn [negb].
  - unfold ret at 1. cbv beta iota.
    apply Hupdate. left. reflexivity.
  - unfold bind at 1.
    destruct (validatePhoneAndCheckAvailability_alone (phone body) (adminCountry o body)
                (org_id (organization o)) (Some customerId) d
                ((tr ++ [OrganizationFindUnique tenantId]) ++ [UserFindUnique cid]))
      as (pv & tr' & Hrun & Hpass).
    rewrite Hrun.
    destruct (phoneRejected pv) eqn:Hrej.
    + unfold ret at 1. cbv beta iota. put_refused.
    + unfold ret at 1. cbv beta iota.
      apply Hupdate. specialize (Hpass eq_refl).
      destruct (formatted (validation pv)) as [f |]; [| exact I].
      destruct Hpass as [-> | [He _]]; auto.
Qed.

(** A manager moves John Doe to a new number, written in national form;
    the stored phone becomes the canonical form, and the manager is
    recorded as the updater. *)
Example customer_PUT_examples :
  let edit :=
    mkCustomerRegistrationData (str "John") (str "Doe") (str "(555) 987-6543")
      (IsString (str "1990-01-15")) None None None None None None
      (Some (str "US")) true in
  (exists c' w1,
      customer_PUT (host := utcHost) (lib := nanpLib) sampleClock (Some (str "clerk-1"))
        (str "acme") (cust_id johnDoe) edit (alone johnsDbWithOutsider)
      = (Ok (mkReply 200 (Success c')), w1)
      /\ cust_phone c' = str "+15559876543"
      /\ cust_updatedBy c' = Some (user_id manager)
      /\ customers (db w1) = [c'])
  /\ fst (customer_PUT (host := utcHost) (lib := nanpLib) sampleClock
            (Some (str "clerk-2")) (str "acme") (cust_id johnDoe) edit
            (alone johnsDbWithOutsider))
     = Ok (refuse 403 "Insufficient permissions to edit customers")
  /\ fst (customer_PUT (host := utcHost) (lib := nanpLib) sampleClock
            (Some (str "clerk-3")) (str "beta") (cust_id johnDoe) edit
            (alone johnsDbWithOutsider))
     = Ok (refuse 403 "Forbidden").
Proof.
  intros edit. split; [| split; vm_compute; reflexivity].
  eexists. eexists. split; [vm_compute; reflexivity |].
  vm_compute. repeat split; reflexivity.
Qed.

(** When a rival record with the new phone is stored between the
    availability check and the update, the update fails on the unique
    (tenant, phone) and the handler answers 500, not 409. *)
Example customer_PUT_race :
  let edit :=
    mkCustomerRegistrationData (str "John") (str "Doe") (str "(555) 987-6543")
      (IsString (str "1990-01-15")) None None None None None None
      (Some (str "US")) true in
  let rival d :=
    withCustomer d
      (stored d (customerInput (host := utcHost) (org_id acme) (john true)
                   (str "+15559876543") None)) in
  let r := customer_PUT (host := utcHost) (lib := nanpLib) sampleClock
             (Some (str "clerk-1")) (str "acme") (cust_id johnDoe) edit
             (mkWorld johnsDb [quiet; quiet; quiet; quiet; mkStepEnv rival None] []) in
  fst r = Ok (refuse 500 "Internal server error")
  /\ customerById (db (snd r)) (cust_id johnDoe) = Some johnDoe.
Proof. vm_compute. split; reflexivity. Qed.

(** ** The phone validation endpoint *)

(** X24. The phone validation endpoint asks for no session.  Run alone for
    an existing tenant, with a phone that the formatter accepts in a
    canonical form which a stored customer of that tenant holds, it answers
    400 with a message that spells out the first and last name of the
    holder, unless the caller names that holder as the record to exclude. *)
Theorem validatePhone_POST_names_the_holder
    {lib : PhoneLib}
    (tenantId phone countryCode f : jsstring) (c : option jsstring)
    (excl : option Id) (o : OrganizationWithSettings) (holder : Customer)
    (d : Db) (tr : list DbCall) :
  truthy phone = true ->
  truthy countryCode = true ->
  organizationBySlug d tenantId = Some o ->
  validateAndFormatPhone phone countryCode = accepted f c ->
  isE164Format f = true ->
  find (customerWhere (org_id (organization o)) f
          (if truthy_opt excl then excl else None)) (customers d) = Some holder ->
  fst (validatePhone_POST tenantId (mkValidatePhoneBody (Some phone) (Some countryCode) excl)
         (mkWorld d [] tr))
  = Ok (mkReply 400
          (Failure (str "Phone number already registered to "
                    ++ cust_firstName holder ++ str " " ++ cust_lastName holder) None)).
Proof.
  intros Hp Hc Horg Hfmt He Hfind.
  unfold validatePhone_POST. unfold try_catch at 1.
  cbn [vp_phone vp_countryCode vp_excludeCustomerId]. rewrite Hp, Hc. cbn [negb orb].
  unfold bind at 1. rewrite getOrganizationBySlug_run by reflexivity.
  unfold afterInterference, advance. cbn [schedule db tl trace].
  rewrite Horg. unfold bind at 1.
  unfold validatePhoneAndCheckAvailability. rewrite Hfmt.
  unfold accepted. cbn [isValid formatted].
  rewrite (isE164Format_truthy _ He). unfold bind at 1.
  rewrite checkPhoneAvailability_run by (exact He || reflexivity).
  unfold afterInterference. cbn [schedule db tl trace].
  rewrite Hfind. unfold ret.
  cbn [available availability_message negb validation isValid check_available andb
       error fst].
  cbn [or_else truthy str app]. reflexivity.
Qed.

Lemma validatePhone_POST_names_the_holder_witness :
  fst (validatePhone_POST (lib := nanpLib) (str "acme")
         (mkValidatePhoneBody (Some (str "555-123-4567")) (Some (str "US")) None)
         (mkWorld johnsDb [] []))
  = Ok (mkReply 400
          (Failure (str "Phone number already registered to "
                    ++ cust_firstName johnDoe ++ str " " ++ cust_lastName johnDoe) None)).
Proof.
  apply (@validatePhone_POST_names_the_holder nanpLib (str "acme") (str "555-123-4567")
           (str "US") (str "+15551234567") (Some (str "US")) None
           (mkOrganizationWithSettings acme None) johnDoe johnsDb []);
    vm_compute; reflexivity.
Defined.

(** X25. The phone validation endpoint answers a body without a phone or
    without a country code with 400 before it touches the store, in any
    world.  Run alone it always answers and never writes, and it answers
    with success only with status 200, for an existing tenant, and for a
    result that the formatter marked valid and whose formatted phone, when
    there is one and it is not empty, is canonical and held by no record of
    the tenant other than the excluded one. *)
Theorem validatePhone_POST_success_only_when_free
    {lib : PhoneLib}
    (tenantId : jsstring) (body : ValidatePhoneBody) :
  (truthy_opt (vp_phone body) = false \/ truthy_opt (vp_countryCode body) = false ->
   forall w,
     validatePhone_POST tenantId body w
     = (Ok (refuse 400 "Phone number and country code are required"), w))
  /\ forall d tr,
       exists resp w1,
         validatePhone_POST tenantId body (mkWorld d [] tr) = (Ok resp, w1)
         /\ db w1 = d
         /\ forall result,
              reply_body resp = Success result ->
              reply_status resp = 200
              /\ isValid (validation result) = true
              /\ check_available result <> Some false
              /\ exists o phone countryCode,
                   organizationBySlug d tenantId = Some o
                   /\ vp_phone body = Some phone
                   /\ vp_countryCode body = Some countryCode
                   /\ formatted (validation result)
                      = formatted (validateAndFormatPhone phone countryCode)
                   /\ match formatted (validation result) with
                      | Some f =>
                          f = []
                          \/ (isE164Format f = true
                              /\ find (customerWhere (org_id (organization o)) f
                                         (if truthy_opt (vp_excludeCustomerId body)
                                          then vp_excludeCustomerId body else None))
                                      (customers d) = None)
                      | None => True
                      end.
Proof.
  split.
  - intros H w. unfold validatePhone_POST, try_catch.
    destruct (vp_phone body) as [p |], (vp_countryCode body) as [c |];
      cbn [truthy_opt] in H; try reflexivity.
    destruct H as [-> | ->]; [reflexivity |].
    rewrite orb_true_r. reflexivity.
  - intros d tr. unfold validatePhone_POST. unfold try_catch at 1.
    destruct (vp_phone body) as [p |] eqn:Hp;
      [| eexists; eexists; split; [reflexivity |]; split; [reflexivity |];
         intros ? ?; discriminate].
    destruct (vp_countryCode body) as [c |] eqn:Hc;
      [| eexists; eexists; split; [reflexivity |]; split; [reflexivity |];
         intros ? ?; discriminate].
    destruct (negb (truthy p) || negb (truthy c)) eqn:Hreq;
      [eexists; eexists; split; [reflexivity |]; split; [reflexivity |];
       intros ? ?; discriminate |].
    unfold bind at 1. rewrite getOrganizationBySlug_run by reflexivity.
    unfold afterInterference, advance. cbn [schedule db tl trace].
    destruct (organizationBySlug d tenantId) as [o |] eqn:Horg;
      [| eexists; eexists; split; [reflexivity |]; split; [reflexivity |];
         intros ? ?; discriminate].
    unfold bind at 1.
    destruct (validatePhoneAndCheckAvailability_alone p c (org_id (organization o))
                (vp_excludeCustomerId body) d (tr ++ [OrganizationFindUnique tenantId]))
      as (pv & tr' & Hrun & Hpass).
    pose proof Hrun as Hrun'.
    rewrite Hrun.
    destruct (isValid (validation pv)) eqn:Hv; cbn [andb];
      [| eexists; eexists; split; [reflexivity |]; split; [reflexivity |];
         intros ? ?; discriminate].
    destruct (check_available pv) as [[|] |] eqn:Ha; cbn [negb];
      try (eexists; eexists; split; [reflexivity |]; split; [reflexivity |];
           intros ? ?; discriminate).
    all: eexists; eexists; split; [reflexivity |]; split; [reflexivity |].
    all: intros result Hres; cbn [reply_body reply_status] in *;
      injection Hres as <-.
    all: split; [reflexivity |]; split; [exact Hv |].
    all: split; [rewrite Ha; discriminate |].
    all: exists o, p, c; repeat split.
    all: try (apply Hpass; unfold phoneRejected; rewrite Hv, Ha; reflexivity).
    all: clear Hpass; unfold validatePhoneAndCheckAvailability in Hrun'.
    all: destruct (isValid (validateAndFormatPhone p c)) eqn:Hv0;
      [destruct (formatted (validateAndFormatPhone p c)) as [f |] eqn:Hf0;
        [destruct (truthy f) |] |].
    all: try (injection Hrun' as <- _; cbn [validation]; congruence).
    all: unfold bind in Hrun';
      destruct (checkPhoneAvailability f (org_id (organization o))
                  (vp_excludeCustomerId body)
                  {| db := d; schedule := [];
                     trace := tr ++ [OrganizationFindUnique tenantId] |})
        as [[av | e] w'];
      [| discriminate].
    all: unfold ret in Hrun'; injection Hrun' as <- _;
      cbn [validation formatted]; reflexivity.
Qed.

Example validatePhone_POST_examples :
  fst (validatePhone_POST (lib := nanpLib) (str "acme")
         (mkValidatePhoneBody (Some (str "555-987-6543")) (Some (str "US")) None)
         (alone johnsDb))
  = Ok (mkReply 200
          (Success (mkPhoneCheckResult
                      (mkPhoneValidationResult true (Some (str "+15559876543"))
                         (Some (str "US")) None)
                      (Some true))))
  /\ fst (validatePhone_POST (lib := nanpLib) (str "acme")
            (mkValidatePhoneBody (Some (str "555-123-4567")) (Some (str "US"))
               (Some (cust_id johnDoe)))
            (alone johnsDb))
     = Ok (mkReply 200
             (Success (mkPhoneCheckResult
                         (mkPhoneValidationResult true (Some (str "+15551234567"))
                            (Some (str "US")) None)
                         (Some true))))
  /\ fst (validatePhone_POST (lib := nanpLib) (str "nowhere")
            (mkValidatePhoneBody (Some (str "555-123-4567")) (Some (str "US")) None)
            (alone johnsDb))
     = Ok (refuse 404 "Organization not found")
  /\ fst (validatePhone_POST (lib := nanpLib) (str "acme")
            (mkValidatePhoneBody (Some (str "123")) (Some (str "US")) None)
            (alone johnsDb))
     = Ok (mkReply 400
             (Failure (str "Invalid phone number for the selected country") None)).
Proof. vm_compute. repeat split; reflexivity. Qed.

(** ** Redelivery of a webhook event *)

Lemma userClash_after_insert d u data :
  user_clerkUserId u = uin_clerkUserId data ->
  userClash (withUser d u) data = true.
Proof.
  intros E. unfold userClash, withUser. cbn [users].
  rewrite existsb_app. cbn [existsb]. rewrite E, eqb_refl.
  cbn [orb]. apply orb_true_r.
Qed.

Lemma user_create_clash data d tr :
  userClash d data = true ->
  user_create data (mkWorld d [] tr)
  = (Throw P2002, mkWorld d [] (tr ++ [UserCreate (uin_clerkUserId data)])).
Proof.
  intros Hc. unfold user_create. rewrite await_run by reflexivity.
  unfold afterInterference. cbn [schedule db]. rewrite Hc. reflexivity.
Qed.

Lemma existsb_impl A (p q : A -> bool) l :
  existsb p l = true ->
  (forall x, p x = true -> q x = true) ->
  existsb q l = true.
Proof.
  intros H Hpq. apply existsb_exists in H. destruct H as (x & Hin & Hx).
  apply existsb_exists. exists x. auto.
Qed.

(** The provisioning step of the webhook handler, run alone: it answers
    200 whether or not the insert succeeds, leaves a store that depends on
    the store it found only, adds at most the user of the event, and adds
    nothing once a user with the event's id is stored. *)
Lemma provision_alone (clerkId e fn ln : jsstring) (org : Id) d :
  exists d1,
    (forall tr, exists tr1,
        (isFirstUser <- isFirstUserInOrganization org ;;
         _ <- try_catch
                (_ <- user_create
                        (mkUserCreateInput clerkId e fn ln
                           (if isFirstUser then SUPER_ADMIN else VIEWER) org) ;;
                 ret tt)
                (fun _ => ret tt) ;;
         ret (mkHttpResponse 200 WebhookReceived)) (mkWorld d [] tr)
        = (Ok (mkHttpResponse 200 WebhookReceived), mkWorld d1 [] tr1))
    /\ organizations d1 = organizations d
    /\ settingsTable d1 = settingsTable d
    /\ customers d1 = customers d
    /\ (d1 = d \/ exists u, d1 = withUser d u /\ user_clerkUserId u = clerkId)
    /\ (existsb (fun u => JS.eqb (user_clerkUserId u) clerkId) (users d) = true ->
        d1 = d).
Proof.
  set (data := mkUserCreateInput clerkId e fn ln
                 (if Nat.eqb (List.length (usersOf d org)) 0
                  then SUPER_ADMIN else VIEWER) org).
  assert (Hstep : forall tr,
             (isFirstUser <- isFirstUserInOrganization org ;;
              _ <- try_catch
                     (_ <- user_create
                             (mkUserCreateInput clerkId e fn ln
                                (if isFirstUser then SUPER_ADMIN else VIEWER) org) ;;
                      ret tt)
                     (fun _ => ret tt) ;;
              ret (mkHttpResponse 200 WebhookReceived)) (mkWorld d [] tr)
             = match user_create data (mkWorld d [] (tr ++ [UserCount org])) with
               | (_, w') => (Ok (mkHttpResponse 200 WebhookReceived), w')
               end).
  { intros tr. unfold bind at 1. rewrite isFirstUserInOrganization_alone.
    unfold bind at 1. unfold try_catch at 1. unfold bind at 1. fold data.
    destruct (user_create data _) as [[u | err] w']; reflexivity. }
  destruct (userClash d data) eqn:Hclash.
  - exists d. split.
    + intros tr. rewrite Hstep, (user_create_clash _ _ _ Hclash). eexists. reflexivity.
    + repeat split; auto.
  - destruct (tenantExists d (uin_organizationId data)) eqn:Htenant.
    + exists (withUser d (storedUser d data)). split.
      * intros tr. rewrite Hstep, (user_create_alone _ _ _ Hclash Htenant).
        eexists. reflexivity.
      * split; [reflexivity |]. split; [reflexivity |]. split; [reflexivity |].
        split.
        -- right. exists (storedUser d data). split; reflexivity.
        -- intros Hex. exfalso. unfold userClash in Hclash.
           rewrite (existsb_impl _ _ _ _ Hex) in Hclash; [discriminate |].
           intros x Hx. subst data. cbn [uin_clerkUserId]. rewrite Hx. reflexivity.
    + exists d. split.
      * intros tr. rewrite Hstep, (user_create_unknown_tenant _ _ _ Hclash Htenant).
        eexists. reflexivity.
      * repeat split; auto.
Qed.

Lemma try_catch_ok A (m : M A) (h : JsError -> M A) w a w' :
  m w = (Ok a, w') -> try_catch m h w = (Ok a, w').
Proof. intros H. unfold try_catch. rewrite H. reflexivity. Qed.

Ltac webhook_early d tr :=
  eexists; exists (mkWorld d [] tr), (mkWorld d [] tr);
  split; [reflexivity |]; split; [reflexivity |]; repeat split; auto.

(** X26. The webhook handler, run alone, gives the same answer when the
    same request is delivered a second time, and the second delivery leaves
    the store exactly as the first one left it.  The first delivery adds at
    most one user, whose identity-provider id is that of the event, and
    touches no tenant, settings row or customer. *)
Theorem clerk_POST_redelivery_writes_nothing
    (req : WebhookRequest) (d : Db) (tr : list DbCall) :
  exists resp w1 w2,
    clerk_POST req (mkWorld d [] tr) = (Ok resp, w1)
    /\ clerk_POST req w1 = (Ok resp, w2)
    /\ db w2 = db w1
    /\ organizations (db w1) = organizations d
    /\ settingsTable (db w1) = settingsTable d
    /\ customers (db w1) = customers d
    /\ (db w1 = d
        \/ exists u evt,
             verified req = Some evt
             /\ db w1 = withUser d u
             /\ user_clerkUserId u = evt_id evt).
Proof.
  unfold clerk_POST.
  destruct (negb (truthy_opt (webhookSecret req))); [webhook_early d tr |].
  destruct (negb (truthy_opt (svixId req)) || negb (truthy_opt (svixTimestamp req))
            || negb (truthy_opt (svixSignature req))); [webhook_early d tr |].
  destruct (verified req) as [evt |]; [| webhook_early d tr].
  destruct (JS.eqb (evt_type evt) (str "user.created")); [| webhook_early d tr].
  destruct (organizationSlug evt) as [slug |]; [| webhook_early d tr].
  destruct (email_addresses evt) as [[| e rest] |]; try webhook_early d tr.
  destruct (negb (truthy slug) || negb (truthy e)); [webhook_early d tr |].
  destruct (organizationBySlug d slug) as [o |] eqn:Horg.
  - destruct (provision_alone (evt_id evt) e
                (or_else (first_name evt)
                   (or_else (option_map beforeAt (Some e)) (str "User")))
                (or_else (last_name evt) []) (org_id (organization o)) d)
      as (d1 & Hrun1 & Ho1 & Hs1 & Hc1 & Hd1 & Hstay1).
    destruct (Hrun1 (tr ++ [OrganizationFindUnique slug])) as [tr1 Hfirst].
    assert (Horg1 : organizationBySlug d1 slug = Some o).
    { unfold organizationBySlug, settingsOf in *. rewrite Ho1, Hs1. exact Horg. }
    (* the second delivery finds the store that the first one left *)
    assert (Hsecond : exists tr2,
               (isFirstUser <- isFirstUserInOrganization (org_id (organization o)) ;;
                _ <- try_catch
                       (_ <- user_create
                               (mkUserCreateInput (evt_id evt) e
                                  (or_else (first_name evt)
                                     (or_else (option_map beforeAt (Some e))
                                        (str "User")))
                                  (or_else (last_name evt) [])
                                  (if isFirstUser then SUPER_ADMIN else VIEWER)
                                  (org_id (organization o))) ;;
                        ret tt)
                       (fun _ => ret tt) ;;
                ret (mkHttpResponse 200 WebhookReceived))
                 (mkWorld d1 [] (tr1 ++ [OrganizationFindUnique slug]))
               = (Ok (mkHttpResponse 200 WebhookReceived), mkWorld d1 [] tr2)).
    { destruct Hd1 as [-> | (u & -> & Hu)].
      - apply Hrun1.
      - destruct (provision_alone (evt_id evt) e
                    (or_else (first_name evt)
                       (or_else (option_map beforeAt (Some e)) (str "User")))
                    (or_else (last_name evt) []) (org_id (organization o))
                    (withUser d u))
          as (d2 & Hrun2 & _ & _ & _ & _ & Hstay2).
        assert (d2 = withUser d u) as ->.
        { apply Hstay2. unfold withUser. cbn [users].
          rewrite existsb_app. cbn [existsb]. rewrite Hu, eqb_refl.
          cbn [orb]. apply orb_true_r. }
        apply Hrun2. }
    destruct Hsecond as [tr2 Hsecond].
    exists (mkHttpResponse 200 WebhookReceived), (mkWorld d1 [] tr1), (mkWorld d1 [] tr2).
    split; [| split].
    + apply try_catch_ok. unfold bind at 1. unfold organization_findUnique at 1.
      rewrite await_run by reflexivity.
      unfold afterInterference. cbn [schedule db tl trace fst snd].
      rewrite Horg. exact Hfirst.
    + apply try_catch_ok. unfold bind at 1. unfold organization_findUnique at 1.
      rewrite await_run by reflexivity.
      unfold afterInterference. cbn [schedule db tl trace fst snd].
      rewrite Horg1. exact Hsecond.
    + cbn [db]. split; [reflexivity |].
      split; [exact Ho1 |]. split; [exact Hs1 |]. split; [exact Hc1 |].
      destruct Hd1 as [-> | (u & -> & Hu)]; [left; reflexivity |].
      right. exists u, evt. repeat split; auto.
  - exists (mkHttpResponse 200 WebhookReceived),
      (mkWorld d [] (tr ++ [OrganizationFindUnique slug])),
      (mkWorld d [] ((tr ++ [OrganizationFindUnique slug])
                     ++ [OrganizationFindUnique slug])).
    split; [| split].
    + apply try_catch_ok. unfold bind at 1. unfold organization_findUnique at 1.
      rewrite await_run by reflexivity.
      unfold afterInterference. cbn [schedule db tl trace fst snd].
      rewrite Horg. reflexivity.
    + apply try_catch_ok. unfold bind at 1. unfold organization_findUnique at 1.
      rewrite await_run by reflexivity.
      unfold afterInterference. cbn [schedule db tl trace fst snd].
      rewrite Horg. reflexivity.
    + cbn [db]. repeat split; auto.
Qed.

(** The sample event delivered twice provisions one super admin. *)
Example clerk_POST_redelivery_example :
  map user_clerkUserId
    (users (db (snd (clerk_POST sampleRequest
                       (snd (clerk_POST sampleRequest (alone sampleDb)))))))
  = [str "clerk-1"; str "clerk-2"; str "clerk-9"].
Proof. vm_compute. reflexivity. Qed.

(** ** Verifying a customer's phone and a user's tenant *)

Lemma verifyCustomerPhone_run phone customerId org w :
  nextFault w = None ->
  verifyCustomerPhone phone customerId org w
  = (Ok (match find (fun c => JS.eqb (cust_id c) customerId
                              && JS.eqb (cust_organizationId c) org)
                    (customers (afterInterference w)) with
         | Some c => JS.eqb (cust_phone c) phone
         | None => false
         end),
     mkWorld (afterInterference w) (tl (schedule w)) (trace w)).
Proof.
  intros Hf. unfold verifyCustomerPhone, try_catch, bind, customer_findUniqueIn.
  rewrite (awaitUnlogged_run _ _ _ Hf). reflexivity.
Qed.

(** X27. [verifyCustomerPhone] answers false when its lookup fails.  When
    it answers true for a canonical phone, alone against a store that
    satisfies the uniqueness of (tenant, phone), then [getCustomerByPhone]
    for that tenant and phone returns a record with the verified id, and
    [checkPhoneAvailability] reports the phone as taken unless that id is
    excluded. *)
Theorem verifyCustomerPhone_agrees_with_lookup
    (phone customerId org : jsstring) (d : Db) (tr : list DbCall) :
  phoneUnique d ->
  isE164Format phone = true ->
  truthy customerId = true ->
  fst (verifyCustomerPhone phone customerId org (mkWorld d [] tr)) = Ok true ->
  (exists c,
      fst (getCustomerByPhone phone org (mkWorld d [] tr)) = Ok (Some c)
      /\ cust_id c = customerId /\ cust_phone c = phone
      /\ cust_organizationId c = org)
  /\ (exists r, fst (checkPhoneAvailability phone org None (mkWorld d [] tr)) = Ok r
                /\ available r = false)
  /\ fst (checkPhoneAvailability phone org (Some customerId) (mkWorld d [] tr))
     = Ok phoneAvailable
  /\ forall w e, nextFault w = Some e ->
                 fst (verifyCustomerPhone phone customerId org w) = Ok false.
Proof.
  intros Hu He Hid Hv.
  rewrite verifyCustomerPhone_run in Hv by reflexivity.
  unfold afterInterference in Hv. cbn [fst schedule db] in Hv.
  destruct (find _ (customers d)) as [c0 |] eqn:F0; [| discriminate].
  injection Hv as Hphone. apply eqb_eq in Hphone.
  destruct (find_some _ _ F0) as [Hin0 Hc0]. apply andb_true_iff in Hc0.
  destruct Hc0 as [Hid0 Horg0]. apply eqb_eq in Hid0, Horg0.
  assert (Hmatch : customerWhere org phone None c0 = true).
  { unfold customerWhere. rewrite Horg0, Hphone, !eqb_refl. reflexivity. }
  repeat split.
  - rewrite getCustomerByPhone_run by (exact He || reflexivity).
    unfold afterInterference. cbn [fst schedule db].
    destruct (find (customerWhere org phone None) (customers d)) as [c |] eqn:F.
    + exists c. destruct (find_some _ _ F) as [Hin Hc]. unfold customerWhere in Hc.
      rewrite !andb_true_iff in Hc. destruct Hc as [[Ho Hp] _].
      apply eqb_eq in Ho, Hp. repeat split; auto.
      rewrite <- Hid0. apply Hu; congruence.
    + rewrite find_none_iff in F. rewrite (F c0 Hin0) in Hmatch. discriminate.
  - rewrite checkPhoneAvailability_run by (exact He || reflexivity).
    cbn [truthy_opt fst]. unfold afterInterference. cbn [schedule db].
    destruct (find (customerWhere org phone None) (customers d)) as [c |] eqn:F.
    + eexists. split; reflexivity.
    + rewrite find_none_iff in F. rewrite (F c0 Hin0) in Hmatch. discriminate.
  - rewrite checkPhoneAvailability_run by (exact He || reflexivity).
    cbn [truthy_opt fst]. rewrite Hid. unfold afterInterference. cbn [schedule db].
    replace (find _ _) with (@None Customer); [reflexivity |].
    symmetry. apply find_none_iff. intros x Hx. unfold customerWhere.
    destruct (JS.eqb (cust_organizationId x) org) eqn:E1; [| reflexivity].
    destruct (JS.eqb (cust_phone x) phone) eqn:E2; [| reflexivity].
    apply eqb_eq in E1, E2.
    assert (Hx_id : cust_id x = customerId)
      by (rewrite <- Hid0; apply Hu; congruence).
    rewrite Hx_id, eqb_refl. reflexivity.
  - intros w e Hf. unfold verifyCustomerPhone, try_catch, bind, customer_findUniqueIn.
    rewrite (awaitUnlogged_fault _ _ _ _ Hf). reflexivity.
Qed.

Lemma verifyCustomerPhone_agrees_with_lookup_witness :
  (exists c,
      fst (getCustomerByPhone (str "+15551234567") (org_id acme) (mkWorld johnsDb [] []))
      = Ok (Some c)
      /\ cust_id c = cust_id johnDoe /\ cust_phone c = str "+15551234567"
      /\ cust_organizationId c = org_id acme)
  /\ (exists r,
         fst (checkPhoneAvailability (str "+15551234567") (org_id acme) None
                (mkWorld johnsDb [] [])) = Ok r
         /\ available r = false)
  /\ fst (checkPhoneAvailability (str "+15551234567") (org_id acme)
            (Some (cust_id johnDoe)) (mkWorld johnsDb [] []))
     = Ok phoneAvailable
  /\ forall w e, nextFault w = Some e ->
                 fst (verifyCustomerPhone (str "+15551234567") (cust_id johnDoe)
                        (org_id acme) w) = Ok false.
Proof.
  apply (verifyCustomerPhone_agrees_with_lookup (str "+15551234567") (cust_id johnDoe)
           (org_id acme) johnsDb []).
  - intros c1 c2 [<- | []] [<- | []] _ _. reflexivity.
  - reflexivity.
  - reflexivity.
  - vm_compute. reflexivity.
Defined.

(** The same id under another tenant, or another phone, is not verified. *)
Example verifyCustomerPhone_examples :
  fst (verifyCustomerPhone (str "+15551234567") (cust_id johnDoe) (org_id beta)
         (alone johnsDb)) = Ok false
  /\ fst (verifyCustomerPhone (str "+15559876543") (cust_id johnDoe) (org_id acme)
            (alone johnsDb)) = Ok false.
Proof. vm_compute. split; reflexivity. Qed.

Lemma validateUserTenantAccess_run cid org w :
  nextFault w = None ->
  validateUserTenantAccess cid org w
  = (Ok (match find (fun u => JS.eqb (user_clerkUserId u) cid
                              && JS.eqb (user_organizationId u) org)
                    (users (afterInterference w)) with
         | Some _ => true
         | None => false
         end),
     mkWorld (afterInterference w) (tl (schedule w)) (trace w)).
Proof.
  intros Hf. unfold validateUserTenantAccess, try_catch, bind, user_findFirst.
  rewrite (awaitUnlogged_run _ _ _ Hf). reflexivity.
Qed.

(** X28. Against a store whose identity-provider ids are unique,
    [validateUserTenantAccess], run alone, grants a caller access to one
    tenant at most, and to exactly the tenant for which the checks at the
    start of the internal routes let the caller pass, which is also the one
    tenant that [belongsToOrganization] accepts for the caller's user
    record; when its lookup fails it grants nothing. *)
Theorem validateUserTenantAccess_single_tenant
    (clerkUserId : jsstring) (d : Db) (tr : list DbCall) :
  clerkIdsUnique d ->
  (forall org1 org2,
      fst (validateUserTenantAccess clerkUserId org1 (mkWorld d [] tr)) = Ok true ->
      fst (validateUserTenantAccess clerkUserId org2 (mkWorld d [] tr)) = Ok true ->
      org1 = org2)
  /\ (forall tenantId o u,
        memberOf d (Some clerkUserId) tenantId o u ->
        forall org,
          (fst (validateUserTenantAccess clerkUserId org (mkWorld d [] tr)) = Ok true
           <-> org = org_id (organization o))
          /\ (belongsToOrganization (Some u) org = true
              <-> org = org_id (organization o)))
  /\ forall org w e,
       nextFault w = Some e ->
       fst (validateUserTenantAccess clerkUserId org w) = Ok false.
Proof.
  intros Hnd.
  assert (Hkey : forall org,
             fst (validateUserTenantAccess clerkUserId org (mkWorld d [] tr)) = Ok true ->
             exists u, In u (users d) /\ user_clerkUserId u = clerkUserId
                       /\ user_organizationId u = org).
  { intros org H. rewrite validateUserTenantAccess_run in H by reflexivity.
    unfold afterInterference in H. cbn [fst schedule db] in H.
    destruct (find _ (users d)) as [u |] eqn:F; [| discriminate].
    destruct (find_some _ _ F) as [Hin Hu]. apply andb_true_iff in Hu.
    destruct Hu as [H1 H2]. apply eqb_eq in H1, H2. exists u. auto. }
  split; [| split].
  - intros org1 org2 H1 H2.
    destruct (Hkey _ H1) as (u1 & Hin1 & Hc1 & <-).
    destruct (Hkey _ H2) as (u2 & Hin2 & Hc2 & <-).
    f_equal. apply (NoDup_map_In_inj _ _ user_clerkUserId (users d)); auto.
    congruence.
  - intros tenantId o u (cid & Hs & _ & _ & Hfind & Horg) org.
    injection Hs as <-.
    destruct (find_some _ _ Hfind) as [Hin Hc]. apply eqb_eq in Hc.
    split; [| cbn [belongsToOrganization]; rewrite Horg, eqb_eq;
              split; intros E; symmetry; exact E].
    split.
    + intros H.
      destruct (Hkey _ H) as (u1 & Hin1 & Hc1 & <-).
      rewrite <- Horg. f_equal.
      apply (NoDup_map_In_inj _ _ user_clerkUserId (users d)); auto. congruence.
    + intros ->.
      rewrite validateUserTenantAccess_run by reflexivity.
      unfold afterInterference. cbn [fst schedule db].
      destruct (find (fun u0 => JS.eqb (user_clerkUserId u0) clerkUserId
                                && JS.eqb (user_organizationId u0)
                                     (org_id (organization o))) (users d)) eqn:F;
        [reflexivity |].
      rewrite find_none_iff in F. specialize (F u Hin).
      rewrite Hc, Horg, !eqb_refl in F. discriminate.
  - intros org w e Hf. unfold validateUserTenantAccess, try_catch, bind, user_findFirst.
    rewrite (awaitUnlogged_fault _ _ _ _ Hf). reflexivity.
Qed.

Lemma validateUserTenantAccess_single_tenant_witness :
  (forall org1 org2,
      fst (validateUserTenantAccess (str "clerk-1") org1 (mkWorld sampleDb [] []))
      = Ok true ->
      fst (validateUserTenantAccess (str "clerk-1") org2 (mkWorld sampleDb [] []))
      = Ok true ->
      org1 = org2)
  /\ (forall tenantId o u,
        memberOf sampleDb (Some (str "clerk-1")) tenantId o u ->
        forall org,
          (fst (validateUserTenantAccess (str "clerk-1") org (mkWorld sampleDb [] []))
           = Ok true
           <-> org = org_id (organization o))
          /\ (belongsToOrganization (Some u) org = true
              <-> org = org_id (organization o)))
  /\ forall org w e,
       nextFault w = Some e ->
       fst (validateUserTenantAccess (str "clerk-1") org w) = Ok false.
Proof.
  apply (validateUserTenantAccess_single_tenant (str "clerk-1") sampleDb []).
  vm_compute. repeat constructor; simpl; intuition discriminate.
Defined.

(** ** What the handlers store of a validated payload *)

Lemma trimStart_suffix s : exists p, s = p ++ trimStart s.
Proof.
  induction s as [| c s IH]; simpl.
  - exists []. reflexivity.
  - destruct (isWhiteSpace c).
    + destruct IH as [p Hp]. exists (c :: p). simpl. rewrite <- Hp. reflexivity.
    + exists []. reflexivity.
Qed.

Lemma trimEnd_prefix s : exists q, s = trimEnd s ++ q.
Proof.
  unfold trimEnd. destruct (trimStart_suffix (rev s)) as [p Hp].
  exists (rev p). rewrite <- rev_app_distr, <- Hp. symmetry. apply rev_involutive.
Qed.

Lemma trim_infix s : exists p q, s = p ++ trim s ++ q.
Proof.
  unfold trim. destruct (trimStart_suffix s) as [p Hp].
  destruct (trimEnd_prefix (trimStart s)) as [q Hq].
  exists p, q. rewrite <- Hq. exact Hp.
Qed.

Lemma trim_length s : List.length (trim s) <= List.length s.
Proof.
  destruct (trim_infix s) as (p & q & E). rewrite E at 2.
  rewrite !length_app. lia.
Qed.

Lemma trim_Forall (P : char -> Prop) s : Forall P s -> Forall P (trim s).
Proof.
  destruct (trim_infix s) as (p & q & E). intros H. rewrite E in H.
  apply Forall_app in H. destruct H as [_ H].
  apply Forall_app in H. tauto.
Qed.

Lemma trimStart_idem s : trimStart (trimStart s) = trimStart s.
Proof.
  induction s as [| c s IH]; simpl; [reflexivity |].
  destruct (isWhiteSpace c) eqn:E; [exact IH |].
  simpl. rewrite E. reflexivity.
Qed.

Lemma trimStart_snoc l c :
  isWhiteSpace c = false -> trimStart (l ++ [c]) = trimStart l ++ [c].
Proof.
  intros Hc. induction l as [| a l IH]; simpl.
  - rewrite Hc. reflexivity.
  - destruct (isWhiteSpace a); [exact IH | reflexivity].
Qed.

Lemma trimStart_trimEnd y : trimStart y = y -> trimStart (trimEnd y) = trimEnd y.
Proof.
  destruct y as [| c y']; [reflexivity |].
  simpl. destruct (isWhiteSpace c) eqn:E.
  - intros H. exfalso.
    destruct (trimStart_suffix y') as [p Hp].
    apply (f_equal (@List.length char)) in H. rewrite Hp in H at 2.
    simpl in H. rewrite length_app in H. lia.
  - intros _. unfold trimEnd. simpl rev.
    rewrite (trimStart_snoc _ _ E), rev_app_distr. simpl. rewrite E. reflexivity.
Qed.

Lemma trimEnd_idem x : trimEnd (trimEnd x) = trimEnd x.
Proof. unfold trimEnd. rewrite rev_involutive, trimStart_idem. reflexivity. Qed.

Lemma trim_idem s : trim (trim s) = trim s.
Proof.
  unfold trim. rewrite (trimStart_trimEnd _ (trimStart_idem s)).
  apply trimEnd_idem.
Qed.

Lemma trimOrNull_trimmed o s :
  trimOrNull o = Some s ->
  s <> [] /\ trim s = s /\ exists raw, o = Some raw /\ s = trim raw /\ truthy raw = true.
Proof.
  unfold trimOrNull. destruct o as [raw |]; [| discriminate].
  destruct (truthy (trim raw)) eqn:Ht; [| discriminate].
  intros H. injection H as <-. split; [| split].
  - destruct (trim raw); [discriminate | discriminate].
  - apply trim_idem.
  - exists raw. repeat split.
    destruct raw; [discriminate | reflexivity].
Qed.

Lemma validateName_passes name fieldName :
  validateName name fieldName = None ->
  2 <= List.length (trim name)
  /\ List.length name <= 100
  /\ Forall (fun c => nameChar c = true) name.
Proof.
  unfold validateName.
  destruct (negb (truthy name) || Nat.eqb (List.length (trim name)) 0);
    [discriminate |].
  destruct (Nat.ltb_spec (List.length (trim name)) 2); [discriminate |].
  destruct (Nat.ltb_spec 100 (List.length name)); [discriminate |].
  destruct (test nameRegex name) eqn:Ht; [| discriminate].
  intros _. apply test_nameRegex in Ht. tauto.
Qed.

Lemma validateCity_passes city :
  truthy city = true ->
  validateCity city = None ->
  2 <= List.length (trim city)
  /\ List.length city <= 100
  /\ Forall (fun c => cityChar c = true) city.
Proof.
  unfold validateCity. intros ->. cbn [negb].
  destruct (Nat.ltb_spec (List.length (trim city)) 2); [discriminate |].
  destruct (Nat.ltb_spec 100 (List.length city)); [discriminate |].
  destruct (test cityRegex city) eqn:Ht; [| discriminate].
  intros _. unfold test, cityRegex in Ht.
  rewrite fullMatch_Lang in Ht. apply Lang_Plus_class in Ht. tauto.
Qed.

Lemma validateState_passes state :
  truthy state = true ->
  validateState state = None ->
  2 <= List.length (trim state) /\ List.length state <= 100.
Proof.
  unfold validateState. intros ->. cbn [negb].
  destruct (Nat.ltb_spec (List.length (trim state)) 2); [discriminate |].
  destruct (Nat.ltb_spec 100 (List.length state)); [discriminate |].
  auto.
Qed.

Lemma validateAddressLine_passes a f :
  validateAddressLine a f = None -> List.length a <= 200.
Proof.
  unfold validateAddressLine.
  destruct (truthy a) eqn:Ht; cbn [negb].
  - destruct (Nat.ltb_spec (List.length a) 3); [discriminate |].
    destruct (Nat.ltb_spec 200 (List.length a)); [discriminate | auto].
  - destruct a; [simpl; lia | discriminate].
Qed.

Lemma whenGiven_passes v validate raw :
  whenGiven v validate = None -> v = Some raw -> truthy raw = true ->
  validate raw = None.
Proof. intros H -> Ht. unfold whenGiven in H. rewrite Ht in H. exact H. Qed.

(** X29. Of a payload that passes the registration validator, both
    creation handlers store: consent given; first and last name trimmed,
    two to one hundred characters long, made of letters, white space,
    hyphens and apostrophes; and each optional text field either null or a
    non-empty trimmed string.  A stored city has two to one hundred
    characters of the city class and a stored state two to one hundred
    characters, while a stored address line is known to have at most two
    hundred: its minimum of three is checked before trimming. *)
Theorem customerInput_holds_validated_values
    {host : Host} (clk : ClockReads) (body : CustomerRegistrationData)
    (org f : jsstring) (by_ : option Id) :
  validateCustomerRegistration clk body = [] ->
  let input := customerInput org body f by_ in
  in_consentGiven input = true
  /\ in_organizationId input = org
  /\ in_phone input = f
  /\ in_createdBy input = by_
  /\ Forall (fun n => 2 <= List.length n <= 100
                      /\ Forall (fun c => nameChar c = true) n
                      /\ trim n = n)
       [in_firstName input; in_lastName input]
  /\ Forall (fun v => forall s, v = Some s -> s <> [] /\ trim s = s)
       [in_email input; in_addressLine1 input; in_addressLine2 input;
        in_city input; in_state input; in_postalCode input]
  /\ (forall c, in_city input = Some c ->
                2 <= List.length c <= 100 /\ Forall (fun x => cityChar x = true) c)
  /\ (forall s, in_state input = Some s -> 2 <= List.length s <= 100)
  /\ (forall a, in_addressLine1 input = Some a \/ in_addressLine2 input = Some a ->
                1 <= List.length a <= 200).
Proof.
  intros Hval input.
  unfold validateCustomerRegistration in Hval.
  rewrite !pushOptional_errorList, !push_errorList in Hval.
  rewrite !app_eq_nil_iff, !errorList_nil in Hval.
  destruct Hval as (((((((((( _ & Hfn) & Hln) & _) & Hc) & _) & Ha1) & Ha2)
                        & Hcity) & Hstate) & _).
  subst input. unfold customerInput.
  cbn [in_consentGiven in_organizationId in_phone in_createdBy in_firstName
       in_lastName in_email in_addressLine1 in_addressLine2 in_city in_state
       in_postalCode].
  split.
  { unfold validateConsent in Hc. destruct (consentGiven body);
      [reflexivity | discriminate]. }
  split; [reflexivity |]. split; [reflexivity |]. split; [reflexivity |].
  split.
  { assert (Hname : forall n fld, validateName n fld = None ->
                2 <= List.length (trim n) <= 100
                /\ Forall (fun c => nameChar c = true) (trim n)
                /\ trim (trim n) = trim n).
    { intros n fld H. apply validateName_passes in H.
      destruct H as (H2 & H100 & Hf). pose proof (trim_length n).
      split; [lia |]. split; [apply trim_Forall; exact Hf | apply trim_idem]. }
    constructor; [exact (Hname _ _ Hfn) |].
    constructor; [exact (Hname _ _ Hln) | constructor]. }
  split.
  { repeat (constructor; [intros s Hs; apply trimOrNull_trimmed in Hs; tauto |]).
    constructor. }
  split.
  { intros c Hs. apply trimOrNull_trimmed in Hs.
    destruct Hs as (_ & _ & raw & Hraw & -> & Ht).
    pose proof (validateCity_passes raw Ht (whenGiven_passes _ _ _ Hcity Hraw Ht))
      as (H2 & H100 & Hf).
    pose proof (trim_length raw).
    split; [lia | apply trim_Forall; exact Hf]. }
  split.
  { intros s Hs. apply trimOrNull_trimmed in Hs.
    destruct Hs as (_ & _ & raw & Hraw & -> & Ht).
    pose proof (validateState_passes raw Ht (whenGiven_passes _ _ _ Hstate Hraw Ht))
      as (H2 & H100).
    pose proof (trim_length raw). lia. }
  intros a [Hs | Hs]; apply trimOrNull_trimmed in Hs;
    destruct Hs as (Hne & _ & raw & Hraw & -> & Ht);
    pose proof (trim_length raw).
  - pose proof (validateAddressLine_passes raw _ (whenGiven_passes _ _ _ Ha1 Hraw Ht)).
    destruct (trim raw); [congruence | simpl in *; lia].
  - pose proof (validateAddressLine_passes raw _ (whenGiven_passes _ _ _ Ha2 Hraw Ht)).
    destruct (trim raw); [congruence | simpl in *; lia].
Qed.

Lemma customerInput_holds_validated_values_witness :
  let input := customerInput (host := utcHost) (org_id acme) (john true)
                 (str "+15551234567") None in
  in_consentGiven input = true
  /\ in_organizationId input = org_id acme
  /\ in_phone input = str "+15551234567"
  /\ in_createdBy input = None
  /\ Forall (fun n => 2 <= List.length n <= 100
                      /\ Forall (fun c => nameChar c = true) n
                      /\ trim n = n)
       [in_firstName input; in_lastName input]
  /\ Forall (fun v => forall s, v = Some s -> s <> [] /\ trim s = s)
       [in_email input; in_addressLine1 input; in_addressLine2 input;
        in_city input; in_state input; in_postalCode input]
  /\ (forall c, in_city input = Some c ->
                2 <= List.length c <= 100 /\ Forall (fun x => cityChar x = true) c)
  /\ (forall s, in_state input = Some s -> 2 <= List.length s <= 100)
  /\ (forall a, in_addressLine1 input = Some a \/ in_addressLine2 input = Some a ->
                1 <= List.length a <= 200).
Proof.
  apply (@customerInput_holds_validated_values utcHost sampleClock (john true)
           (org_id acme) (str "+15551234567") None).
  vm_compute. reflexivity.
Defined.

(** An address line of one letter and two spaces passes the validator and
    is stored as that one letter; three spaces pass and are stored as
    null. *)
Example customerInput_short_address :
  let withAddress (a : jsstring) :=
    mkCustomerRegistrationData (str "John") (str "Doe") (str "(555) 123-4567")
      (IsString (str "1990-01-15")) None (Some a) None None None None
      (Some (str "US")) true in
  validateCustomerRegistration (host := utcHost) sampleClock (withAddress (str "a  ")) = []
  /\ in_addressLine1 (customerInput (host := utcHost) (org_id acme) (withAddress (str "a  "))
                        (str "+15551234567") None) = Some (str "a")
  /\ validateCustomerRegistration (host := utcHost) sampleClock (withAddress (str "   ")) = []
  /\ in_addressLine1 (customerInput (host := utcHost) (org_id acme) (withAddress (str "   "))
                        (str "+15551234567") None) = None.
Proof. vm_compute. repeat split; reflexivity. Qed.

(** ** The first registration under an unseen slug *)

(** X30. When the phone library knows countries by two-letter codes, a
    public registration that passes the form validator under a slug that
    no tenant has yet, run alone, creates the tenant, named after the slug
    with its first letter in upper case and its hyphens as spaces, together
    with a settings row for "United States", and then answers 400 without
    storing the customer: the settings country of the new tenant is what
    the handler gives the formatter as the country code. *)
Theorem register_POST_unseen_slug
    {host : Host} {lib : PhoneLib}
    (clk : ClockReads) (slug : jsstring) (body : CustomerRegistrationData)
    (d : Db) (tr : list DbCall) :
  (forall c, In c getCountries -> List.length c = 2) ->
  validateCustomerRegistration clk body = [] ->
  organizationBySlug d slug = None ->
  exists resp w1 o s,
    register_POST clk slug body (mkWorld d [] tr) = (Ok resp, w1)
    /\ (resp = fail 400 (str "Phone number is required")
        \/ resp = fail 400 (str "Invalid country code"))
    /\ organizations (db w1) = organizations d ++ [o]
    /\ org_slug o = slug
    /\ org_name o = toUpperCase (firstn 1 slug) ++ dashesToSpaces (skipn 1 slug)
    /\ settingsTable (db w1) = settingsTable d ++ [s]
    /\ settings_organizationId s = org_id o
    /\ settings_country s = str "United States"
    /\ customers (db w1) = customers d
    /\ users (db w1) = users d.
Proof.
  intros Hlib Hval Hnone.
  assert (Hex : existsb (fun o => JS.eqb (org_slug o) slug) (organizations d) = false).
  { rewrite <- organizationBySlug_found, Hnone. reflexivity. }
  unfold register_POST. unfold try_catch at 1. rewrite Hval.
  cbn [List.length Nat.ltb Nat.leb]. unfold bind at 1.
  rewrite getOrganizationBySlug_run by reflexivity.
  unfold afterInterference, advance. cbn [schedule db tl trace].
  rewrite Hnone. unfold bind at 1. unfold bind at 1.
  unfold createOrganization. unfold try_catch at 1. unfold bind at 1.
  unfold organization_create. rewrite await_run by reflexivity.
  unfold afterInterference. cbn [schedule db tl trace fst snd].
  rewrite Hex. cbn [fst snd]. unfold ret at 1. cbv beta iota.
  unfold ret at 1. cbv beta iota.
  match goal with
  | |- context [validatePhoneAndCheckAvailability ?p ?cc ?org None] =>
      assert (Hcc : cc = str "United States") by reflexivity;
      rewrite Hcc
  end.
  unfold validatePhoneAndCheckAvailability.
  assert (Hin : In (str "United States") countryNames) by (vm_compute; tauto).
  destruct (validateAndFormatPhone_country_name (phone body) (str "United States")
              Hlib Hin) as [E | E];
    rewrite E; unfold invalidPhone; cbn [isValid formatted]; unfold ret at 1;
    unfold phoneRejected, phoneRejection;
    cbn [validation isValid negb orb error or_else truthy str];
    (eexists; eexists; eexists; eexists; split; [reflexivity |]);
    cbn [db organizations settingsTable customers users];
    (split; [auto |]); repeat split; reflexivity.
Qed.

Lemma register_POST_unseen_slug_witness :
  exists resp w1 o s,
    register_POST (host := utcHost) (lib := nanpLib) sampleClock (str "gamma-shop")
      (john true) (mkWorld sampleDb [] []) = (Ok resp, w1)
    /\ (resp = fail 400 (str "Phone number is required")
        \/ resp = fail 400 (str "Invalid country code"))
    /\ organizations (db w1) = organizations sampleDb ++ [o]
    /\ org_slug o = str "gamma-shop"
    /\ org_name o = toUpperCase (Host := utcHost) (firstn 1 (str "gamma-shop"))
                    ++ dashesToSpaces (skipn 1 (str "gamma-shop"))
    /\ settingsTable (db w1) = settingsTable sampleDb ++ [s]
    /\ settings_organizationId s = org_id o
    /\ settings_country s = str "United States"
    /\ customers (db w1) = customers sampleDb
    /\ users (db w1) = users sampleDb.
Proof.
  apply (@register_POST_unseen_slug utcHost nanpLib sampleClock (str "gamma-shop")
           (john true) sampleDb []).
  - intros c [<- | [<- | []]]; reflexivity.
  - vm_compute. reflexivity.
  - vm_compute. reflexivity.
Defined.

Example register_POST_unseen_slug_name :
  map org_name
    (organizations
       (db (snd (register_POST (host := utcHost) (lib := nanpLib) sampleClock
                   (str "gamma-shop") (john true) (alone sampleDb)))))
  = [str "Acme"; str "Beta"; str "Gamma shop"].
Proof. vm_compute. reflexivity. Qed.
